(** * Solar power monitor (INA3221 driver and sampling scheduler)

    A shallow embedding of [power-stream.py]: the register codec and the
    [INA3221] driver class, the [SolarPower] sampler with its two callbacks,
    and the part of Python's [sched.scheduler] that the program drives.

    Conventions of the embedding.
    - Python [int] is [Z].  Python [float] is a type [F] with the operations
      of class [PyFloat]; the instance is IEEE binary64 ([PrimFloat]),
      what CPython computes.
    - Everything outside the process (the SMBus device, the clocks, sleeping)
      is an abstract state [D] with the operations of class [Env]; the
      observable actions of the program are appended to a trace.
    - A computation is a function [World -> outcome A * World]: it returns a
      value, raises a Python exception, or exhausts the step bound given to an
      unbounded [while] loop ([Spin]); the world it leaves behind is kept in
      all three cases. *)

From Stdlib Require Import ZArith Floats Uint63 List String Bool Lia.
Import ListNotations.

Open Scope string_scope.
Open Scope list_scope.
Open Scope Z_scope.

(* ================================================================== *)
(** * Python numbers *)

(** The float operations the program uses.  [of_int] is the implicit
    int-to-float conversion of a mixed operation; [feqb] and [fltb] are
    [==] and [<]. *)
Class PyFloat (F : Type) : Type := {
  of_int : Z -> F;
  fadd : F -> F -> F;
  fsub : F -> F -> F;
  fmul : F -> F -> F;
  fdiv : F -> F -> F;
  feqb : F -> F -> bool;
  fltb : F -> F -> bool
}.

(** Truth value of a float: [bool(x)] is [x != 0]. *)
Definition is_zero {F} `{PyFloat F} (x : F) : bool := feqb x (of_int 0).
Definition truthy {F} `{PyFloat F} (x : F) : bool := negb (is_zero x).

(** IEEE binary64, CPython's [float].  The conversion is exact for the
    integers the program converts, all of magnitude below 2^53. *)
Definition float_of_int (z : Z) : float :=
  if z <? 0 then PrimFloat.opp (PrimFloat.of_uint63 (Uint63.of_Z (- z)))
  else PrimFloat.of_uint63 (Uint63.of_Z z).

#[global] Instance binary64 : PyFloat float := {|
  of_int := float_of_int;
  fadd := PrimFloat.add;
  fsub := PrimFloat.sub;
  fmul := PrimFloat.mul;
  fdiv := PrimFloat.div;
  feqb := PrimFloat.eqb;
  fltb := PrimFloat.ltb
|}.

(* ================================================================== *)
(** * Exceptions and computations *)

Inductive exn : Type :=
| ValueError (msg : string)
| OverflowError
| StructError
| OSError
| ZeroDivisionError
| IndexError
| KeyError (key : string)
| TypeError
| AttributeError.

Inductive outcome (A : Type) : Type :=
| Ret (a : A)
| Raise (e : exn)
| Spin.
Arguments Ret {A} a.
Arguments Raise {A} e.
Arguments Spin {A}.

Inductive byteorder : Type := little | big.

(** The collaborators of the process: [smbus.SMBus] word transfers at a
    device address and register, each of which returns or raises (left
    injection); [time.sleep]; [time.monotonic]; the UTC wall clock rendered
    by [isoformat(timespec='seconds')]; and [sys.byteorder], which fixes the
    layout of [struct]'s native format. *)
Class Env (F D : Type) : Type := {
  sys_byteorder : byteorder;
  read_word_data : Z -> Z -> D -> (exn + Z) * D;
  write_word_data : Z -> Z -> Z -> D -> (exn + unit) * D;
  time_sleep : F -> D -> D;
  time_monotonic : D -> F * D;
  utcnow_isoformat : D -> string * D
}.

(** A channel dictionary [{'v_load': .., 'current': ..}], the values a
    sample dictionary holds, and the sample dictionary itself.  Dictionaries
    are association lists in insertion order, the order Python iterates and
    [json.dumps] prints them in. *)
Definition reading (F : Type) : Type := list (string * F).

Inductive entry (F : Type) : Type :=
| Channel (r : reading F)
| Text (s : string).
Arguments Channel {F} r.
Arguments Text {F} s.

Definition sample (F : Type) : Type := list (string * entry F).

(** What the process does to the outside, in order. *)
Inductive io_event (F : Type) : Type :=
| EvRead (addr reg word : Z)
| EvWrite (addr reg word : Z)
| EvSleep (secs : F)
| EvPrint (d : sample F).
Arguments EvRead {F} addr reg word.
Arguments EvWrite {F} addr reg word.
Arguments EvSleep {F} secs.
Arguments EvPrint {F} d.

Record World (F D : Type) : Type := mkWorld {
  dev : D;
  trace : list (io_event F)
}.
Arguments mkWorld {F D} dev trace.
Arguments dev {F D} w.
Arguments trace {F D} w.

Definition M (F D A : Type) : Type := World F D -> outcome A * World F D.

Section Monad.
Context {F D : Type}.

Definition ret {A} (a : A) : M F D A := fun w => (Ret a, w).

Definition raise {A} (e : exn) : M F D A := fun w => (Raise e, w).

Definition spin {A} : M F D A := fun w => (Spin, w).

Definition bind {A B} (c : M F D A) (k : A -> M F D B) : M F D B :=
  fun w =>
    match c w with
    | (Ret a, w') => k a w'
    | (Raise e, w') => (Raise e, w')
    | (Spin, w') => (Spin, w')
    end.

Definition emit (e : io_event F) : M F D unit :=
  fun w => (Ret tt, mkWorld (dev w) (trace w ++ [e])).
End Monad.

Notation "x <- c ;; k" := (bind c (fun x => k))
  (at level 61, c at next level, right associativity).
Notation "c ;; k" := (bind c (fun _ => k))
  (at level 61, right associativity).

Section Primitives.
Context {F D : Type} {PF : PyFloat F} {Ev : Env F D}.

(** [self._bus.read_word_data(addr, reg)] *)
Definition bus_read (addr reg : Z) : M F D Z :=
  fun w =>
    match read_word_data addr reg (dev w) with
    | (inr v, d) => (Ret v, mkWorld d (trace w ++ [EvRead addr reg v]))
    | (inl e, d) => (Raise e, mkWorld d (trace w))
    end.

(** [self._bus.write_word_data(addr, reg, word)] *)
Definition bus_write (addr reg word : Z) : M F D unit :=
  fun w =>
    match write_word_data addr reg word (dev w) with
    | (inr v, d) => (Ret v, mkWorld d (trace w ++ [EvWrite addr reg word]))
    | (inl e, d) => (Raise e, mkWorld d (trace w))
    end.

(** [time.sleep(secs)] *)
Definition sleep (secs : F) : M F D unit :=
  fun w => (Ret tt, mkWorld (time_sleep secs (dev w)) (trace w ++ [EvSleep secs])).

(** [time.monotonic()] *)
Definition monotonic : M F D F :=
  fun w => let (t, d) := time_monotonic (dev w) in (Ret t, mkWorld d (trace w)).

(** [datetime.datetime.now(datetime.timezone.utc).isoformat(timespec='seconds')] *)
Definition utcnow : M F D string :=
  fun w => let (t, d) := utcnow_isoformat (dev w) in (Ret t, mkWorld d (trace w)).

(** [x / y] on floats. *)
Definition truediv (x y : F) : M F D F :=
  if is_zero y then raise ZeroDivisionError else ret (fdiv x y).
End Primitives.

(* ================================================================== *)
(** * Register codec *)

(** Octets are integers in [0, 255]. *)

(** [n.to_bytes(2, byteorder=order)] *)
Definition to_bytes2 (order : byteorder) (n : Z) : outcome (list Z) :=
  if (n <? 0) || (65535 <? n) then Raise OverflowError
  else match order with
       | big => Ret [n / 256; n mod 256]
       | little => Ret [n mod 256; n / 256]
       end.

(** [int.from_bytes(bs, byteorder=order)] *)
Definition from_bytes (order : byteorder) (bs : list Z) : Z :=
  match order with
  | big => fold_left (fun acc b => acc * 256 + b) bs 0
  | little => fold_right (fun b acc => b + 256 * acc) 0 bs
  end.

(** [struct.pack('H', n)]: an unsigned short in native order. *)
Definition struct_pack_H (native : byteorder) (n : Z) : outcome (list Z) :=
  if (n <? 0) || (65535 <? n) then Raise StructError
  else match native with
       | big => Ret [n / 256; n mod 256]
       | little => Ret [n mod 256; n / 256]
       end.

(** [struct.unpack('H', bs)[0]] *)
Definition struct_unpack_H (native : byteorder) (bs : list Z) : outcome Z :=
  match bs with
  | [_; _] => Ret (from_bytes native bs)
  | _ => Raise StructError
  end.

(** The conversion [_read_register] applies to the word the bus returned. *)
Definition decode_register (native : byteorder) (word : Z) : outcome Z :=
  match to_bytes2 big word with
  | Ret data => struct_unpack_H native data
  | Raise e => Raise e
  | Spin => Spin
  end.

(** The conversion [_write_register] applies to the value before it goes to
    the bus. *)
Definition encode_register (native : byteorder) (data : Z) : outcome Z :=
  match struct_pack_H native data with
  | Ret bs => Ret (from_bytes big bs)
  | Raise e => Raise e
  | Spin => Spin
  end.

Definition lift {F D A} (o : outcome A) : M F D A := fun w => (o, w).

(* ================================================================== *)
(** * class INA3221 *)

Module INA3221.

Definition INA3221_ADDRESS : Z := 0x40.

Definition INA3221_REG_CONFIG : Z := 0x00.
Definition INA3221_REG_SHUNTVOLTAGE_1 : Z := 0x01.
Definition INA3221_REG_BUSVOLTAGE_1 : Z := 0x02.
Definition INA3221_REG_SHUNTVOLTAGE_SUM : Z := 0x0d.

Definition INA3221_CONFIG_RST : Z := Z.shiftl 1 15.
Definition INA3221_CONFIG_CH1_EN : Z := Z.shiftl 1 14.
Definition INA3221_CONFIG_CH2_EN : Z := Z.shiftl 1 13.
Definition INA3221_CONFIG_CH3_EN : Z := Z.shiftl 1 12.
Definition INA3221_CONFIG_AVG2 : Z := Z.shiftl 1 11.
Definition INA3221_CONFIG_AVG1 : Z := Z.shiftl 1 10.
Definition INA3221_CONFIG_AVG0 : Z := Z.shiftl 1 9.
Definition INA3221_CONFIG_VBUS_CT2 : Z := Z.shiftl 1 8.
Definition INA3221_CONFIG_VBUS_CT1 : Z := Z.shiftl 1 7.
Definition INA3221_CONFIG_VBUS_CT0 : Z := Z.shiftl 1 6.
Definition INA3221_CONFIG_VSH_CT2 : Z := Z.shiftl 1 5.
Definition INA3221_CONFIG_VSH_CT1 : Z := Z.shiftl 1 4.
Definition INA3221_CONFIG_VSH_CT0 : Z := Z.shiftl 1 3.
Definition INA3221_CONFIG_MODE_2 : Z := Z.shiftl 1 2.
Definition INA3221_CONFIG_MODE_1 : Z := Z.shiftl 1 1.
Definition INA3221_CONFIG_MODE_0 : Z := Z.shiftl 1 0.

(** The keys of [_VOLTAGE_LUT]. *)
Inductive reg_type : Type := bus | shunt.

(** [_VOLTAGE_LUT[reg_type]['reg_base']] *)
Definition reg_base (t : reg_type) : Z :=
  match t with
  | bus => INA3221_REG_BUSVOLTAGE_1
  | shunt => INA3221_REG_SHUNTVOLTAGE_1
  end.

(** The instance attributes; [_bus] is the device of the world. *)
Record t (F : Type) : Type := mk {
  _addr : Z;
  _shunt_resistor : F
}.
Arguments mk {F} _ _.
Arguments _addr {F} self : rename.
Arguments _shunt_resistor {F} self : rename.

(** The operating configuration [__init__] builds with [|]. *)
Definition config : Z :=
  Z.lor (Z.lor (Z.lor (Z.lor (Z.lor (Z.lor (Z.lor (Z.lor (Z.lor (Z.lor
  (Z.lor (Z.lor
    INA3221_CONFIG_CH1_EN
    INA3221_CONFIG_CH2_EN)
    INA3221_CONFIG_CH3_EN)
    INA3221_CONFIG_AVG2)
    INA3221_CONFIG_AVG1)
    INA3221_CONFIG_AVG0)
    INA3221_CONFIG_VBUS_CT2)
    INA3221_CONFIG_VBUS_CT1)
    INA3221_CONFIG_VBUS_CT0)
    INA3221_CONFIG_VSH_CT2)
    INA3221_CONFIG_MODE_2)
    INA3221_CONFIG_MODE_1)
    INA3221_CONFIG_MODE_0.

Section Methods.
Context {F D : Type} {PF : PyFloat F} {Ev : Env F D}.

(** [_VOLTAGE_LUT[reg_type]['convert']]: [lambda x: x/1000] and
    [lambda x: x/1000/2/10], on an [int] argument.  The divisors are
    non-zero literals, so no division raises. *)
Definition convert (t : reg_type) (x : Z) : F :=
  match t with
  | bus => fdiv (of_int x) (of_int 1000)
  | shunt => fdiv (fdiv (fdiv (of_int x) (of_int 1000)) (of_int 2)) (of_int 10)
  end.

Definition _read_register (self : t F) (reg : Z) : M F D Z :=
  word <- bus_read (_addr self) reg ;;
  lift (decode_register (sys_byteorder (F := F) (D := D)) word).

Definition _write_register (self : t F) (reg data : Z) : M F D unit :=
  swap <- lift (encode_register (sys_byteorder (F := F) (D := D)) data) ;;
  bus_write (_addr self) reg swap.

(** [value = (value - 65536) if value > 32767 else value] *)
Definition to_signed (value : Z) : Z :=
  if value >? 32767 then value - 65536 else value.

Definition get_voltage (self : t F) (ch : Z) (reg_type : reg_type) : M F D F :=
  if (ch <? 0) || (ch >? 2) then raise (ValueError "Invalid channel")
  else
    let reg := reg_base reg_type + ch * 2 in
    value <- _read_register self reg ;;
    let value := to_signed value in
    ret (convert reg_type value).

Definition get_current (self : t F) (ch : Z) : M F D F :=
  v <- get_voltage self ch shunt ;;
  q <- truediv v (_shunt_resistor self) ;;
  ret (fmul q (of_int 100)).

(** [while self._read_register(CONFIG) & RST: time.sleep(0)], with a
    bound on the number of polls. *)
Fixpoint reset_poll (fuel : nat) (self : t F) : M F D unit :=
  match fuel with
  | O => spin
  | S fuel' =>
      value <- _read_register self INA3221_REG_CONFIG ;;
      if Z.land value INA3221_CONFIG_RST =? 0 then ret tt
      else sleep (of_int 0) ;; reset_poll fuel' self
  end.

(** [all((self.get_voltage(i) and self.get_current(i)) for i in chs)]:
    the generator is consumed lazily, [and] returns its left operand when
    that is falsy, and [all] stops at the first falsy item. *)
Fixpoint all_converted (self : t F) (chs : list Z) : M F D bool :=
  match chs with
  | [] => ret true
  | i :: rest =>
      v <- get_voltage self i bus ;;
      if truthy v then
        c <- get_current self i ;;
        if truthy c then all_converted self rest else ret false
      else ret false
  end.

(** [while not all(..) and timeout > 0: time.sleep(0.001); timeout -= 1] *)
Fixpoint conversion_wait (self : t F) (timeout : nat) : M F D unit :=
  done <- all_converted self [0; 1; 2] ;;
  if negb done then
    match timeout with
    | S timeout' =>
        sleep (fdiv (of_int 1) (of_int 1000)) ;;
        conversion_wait self timeout'
    | O => ret tt
    end
  else ret tt.

(** [INA3221(twi, addr, shunt_resistor)]; [fuel] bounds the reset poll. *)
Definition __init__ (fuel : nat) (addr : Z) (shunt_resistor : F) : M F D (t F) :=
  let self := mk addr shunt_resistor in
  _write_register self INA3221_REG_CONFIG INA3221_CONFIG_RST ;;
  reset_poll fuel self ;;
  _write_register self INA3221_REG_CONFIG config ;;
  conversion_wait self 10 ;;
  ret self.
End Methods.
End INA3221.

(* ================================================================== *)
(** * Dictionaries *)

Section Dict.
Context {V : Type}.

(** [d[k]] when present. *)
Fixpoint dict_get (d : list (string * V)) (k : string) : option V :=
  match d with
  | [] => None
  | (k', v) :: rest => if String.eqb k' k then Some v else dict_get rest k
  end.

(** [d[k] = v]: an existing key keeps its place, a new one goes last. *)
Fixpoint dict_set (d : list (string * V)) (k : string) (v : V) : list (string * V) :=
  match d with
  | [] => [(k, v)]
  | (k', v') :: rest =>
      if String.eqb k' k then (k', v) :: rest else (k', v') :: dict_set rest k v
  end.

(** [d.keys()] *)
Definition dict_keys (d : list (string * V)) : list string := map fst d.

(** [d.update(other)] *)
Definition dict_update (d other : list (string * V)) : list (string * V) :=
  fold_left (fun acc kv => dict_set acc (fst kv) (snd kv)) other d.
End Dict.

(** [x.startswith('@')] *)
Definition startswith_at (x : string) : bool := String.prefix "@" x.

(* ================================================================== *)
(** * sched.scheduler *)

(** The two bound methods the program hands to the scheduler. *)
Inductive callback : Type := sample_cb | calc_mean_cb.

Module sched.

(** [Event(time, priority, sequence, action, ..)] of the standard library's
    [sched] module; events compare as tuples, so by time, then priority,
    then sequence number. *)
Record Event (F : Type) : Type := mkEvent {
  time : F;
  priority : Z;
  sequence : nat;
  action : callback
}.
Arguments mkEvent {F} _ _ _ _.
Arguments time {F} e.
Arguments priority {F} e.
Arguments sequence {F} e.
Arguments action {F} e.

Record scheduler (F : Type) : Type := mkScheduler {
  _queue : list (Event F);
  _sequence_generator : nat
}.
Arguments mkScheduler {F} _ _.
Arguments _queue {F} s.
Arguments _sequence_generator {F} s.

Section Methods.
Context {F D : Type} {PF : PyFloat F} {Ev : Env F D}.

(** [sched.scheduler()] *)
Definition new : scheduler F := mkScheduler [] 0.

(** [a < b] on events. *)
Definition event_lt (a b : Event F) : bool :=
  if negb (feqb (time a) (time b)) then fltb (time a) (time b)
  else if negb (priority a =? priority b) then priority a <? priority b
  else Nat.ltb (sequence a) (sequence b).

(** [heapq.heappush(q, e)].  The heap is kept as the list of its events
    in increasing order, whose head is what [q[0]] and [heappop] give:
    the sequence numbers make the events pairwise distinct, so the least
    event is unique. *)
Fixpoint heappush (q : list (Event F)) (e : Event F) : list (Event F) :=
  match q with
  | [] => [e]
  | x :: q' => if event_lt e x then e :: q else x :: heappush q' e
  end.

Definition enterabs (time : F) (priority : Z) (action : callback)
    (s : scheduler F) : scheduler F :=
  let event := mkEvent time priority (_sequence_generator s) action in
  mkScheduler (heappush (_queue s) event) (S (_sequence_generator s)).

Definition enter (delay : F) (priority : Z) (action : callback)
    (s : scheduler F) : M F D (scheduler F) :=
  now <- monotonic ;;
  ret (enterabs (fadd now delay) priority action s).
End Methods.
End sched.

(* ================================================================== *)
(** * class SolarPower *)

Module SolarPower.

(** A value of [_CH_LUT]. *)
Record ch_dict : Type := mkCh { ch : Z; gain : Z }.

Definition _CH_LUT : list (string * ch_dict) :=
  [ ("solar", mkCh 0 (-1)); ("battery", mkCh 1 (-1)); ("output", mkCh 2 1) ].

(** The instance attributes.  [_next_sample] exists only once [start] has
    run.  The module-level scheduler [s] that the callbacks use is the
    object [_scheduler] refers to. *)
Record t (F : Type) : Type := mk {
  _sample_period : F;
  _mean_period_cnt : Z;
  _scheduler : sched.scheduler F;
  _ina3221 : INA3221.t F;
  _samples : list (sample F);
  _machine_id : string;
  _next_sample : option F
}.
Arguments mk {F} _ _ _ _ _ _ _.
Arguments _sample_period {F} self : rename.
Arguments _mean_period_cnt {F} self : rename.
Arguments _scheduler {F} self : rename.
Arguments _ina3221 {F} self : rename.
Arguments _samples {F} self : rename.
Arguments _machine_id {F} self : rename.
Arguments _next_sample {F} self : rename.

Definition set_scheduler {F} (self : t F) (s : sched.scheduler F) : t F :=
  mk (_sample_period self) (_mean_period_cnt self) s (_ina3221 self)
     (_samples self) (_machine_id self) (_next_sample self).

Definition set_samples {F} (self : t F) (l : list (sample F)) : t F :=
  mk (_sample_period self) (_mean_period_cnt self) (_scheduler self) (_ina3221 self)
     l (_machine_id self) (_next_sample self).

Definition set_next_sample {F} (self : t F) (x : F) : t F :=
  mk (_sample_period self) (_mean_period_cnt self) (_scheduler self) (_ina3221 self)
     (_samples self) (_machine_id self) (Some x).

Section Methods.
Context {F D : Type} {PF : PyFloat F} {Ev : Env F D}.

(** [SHUNT_RESISTOR_DEFAULT = 0.1]: the float nearest to one tenth. *)
Definition SHUNT_RESISTOR_DEFAULT : F := fdiv (of_int 1) (of_int 10).

(** [SolarPower(scheduler, period, mean_period_cnt)]; [machine_id] is the
    stripped content of [/etc/machine-id], [fuel] bounds the driver's
    reset poll. *)
Definition __init__ (fuel : nat) (machine_id : string)
    (scheduler : sched.scheduler F) (period : F) (mean_period_cnt : Z) : M F D (t F) :=
  ina <- INA3221.__init__ fuel INA3221.INA3221_ADDRESS SHUNT_RESISTOR_DEFAULT ;;
  ret (mk period mean_period_cnt scheduler ina [] machine_id None).

Definition _read_channel (self : t F) (ch_dict : ch_dict) : M F D (reading F) :=
  let ch := ch ch_dict in
  let gain := gain ch_dict in
  v_load <- INA3221.get_voltage (_ina3221 self) ch INA3221.bus ;;
  current <- INA3221.get_current (_ina3221 self) ch ;;
  ret [ ("v_load", v_load);
        ("current", fmul (fdiv current (of_int 1000)) (of_int gain)) ].

(** [{ k: self._read_channel(v) for k, v in items }], continued from [d]. *)
Fixpoint read_channels (self : t F) (items : list (string * ch_dict))
    (d : sample F) : M F D (sample F) :=
  match items with
  | [] => ret d
  | (k, v) :: rest =>
      r <- _read_channel self v ;;
      read_channels self rest (dict_set d k (Channel r))
  end.

Definition _sample_cb (self : t F) : M F D (t F) :=
  d <- read_channels self _CH_LUT [] ;;
  let d := dict_set d "@machine_id" (Text (_machine_id self)) in
  now <- utcnow ;;
  let d := dict_set d "@time" (Text now) in
  next_sample <- match _next_sample self with
                 | Some x => ret x
                 | None => raise AttributeError
                 end ;;
  let next_sample := fadd next_sample (_sample_period self) in
  let self := set_next_sample self next_sample in
  let self := set_scheduler self
                (sched.enterabs next_sample 1 sample_cb (_scheduler self)) in
  let self := set_samples self (_samples self ++ [d]) in
  if Z.of_nat (List.length (_samples self)) >=? _mean_period_cnt self then
    s <- sched.enter (of_int 0) 0 calc_mean_cb (_scheduler self) ;;
    ret (set_scheduler self s)
  else ret self.

(** [sample[name][field]] *)
Definition field_of (name field : string) (sample : sample F) : M F D F :=
  match dict_get sample name with
  | None => raise (KeyError name)
  | Some (Text _) => raise TypeError
  | Some (Channel r) =>
      match dict_get r field with
      | None => raise (KeyError field)
      | Some x => ret x
      end
  end.

(** [sum(sample[name][field] for sample in samples)], continued from the
    partial sum [acc]; [sum] starts from the int [0] and adds from the left.
    (From version 3.12 on CPython compensates the rounding error of a float
    sum; in exact arithmetic the result is the same.) *)
Fixpoint sum_field (name field : string) (samples : list (sample F)) (acc : F)
    : M F D F :=
  match samples with
  | [] => ret acc
  | sample :: rest =>
      x <- field_of name field sample ;;
      sum_field name field rest (fadd acc x)
  end.

(** [{ f: sum(field_gen(f))/cnt for f in field_names }], continued from [d]. *)
Fixpoint field_means (self : t F) (name : string) (cnt : Z)
    (field_names : list string) (d : reading F) : M F D (reading F) :=
  match field_names with
  | [] => ret d
  | f :: rest =>
      total <- sum_field name f (_samples self) (of_int 0) ;;
      mean <- (if cnt =? 0 then raise ZeroDivisionError
               else ret (fdiv total (of_int cnt))) ;;
      field_means self name cnt rest (dict_set d f mean)
  end.

Definition _get_ch_means (self : t F) (name : string) : M F D (reading F) :=
  let cnt := Z.of_nat (List.length (_samples self)) in
  first <- match _samples self with
           | [] => raise IndexError
           | x :: _ => ret x
           end ;;
  field_names <- match dict_get first name with
                 | None => raise (KeyError name)
                 | Some (Text _) => raise AttributeError
                 | Some (Channel r) => ret (dict_keys r)
                 end ;;
  field_means self name cnt field_names [].

(** [{ n: self._get_ch_means(n) for n in names }], continued from [d]. *)
Fixpoint channel_means (self : t F) (names : list string) (d : sample F)
    : M F D (sample F) :=
  match names with
  | [] => ret d
  | n :: rest =>
      r <- _get_ch_means self n ;;
      channel_means self rest (dict_set d n (Channel r))
  end.

Definition _calc_mean_cb (self : t F) : M F D (t F) :=
  now <- utcnow ;;
  let d := [ ("@machine_id", Text (_machine_id self)); ("@time", Text now) ] in
  first <- match _samples self with
           | [] => raise IndexError
           | x :: _ => ret x
           end ;;
  let names := filter (fun x => negb (startswith_at x)) (dict_keys first) in
  means <- channel_means self names [] ;;
  let d := dict_update d means in
  emit (EvPrint d) ;;
  ret (set_samples self []).

Definition start (self : t F) : M F D (t F) :=
  now <- monotonic ;;
  _sample_cb (set_next_sample self now).

(** Calling a scheduled action. *)
Definition call (a : callback) (self : t F) : M F D (t F) :=
  match a with
  | sample_cb => _sample_cb self
  | calc_mean_cb => _calc_mean_cb self
  end.

(** What one pass of the loop of [sched.scheduler.run] did. *)
Inductive pass : Type :=
| Empty
| Delayed (self : t F)
| Fired (a : callback) (self : t F).

(** One pass of [while True:] in [scheduler.run()]: stop on an empty
    queue; sleep when the head event is not due; otherwise pop it, call
    its action and yield with [delayfunc(0)]. *)
Definition run_pass (self : t F) : M F D pass :=
  match sched._queue (_scheduler self) with
  | [] => ret Empty
  | ev :: rest =>
      now <- monotonic ;;
      if fltb now (sched.time ev) then
        sleep (fsub (sched.time ev) now) ;;
        ret (Delayed self)
      else
        let self := set_scheduler self
                      (sched.mkScheduler rest
                         (sched._sequence_generator (_scheduler self))) in
        self <- call (sched.action ev) self ;;
        sleep (of_int 0) ;;
        ret (Fired (sched.action ev) self)
  end.

(** [s.run()], with a bound on the number of passes. *)
Fixpoint run (fuel : nat) (self : t F) : M F D (t F) :=
  match fuel with
  | O => spin
  | S fuel' =>
      p <- run_pass self ;;
      match p with
      | Empty => ret self
      | Delayed self' => run fuel' self'
      | Fired _ self' => run fuel' self'
      end
  end.

(** The [__main__] block. *)
Definition main (init_fuel run_fuel : nat) (machine_id : string) : M F D (t F) :=
  let s := sched.new in
  sp <- __init__ init_fuel machine_id s (of_int 1) 30 ;;
  sp <- start sp ;;
  run run_fuel sp.
End Methods.
End SolarPower.

(* ================================================================== *)
(** * Executions of the scheduler *)

Section Executions.
Context {F D : Type} {PF : PyFloat F} {Ev : Env F D}.

(** A sampler as [__init__] leaves it: empty window, empty queue. *)
Definition fresh (self : SolarPower.t F) : Prop :=
  SolarPower._samples self = [] /\
  SolarPower._scheduler self = sched.new /\
  SolarPower._next_sample self = None.

(** [n] passes of the loop of [run], stopping early on an empty queue. *)
Fixpoint passes (n : nat) (self : SolarPower.t F) : M F D (SolarPower.t F) :=
  match n with
  | O => ret self
  | S n' =>
      p <- SolarPower.run_pass self ;;
      match p with
      | SolarPower.Empty => ret self
      | SolarPower.Delayed self' => passes n' self'
      | SolarPower.Fired _ self' => passes n' self'
      end
  end.

(** [reaches ok t0 h self w]: from a fresh sampler, [start()] read the
    monotonic clock as [t0] and some passes of [s.run()] led to the sampler
    [self] in the world [w]; [h] lists the callbacks called so far, the
    direct call in [start] first.  Every state on the way satisfies [ok]. *)
Inductive reaches (ok : SolarPower.t F -> Prop) (t0 : F)
    : list callback -> SolarPower.t F -> World F D -> Prop :=
| reaches_start self0 w0 self w :
    fresh self0 ->
    fst (time_monotonic (dev w0)) = t0 ->
    SolarPower.start self0 w0 = (Ret self, w) ->
    ok self ->
    reaches ok t0 [sample_cb] self w
| reaches_delay h self w self' w' :
    reaches ok t0 h self w ->
    SolarPower.run_pass self w = (Ret (SolarPower.Delayed self'), w') ->
    ok self' ->
    reaches ok t0 h self' w'
| reaches_fire h self w a self' w' :
    reaches ok t0 h self w ->
    SolarPower.run_pass self w = (Ret (SolarPower.Fired a self'), w') ->
    ok self' ->
    reaches ok t0 (h ++ [a]) self' w'.

(** The pending events of a sampler. *)
Definition queue (self : SolarPower.t F) : list (sched.Event F) :=
  sched._queue (SolarPower._scheduler self).

(** [x <= y] on floats. *)
Definition fleb (x y : F) : bool := feqb x y || fltb x y.

(** The scheduler is on time: no pending Mean task has a wake time later
    than a pending Sample task's, that is, when the window filled the
    monotonic clock had not yet passed the next sample time. *)
Definition on_time (self : SolarPower.t F) : Prop :=
  forall m s,
    In m (queue self) -> In s (queue self) ->
    sched.action m = calc_mean_cb -> sched.action s = sample_cb ->
    fleb (sched.time m) (sched.time s) = true.

Definition window_size (self : SolarPower.t F) : Z :=
  Z.of_nat (List.length (SolarPower._samples self)).
End Executions.

(** Trace inspection. *)
Definition is_write {F} (e : io_event F) : bool :=
  match e with EvWrite _ _ _ => true | _ => false end.

Definition is_sleep {F} (e : io_event F) : bool :=
  match e with EvSleep _ => true | _ => false end.

Definition is_read {F} (e : io_event F) : bool :=
  match e with EvRead _ _ _ => true | _ => false end.

(** [emits p c]: whatever [c] appends to the trace satisfies [p]. *)
Definition emits {F D A} (p : io_event F -> bool) (c : M F D A) : Prop :=
  forall w r w', c w = (r, w') ->
    exists evs, trace w' = trace w ++ evs /\ forallb p evs = true.

(* ================================================================== *)
(** * Scripted devices *)

Module Mock.

(** How many bus reads and clock reads have happened. *)
Record state : Type := mk { reads : nat; ticks : nat }.

Definition init : state := mk 0 0.

(** A device that answers the [n]-th read, of register [reg], with the
    word [word_at n reg], accepts every write, and whose monotonic clock
    shows [clock_at n] at its [n]-th reading. *)
Definition env {F : Type} (order : byteorder) (word_at : nat -> Z -> Z)
    (clock_at : nat -> F) : Env F state := {|
  sys_byteorder := order;
  read_word_data := fun _ reg d => (inr (word_at (reads d) reg), mk (S (reads d)) (ticks d));
  write_word_data := fun _ _ _ d => (inr tt, d);
  time_sleep := fun _ d => d;
  time_monotonic := fun d => (clock_at (ticks d), mk (reads d) (S (ticks d)));
  utcnow_isoformat := fun d => ("2020-01-01T00:00:00+00:00", d)
|}.

(** The transport word that decodes to [v] on a host of the given order. *)
Definition word_for (order : byteorder) (v : Z) : Z :=
  match encode_register order v with
  | Ret w => w
  | _ => 0
  end.

(** Config register reads 0; every shunt register decodes to [shunt_v]
    and every bus register to [bus_v]. *)
Definition fixed_words (order : byteorder) (shunt_v bus_v : Z) : nat -> Z -> Z :=
  fun _ reg =>
    if reg =? 0 then 0
    else if Z.odd reg then word_for order shunt_v
    else word_for order bus_v.

Definition world {F : Type} : World F state := mkWorld init [].

(** A clock that shows the listed readings in turn, then stays at the last. *)
Definition clock_of {F : Type} (l : list F) (dflt : F) : nat -> F :=
  fun n => nth n l (last l dflt).
End Mock.

(* ================================================================== *)
(** * Vocabulary of the statements *)

(** The transport answers every register read with a 16-bit word. *)
Definition responsive {F D : Type} {Ev : Env F D} (addr : Z) (w : World F D) : Prop :=
  forall reg, exists word d',
    read_word_data addr reg (dev w) = (inr word, d') /\ 0 <= word <= 65535.

(** What a query may do with a channel number: return, and then the
    channel is one of 0, 1, 2; or raise the invalid-channel error, and then
    it is none of them. *)
Definition channel_verdict {A} (ch : Z) (o : outcome A) : Prop :=
  match o with
  | Ret _ => 0 <= ch <= 2
  | Raise e => e = ValueError "Invalid channel" /\ (ch < 0 \/ 2 < ch)
  | Spin => False
  end.

(** The reset handshake and the configuration write of [INA3221.__init__],
    which precede its conversion wait. *)
Definition handshake {F D : Type} {PF : PyFloat F} {Ev : Env F D}
    (fuel : nat) (self : INA3221.t F) : M F D unit :=
  INA3221._write_register self INA3221.INA3221_REG_CONFIG INA3221.INA3221_CONFIG_RST ;;
  INA3221.reset_poll fuel self ;;
  INA3221._write_register self INA3221.INA3221_REG_CONFIG INA3221.config.

(** While the device state satisfies [I], a read of the config register is
    answered with a word whose decoded value has the reset bit (bit 15) set,
    and [I] still holds after the [time.sleep(0)] that follows. *)
Definition reset_stuck {F D : Type} {PF : PyFloat F} {Ev : Env F D}
    (addr : Z) (I : D -> Prop) : Prop :=
  forall d, I d ->
    exists word d' v,
      read_word_data addr INA3221.INA3221_REG_CONFIG d = (inr word, d') /\
      decode_register (sys_byteorder (F := F) (D := D)) word = Ret v /\
      Z.testbit v 15 = true /\
      I (time_sleep (of_int 0) d').

(** [failed_checks self k w wk]: from the world [w], [k] iterations of the
    conversion wait ran: each time the check of the three channels came out
    false and the loop slept a millisecond; [wk] is the world they leave. *)
Inductive failed_checks {F D : Type} {PF : PyFloat F} {Ev : Env F D}
    (self : INA3221.t F) : nat -> World F D -> World F D -> Prop :=
| failed_none w : failed_checks self O w w
| failed_more k w w1 w2 wk :
    INA3221.all_converted self [0; 1; 2] w = (Ret false, w1) ->
    sleep (fdiv (of_int 1) (of_int 1000)) w1 = (Ret tt, w2) ->
    failed_checks self k w2 wk ->
    failed_checks self (S k) w wk.

(** The arithmetic mean as Python computes it: [sum(l) / len(l)], the sum
    taken from the left, starting from the int [0]. *)
Definition mean {F : Type} {PF : PyFloat F} (l : list F) : F :=
  fdiv (fold_left fadd l (of_int 0)) (of_int (Z.of_nat (List.length l))).

(** The numbers and strings of one Raw Sample, and the dictionary
    [_sample_cb] builds from them. *)
Record raw (F : Type) : Type := mkRaw {
  solar_v : F; solar_i : F;
  battery_v : F; battery_i : F;
  output_v : F; output_i : F;
  raw_machine_id : string;
  raw_time : string
}.
Arguments mkRaw {F} _ _ _ _ _ _ _ _.
Arguments solar_v {F} r.
Arguments solar_i {F} r.
Arguments battery_v {F} r.
Arguments battery_i {F} r.
Arguments output_v {F} r.
Arguments output_i {F} r.
Arguments raw_machine_id {F} r.
Arguments raw_time {F} r.

Definition raw_sample {F : Type} (r : raw F) : sample F :=
  [ ("solar", Channel [ ("v_load", solar_v r); ("current", solar_i r) ]);
    ("battery", Channel [ ("v_load", battery_v r); ("current", battery_i r) ]);
    ("output", Channel [ ("v_load", output_v r); ("current", output_i r) ]);
    ("@machine_id", Text (raw_machine_id r));
    ("@time", Text (raw_time r)) ].

(** The Mean Sample of a window of raw samples, stamped [now]. *)
Definition mean_sample {F : Type} {PF : PyFloat F}
    (machine_id now : string) (window : list (raw F)) : sample F :=
  [ ("@machine_id", Text machine_id);
    ("@time", Text now);
    ("solar", Channel [ ("v_load", mean (map solar_v window));
                        ("current", mean (map solar_i window)) ]);
    ("battery", Channel [ ("v_load", mean (map battery_v window));
                          ("current", mean (map battery_i window)) ]);
    ("output", Channel [ ("v_load", mean (map output_v window));
                         ("current", mean (map output_i window)) ]) ].

(** The sampler after the first half of [_sample_cb]: next sample time
    advanced from [t], Sample task rescheduled, sample [d] appended. *)
Definition sampled {F : Type} {PF : PyFloat F} (self : SolarPower.t F) (t : F)
    (d : sample F) : SolarPower.t F :=
  SolarPower.set_samples
    (SolarPower.set_scheduler
       (SolarPower.set_next_sample self (fadd t (SolarPower._sample_period self)))
       (sched.enterabs (fadd t (SolarPower._sample_period self)) 1 sample_cb
          (SolarPower._scheduler self)))
    (SolarPower._samples self ++ [d]).

Definition is_sample_cb (a : callback) : bool :=
  match a with sample_cb => true | calc_mean_cb => false end.

(** How many times the Sample task fired in a history. *)
Definition firings (h : list callback) : nat :=
  List.length (filter is_sample_cb h).

(** The pending Sample tasks of a sampler. *)
Definition pending_samples {F : Type} (self : SolarPower.t F) : list (sched.Event F) :=
  filter (fun ev => is_sample_cb (sched.action ev))
    (sched._queue (SolarPower._scheduler self)).

(** [t + p + ... + p], with [k] additions. *)
Fixpoint advance {F : Type} {PF : PyFloat F} (k : nat) (p t : F) : F :=
  match k with
  | O => t
  | S k' => fadd (advance k' p t) p
  end.

(** The shape of the queue while the scheduler is on time: the Sample task
    alone, with a window that is empty or not yet full; or the Mean task
    followed by the Sample task, with a full, non-empty window. *)
Definition tidy {F : Type} (self : SolarPower.t F) : Prop :=
  exists s,
    sched.action s = sample_cb /\
    ((queue self = [s] /\
      (SolarPower._samples self = [] \/
       window_size self < SolarPower._mean_period_cnt self)) \/
     (exists m,
        sched.action m = calc_mean_cb /\
        queue self = [m; s] /\
        SolarPower._mean_period_cnt self <= window_size self /\
        SolarPower._samples self <> [])).

(* ================================================================== *)
(** * Concrete scenarios *)

Module Scenario.

(** A device whose shunt registers all decode to 1000 and whose bus
    registers all decode to 12000, on a host of the given byte order. *)
Definition fixed_env (order : byteorder) : Env float Mock.state :=
  Mock.env order (Mock.fixed_words order 1000 12000) (fun _ => 0%float).

(** A sampler around a given driver. *)
Definition sampler {F : Type} {PF : PyFloat F} (drv : INA3221.t F) (cnt : Z)
    : SolarPower.t F :=
  SolarPower.mk (of_int 1) cnt sched.new drv [] "0123456789abcdef" None.

(** Construct the driver with the default 0.1 ohm shunt, then query
    [get_current(0)], the channel reading of a channel 0 with gain -1, and
    [get_voltage(0, 'bus')]. *)
Definition end_to_end (order : byteorder)
    : outcome (float * reading float * float) :=
  fst ((drv <- INA3221.__init__ (Ev := fixed_env order) 1
                 INA3221.INA3221_ADDRESS SolarPower.SHUNT_RESISTOR_DEFAULT ;;
        current <- INA3221.get_current (Ev := fixed_env order) drv 0 ;;
        r <- SolarPower._read_channel (Ev := fixed_env order)
               (sampler drv 30) (SolarPower.mkCh 0 (-1)) ;;
        voltage <- INA3221.get_voltage (Ev := fixed_env order) drv 0 INA3221.bus ;;
        ret (current, r, voltage)) Mock.world).

(** A device all of whose registers read zero. *)
Definition zero_env : Env float Mock.state :=
  Mock.env little (fun _ _ => 0) (fun _ => 0%float).

(** [INA3221(shunt_resistor=0)] over the all-zero device, then
    [get_current(0)]. *)
Definition zero_resistor : outcome float :=
  fst ((drv <- INA3221.__init__ (Ev := zero_env) 1 INA3221.INA3221_ADDRESS (of_int 0) ;;
        INA3221.get_current (Ev := zero_env) drv 0) Mock.world).

(** A device that never leaves reset: every read returns the word that
    decodes to 0x8000. *)
Definition stuck_env : Env float Mock.state :=
  Mock.env little (fun _ _ => Mock.word_for little INA3221.INA3221_CONFIG_RST)
    (fun _ => 0%float).

(** A device that holds the reset bit for the first [n] polls. *)
Definition slow_reset_env (n : nat) : Env float Mock.state :=
  Mock.env little
    (fun k reg => if Nat.ltb k n then Mock.word_for little INA3221.INA3221_CONFIG_RST
                  else Mock.fixed_words little 1000 12000 k reg)
    (fun _ => 0%float).

(** A monotonic clock that falls behind: the second sample is dispatched
    at 1.0 but the clock shows 2.5 by the time the window is found full,
    and 3.5 one sample later. *)
Definition lagging_clock : nat -> float :=
  Mock.clock_of [0; 1; 2.5; 2.5; 3.5]%float 0%float.

Definition lagging_env : Env float Mock.state :=
  Mock.env little (Mock.fixed_words little 1000 12000) lagging_clock.

(** A clock that keeps up: every reading is at most the next sample
    time. *)
Definition prompt_env : Env float Mock.state :=
  Mock.env little (Mock.fixed_words little 1000 12000)
    (Mock.clock_of [0; 1; 1.25; 1.5; 2]%float 0%float).

(** Two raw samples and a sampler whose window holds them. *)
Definition two_raws : list (raw float) :=
  [ mkRaw 12 (-0.5) 13 (-0.25) 5 1 "0123456789abcdef" "2020-01-01T00:00:00+00:00";
    mkRaw 14 (-1.5) 13.5 (-0.75) 5 2 "0123456789abcdef" "2020-01-01T00:00:01+00:00" ]%float.

Definition two_sampler : SolarPower.t float :=
  SolarPower.mk 1%float 2 sched.new
    (INA3221.mk INA3221.INA3221_ADDRESS 0.5%float)
    (map raw_sample two_raws) "0123456789abcdef" None.

(** A sampler with a window of two samples, started over the device [E],
    after [n] passes of the scheduler's loop. *)
Definition after_passes {F : Type} {PF : PyFloat F} (E : Env F Mock.state) (n : nat)
    : outcome (SolarPower.t F) * World F Mock.state :=
  (sp <- SolarPower.start (Ev := E)
           (sampler (INA3221.mk INA3221.INA3221_ADDRESS SolarPower.SHUNT_RESISTOR_DEFAULT) 2) ;;
   passes (Ev := E) n sp) Mock.world.
End Scenario.

(* ================================================================== *)
(** * More vocabulary *)

(** [polls_set self n w wn]: from the world [w], [n] rounds of the reset
    poll ran: each time the config register was read with the reset bit set
    and the loop called [time.sleep(0)]; [wn] is the world they leave. *)
Inductive polls_set {F D : Type} {PF : PyFloat F} {Ev : Env F D}
    (self : INA3221.t F) : nat -> World F D -> World F D -> Prop :=
| polls_none w : polls_set self O w w
| polls_more n w value w1 w2 wn :
    INA3221._read_register self INA3221.INA3221_REG_CONFIG w = (Ret value, w1) ->
    Z.testbit value 15 = true ->
    sleep (of_int 0) w1 = (Ret tt, w2) ->
    polls_set self n w2 wn ->
    polls_set self (S n) w wn.

(** The channel dictionary computed from the decoded bus and shunt words of
    one channel, as [_read_channel] computes it for a non-zero shunt
    resistor. *)
Definition channel_reading {F : Type} {PF : PyFloat F} (shunt_resistor : F)
    (gain bus_raw shunt_raw : Z) : reading F :=
  [ ("v_load", INA3221.convert INA3221.bus (INA3221.to_signed bus_raw));
    ("current",
     fmul (fdiv (fmul (fdiv (INA3221.convert INA3221.shunt (INA3221.to_signed shunt_raw))
                            shunt_resistor)
                      (of_int 100))
                (of_int 1000))
          (of_int gain)) ].

(** The six readings one convergence check of [INA3221.__init__] asks for,
    in the order it asks: bus voltage, then current, of channels 0, 1, 2. *)
Definition six_readings {F D : Type} {PF : PyFloat F} {Ev : Env F D}
    (self : INA3221.t F) : list (M F D F) :=
  [ INA3221.get_voltage self 0 INA3221.bus; INA3221.get_current self 0;
    INA3221.get_voltage self 1 INA3221.bus; INA3221.get_current self 1;
    INA3221.get_voltage self 2 INA3221.bus; INA3221.get_current self 2 ].

(** [none_zero qs w w']: taken one after the other from the world [w],
    the readings [qs] all returned a value different from 0; [w'] is the
    world after the last of them. *)
Inductive none_zero {F D : Type} {PF : PyFloat F}
    : list (M F D F) -> World F D -> World F D -> Prop :=
| none_zero_nil w : none_zero [] w w
| none_zero_cons q qs w v w1 w' :
    q w = (Ret v, w1) ->
    feqb v (of_int 0) = false ->
    none_zero qs w1 w' ->
    none_zero (q :: qs) w w'.

(** [first_zero qs w w']: taken one after the other from the world [w],
    one of the readings [qs] returned 0 and all before it returned a value
    different from 0; [w'] is the world after the reading that returned 0
    (the later readings are not taken). *)
Inductive first_zero {F D : Type} {PF : PyFloat F}
    : list (M F D F) -> World F D -> World F D -> Prop :=
| first_zero_here q qs w v w' :
    q w = (Ret v, w') ->
    feqb v (of_int 0) = true ->
    first_zero (q :: qs) w w'
| first_zero_later q qs w v w1 w' :
    q w = (Ret v, w1) ->
    feqb v (of_int 0) = false ->
    first_zero qs w1 w' ->
    first_zero (q :: qs) w w'.

(** [zero_checks self k w wk]: from the world [w], [k] rounds of the
    convergence wait ran, each of which met a reading of 0 among the six and
    then slept a millisecond; [wk] is the world they leave. *)
Inductive zero_checks {F D : Type} {PF : PyFloat F} {Ev : Env F D}
    (self : INA3221.t F) : nat -> World F D -> World F D -> Prop :=
| zero_checks_none w : zero_checks self O w w
| zero_checks_more k w w1 w2 wk :
    first_zero (six_readings self) w w1 ->
    sleep (fdiv (of_int 1) (of_int 1000)) w1 = (Ret tt, w2) ->
    zero_checks self k w2 wk ->
    zero_checks self (S k) w wk.

(** [all_from n z p]: [p] holds of the [n] integers from [z] on. *)
Fixpoint all_from (n : nat) (z : Z) (p : Z -> bool) : bool :=
  match n with
  | O => true
  | S n' => p z && all_from n' (z + 1) p
  end.

(** The range of [get_voltage] in binary64: the conversions of -32768 and
    of 32767, that is -32.768 and 32.767 for the bus voltage, -1.6384 and
    1.6383500000000002 for the shunt voltage. *)
Definition voltage_min (kind : INA3221.reg_type) : float :=
  match kind with
  | INA3221.bus => (-0x1.0624dd2f1a9fcp+5)%float
  | INA3221.shunt => (-0x1.a36e2eb1c432dp+0)%float
  end.

Definition voltage_max (kind : INA3221.reg_type) : float :=
  match kind with
  | INA3221.bus => 0x1.0622d0e560419p+5%float
  | INA3221.shunt => 0x1.a36ae7d566cf5p+0%float
  end.

(** What is to be checked of the conversion of one 16-bit register value:
    it lies in the range, and it is zero exactly when the register is. *)
Definition reading_in_range (kind : INA3221.reg_type) (raw : Z) : bool :=
  let v := INA3221.convert (PF := binary64) kind (INA3221.to_signed raw) in
  PrimFloat.leb (voltage_min kind) v && PrimFloat.leb v (voltage_max kind)
  && Bool.eqb (truthy v) (negb (raw =? 0)).

(** A device that is a register file: a read returns the word last written
    to the register (0 before any write). *)
Module RegFile.

Definition state : Type := Z -> Z.

Definition init : state := fun _ => 0.

Definition env {F : Type} {PF : PyFloat F} (order : byteorder) : Env F state := {|
  sys_byteorder := order;
  read_word_data := fun _ reg d => (inr (d reg), d);
  write_word_data := fun _ reg word d =>
    (inr tt, fun r => if r =? reg then word else d r);
  time_sleep := fun _ d => d;
  time_monotonic := fun d => (of_int 0, d);
  utcnow_isoformat := fun d => ("2020-01-01T00:00:00+00:00", d)
|}.
End RegFile.

(* ================================================================== *)
(** * bridge-influx.py *)

Module Bridge.

(** The dictionary [make_measurement] builds. *)
Record measurement (F : Type) : Type := mkMeasurement {
  m_measurement : string;
  m_tags : list (string * string);
  m_time : string;
  m_fields : entry F
}.
Arguments mkMeasurement {F} _ _ _ _.
Arguments m_measurement {F} m.
Arguments m_tags {F} m.
Arguments m_time {F} m.
Arguments m_fields {F} m.

(** What the bridge does to the outside: [print(json.dumps(data))] and
    [client.write_points(data)]. *)
Inductive event (F : Type) : Type :=
| Print (data : list (measurement F))
| WritePoints (data : list (measurement F)).
Arguments Print {F} data.
Arguments WritePoints {F} data.

Section Functions.
Context {F T : Type}.

(** [str(timestamp)] *)
Variable str : T -> string.

(** [datetime.datetime.fromisoformat], which returns or raises. *)
Variable fromisoformat : string -> exn + T.

(** [client.write_points], which returns or raises. *)
Variable write_points : list (measurement F) -> exn + bool.

Definition make_measurement (timestamp : T) (name : string) (fields : entry F)
    : measurement F :=
  mkMeasurement "power"
    [ ("entity_id", name); ("domain", "sensor"); ("sensor", "ina3221") ]
    (str timestamp) fields.

(** The loop of [send_measurement] over [raw_data.items()], continued from
    the list [data]. *)
Fixpoint collect (name : string) (items : sample F) (timestamp : T)
    (data : list (measurement F)) : list (measurement F) :=
  match items with
  | [] => data
  | (ch, fields) :: rest =>
      if startswith_at ch then collect name rest timestamp data
      else collect name rest timestamp
             (data ++ [make_measurement timestamp (name ++ "." ++ ch) fields])
  end.

(** [send_measurement(client, name, raw_data, timestamp, verbose)]: the
    events it causes, in order, and its outcome. *)
Definition send_measurement (name : string) (raw_data : sample F) (timestamp : T)
    (verbose : bool) : list (event F) * outcome bool :=
  let data := collect name raw_data timestamp [] in
  let printed := if verbose then [Print data] else [] in
  match write_points data with
  | inr result => (printed ++ [WritePoints data], Ret result)
  | inl e => (printed ++ [WritePoints data], Raise e)
  end.

(** The body of the loop of the [__main__] block, on a parsed line:
    [raw_data['@time']], [fromisoformat], then [send_measurement] with
    [verbose=True]. *)
Definition handle_record (name : string) (raw_data : sample F)
    : list (event F) * outcome bool :=
  match dict_get raw_data "@time" with
  | None => ([], Raise (KeyError "@time"))
  | Some (Channel _) => ([], Raise TypeError)
  | Some (Text s) =>
      match fromisoformat s with
      | inl e => ([], Raise e)
      | inr sample_time => send_measurement name raw_data sample_time true
      end
  end.

(** [for line in fileinput.input(): ...] over the parsed lines: the first
    exception ends the loop. *)
Fixpoint handle_records (name : string) (lines : list (sample F))
    : list (event F) * outcome unit :=
  match lines with
  | [] => ([], Ret tt)
  | raw_data :: rest =>
      match handle_record name raw_data with
      | (evs, Ret _) =>
          let (evs', r) := handle_records name rest in (evs ++ evs', r)
      | (evs, Raise e) => (evs, Raise e)
      | (evs, Spin) => (evs, Spin)
      end
  end.
End Functions.
End Bridge.

(** A clock that falls behind twice within one sample period: two Mean
    tasks get queued with no Sample task between them. *)
Module Scenario2.

Definition stalled_env : Env float Mock.state :=
  Mock.env little (Mock.fixed_words little 1000 12000)
    (Mock.clock_of [0; 1; 2.5; 2.5; 2.75; 2.75; 2.75]%float 0%float).

(** A device whose first conversion is not ready: the config register
    reads 0, the next two reads return 0, and from then on every shunt
    register decodes to 1000 and every bus register to 12000. *)
Definition warming_env : Env float Mock.state :=
  Mock.env little
    (fun k reg => if Nat.ltb k 3 then 0 else Mock.fixed_words little 1000 12000 k reg)
    (fun _ => 0%float).

(** A clock that shows 0.25 at [start] and 1.5 when the Sample task due at
    1.25 is dispatched, a quarter of a second late. *)
Definition late_env : Env float Mock.state :=
  Mock.env little (Mock.fixed_words little 1000 12000)
    (Mock.clock_of [0.25; 1.5; 1.5]%float 0%float).

(** A clock that shows 0.32 at [start], then 1.5. *)
Definition offset_env : Env float Mock.state :=
  Mock.env little (Mock.fixed_words little 1000 12000)
    (Mock.clock_of [0x1.47ae147ae147bp-2; 1.5; 1.5]%float 0%float).

(** A bus that fails every read with [OSError]. *)
Definition dead_env : Env float Mock.state := {|
  sys_byteorder := little;
  read_word_data := fun _ _ d => (inl OSError, d);
  write_word_data := fun _ _ _ d => (inr tt, d);
  time_sleep := fun _ d => d;
  time_monotonic := fun d => (1%float, d);
  utcnow_isoformat := fun d => ("2020-01-01T00:00:00+00:00", d)
|}.
End Scenario2.
(* ================================================================== *)
(** * Reasoning about computations *)

Section MonadFacts.
Context {F D : Type}.

Lemma bind_Ret {A B} (c : M F D A) (k : A -> M F D B) w a w1 :
  c w = (Ret a, w1) -> bind c k w = k a w1.
Proof. intros E. unfold bind. rewrite E. reflexivity. Qed.

Lemma bind_Raise {A B} (c : M F D A) (k : A -> M F D B) w e w1 :
  c w = (Raise e, w1) -> bind c k w = (Raise e, w1).
Proof. intros E. unfold bind. rewrite E. reflexivity. Qed.

Lemma bind_Spin {A B} (c : M F D A) (k : A -> M F D B) w w1 :
  c w = (Spin, w1) -> bind c k w = (Spin, w1).
Proof. intros E. unfold bind. rewrite E. reflexivity. Qed.

Lemma bind_inv {A B} (c : M F D A) (k : A -> M F D B) w r w' :
  bind c k w = (r, w') ->
  (exists a w1, c w = (Ret a, w1) /\ k a w1 = (r, w')) \/
  (exists e, c w = (Raise e, w') /\ r = Raise e) \/
  (c w = (Spin, w') /\ r = Spin).
Proof.
  unfold bind. destruct (c w) as [[a | e |] w1]; intros E.
  - left. eauto.
  - right. left. inversion E; subst. eauto.
  - right. right. inversion E; subst. eauto.
Qed.

Lemma bind_Ret_inv {A B} (c : M F D A) (k : A -> M F D B) w b w' :
  bind c k w = (Ret b, w') ->
  exists a w1, c w = (Ret a, w1) /\ k a w1 = (Ret b, w').
Proof.
  intros E. apply bind_inv in E.
  destruct E as [E | [[e [_ E]] | [_ E]]]; [exact E | discriminate | discriminate].
Qed.
End MonadFacts.

(* ================================================================== *)
(** * The register codec *)

Lemma encode_register_value native v :
  0 <= v <= 65535 ->
  encode_register native v =
    Ret (match native with
         | little => (v mod 256) * 256 + v / 256
         | big => v
         end).
Proof.
  intros Hv. unfold encode_register, struct_pack_H.
  replace ((v <? 0) || (65535 <? v)) with false
    by (symmetry; apply orb_false_iff; split; apply Z.ltb_ge; lia).
  destruct native; cbn [from_bytes fold_left]; f_equal;
    pose proof (Z.div_mod v 256); lia.
Qed.

Lemma decode_register_value native w :
  0 <= w <= 65535 ->
  decode_register native w =
    Ret (match native with
         | little => (w mod 256) * 256 + w / 256
         | big => w
         end).
Proof.
  intros Hw. unfold decode_register, to_bytes2.
  replace ((w <? 0) || (65535 <? w)) with false
    by (symmetry; apply orb_false_iff; split; apply Z.ltb_ge; lia).
  cbn [struct_unpack_H].
  destruct native; cbn [from_bytes fold_left fold_right]; f_equal;
    pose proof (Z.div_mod w 256); lia.
Qed.

Lemma swap16_range v :
  0 <= v <= 65535 -> 0 <= (v mod 256) * 256 + v / 256 <= 65535.
Proof.
  intros Hv.
  pose proof (Z.mod_pos_bound v 256 ltac:(lia)).
  assert (0 <= v / 256) by (apply Z.div_pos; lia).
  assert (v / 256 < 256) by (apply Z.div_lt_upper_bound; lia).
  lia.
Qed.

Lemma swap16_involutive v :
  0 <= v <= 65535 ->
  let s := (v mod 256) * 256 + v / 256 in
  (s mod 256) * 256 + s / 256 = v.
Proof.
  intros Hv s. subst s.
  pose proof (Z.mod_pos_bound v 256 ltac:(lia)).
  assert (0 <= v / 256) by (apply Z.div_pos; lia).
  assert (v / 256 < 256) by (apply Z.div_lt_upper_bound; lia).
  replace (v mod 256 * 256 + v / 256) with (v / 256 + (v mod 256) * 256) by lia.
  rewrite Z.mod_add by lia. rewrite Z.div_add by lia.
  rewrite (Z.mod_small (v / 256)) by lia.
  rewrite (Z.div_small (v / 256)) by lia.
  pose proof (Z.div_mod v 256). lia.
Qed.

Lemma decode_register_range native w v :
  decode_register native w = Ret v -> 0 <= w <= 65535 /\ 0 <= v <= 65535.
Proof.
  unfold decode_register, to_bytes2.
  destruct ((w <? 0) || (65535 <? w)) eqn:E; [discriminate |].
  apply orb_false_iff in E. destruct E as [E1 E2].
  apply Z.ltb_ge in E1, E2. intros Hd.
  assert (Hw : 0 <= w <= 65535) by lia.
  split; [exact Hw |].
  pose proof (decode_register_value native w Hw) as Hv.
  unfold decode_register, to_bytes2 in Hv.
  replace ((w <? 0) || (65535 <? w)) with false in Hv
    by (symmetry; apply orb_false_iff; split; apply Z.ltb_ge; lia).
  rewrite Hd in Hv. inversion Hv; subst.
  destruct native; [apply swap16_range; exact Hw | exact Hw].
Qed.

(** C8.  For every 16-bit value [v], the register write path encodes [v]
    to a 16-bit transport word, and the register read path decodes that word
    back to [v], on a host of either byte order. *)
Theorem decode_encode_round_trip (native : byteorder) (v : Z) :
  0 <= v <= 65535 ->
  exists word,
    encode_register native v = Ret word /\
    0 <= word <= 65535 /\
    decode_register native word = Ret v.
Proof.
  intros Hv. rewrite (encode_register_value native v Hv).
  destruct native.
  - exists ((v mod 256) * 256 + v / 256).
    pose proof (swap16_range v Hv) as Hs.
    repeat split; try lia.
    rewrite (decode_register_value little _ Hs). f_equal.
    apply (swap16_involutive v Hv).
  - exists v. repeat split; try lia.
    apply (decode_register_value big v Hv).
Qed.

Lemma decode_encode_round_trip_witness :
  0 <= 1000 <= 65535 /\
  exists word,
    encode_register little 1000 = Ret word /\
    0 <= word <= 65535 /\
    decode_register little word = Ret 1000.
Proof.
  split; [lia | apply (decode_encode_round_trip little 1000); lia].
Defined.

(* ================================================================== *)
(** * The driver's queries *)

Section DriverFacts.
Context {F D : Type} {PF : PyFloat F} {Ev : Env F D}.

Lemma read_register_ok (self : INA3221.t F) reg w word d' :
  read_word_data (INA3221._addr self) reg (dev w) = (inr word, d') ->
  0 <= word <= 65535 ->
  exists raw,
    decode_register (sys_byteorder (F := F) (D := D)) word = Ret raw /\
    0 <= raw <= 65535 /\
    INA3221._read_register self reg w =
      (Ret raw, mkWorld d' (trace w ++ [EvRead (INA3221._addr self) reg word])).
Proof.
  intros Hread Hword.
  destruct (decode_register sys_byteorder word) as [raw | e |] eqn:Hdec;
    try (rewrite (decode_register_value _ word Hword) in Hdec; discriminate).
  exists raw. split; [reflexivity |].
  split; [apply (decode_register_range _ _ _ Hdec) |].
  unfold INA3221._read_register, bind, bus_read, lift.
  rewrite Hread, Hdec. reflexivity.
Qed.

Lemma channel_check_in ch :
  0 <= ch <= 2 -> (ch <? 0) || (ch >? 2) = false.
Proof.
  intros Hch. apply orb_false_iff. split; [apply Z.ltb_ge; lia |].
  rewrite Z.gtb_ltb. apply Z.ltb_ge. lia.
Qed.

Lemma channel_check_out ch :
  ch < 0 \/ 2 < ch -> (ch <? 0) || (ch >? 2) = true.
Proof.
  intros [Hch | Hch]; apply orb_true_iff.
  - left. apply Z.ltb_lt. exact Hch.
  - right. rewrite Z.gtb_ltb. apply Z.ltb_lt. exact Hch.
Qed.

Lemma get_voltage_invalid (self : INA3221.t F) ch kind w :
  ch < 0 \/ 2 < ch ->
  INA3221.get_voltage self ch kind w = (Raise (ValueError "Invalid channel"), w).
Proof.
  intros Hch. unfold INA3221.get_voltage.
  rewrite (channel_check_out ch Hch). reflexivity.
Qed.

Lemma get_current_invalid (self : INA3221.t F) ch w :
  ch < 0 \/ 2 < ch ->
  INA3221.get_current self ch w = (Raise (ValueError "Invalid channel"), w).
Proof.
  intros Hch. unfold INA3221.get_current.
  apply bind_Raise. apply get_voltage_invalid. exact Hch.
Qed.

Lemma to_signed_spec (u16 : Z) :
  (32767 < u16 -> INA3221.to_signed u16 = u16 - 65536) /\
  (u16 <= 32767 -> INA3221.to_signed u16 = u16).
Proof.
  unfold INA3221.to_signed. rewrite Z.gtb_ltb.
  destruct (Z.ltb_spec 32767 u16); split; intros; lia.
Qed.

Lemma get_voltage_ok (self : INA3221.t F) (ch : Z) (kind : INA3221.reg_type)
    (w : World F D) (word : Z) (d' : D) :
  0 <= ch <= 2 ->
  read_word_data (INA3221._addr self) (INA3221.reg_base kind + ch * 2) (dev w)
    = (inr word, d') ->
  0 <= word <= 65535 ->
  exists raw,
    decode_register (sys_byteorder (F := F) (D := D)) word = Ret raw /\
    0 <= raw <= 65535 /\
    INA3221.get_voltage self ch kind w =
      (Ret (INA3221.convert kind (INA3221.to_signed raw)),
       mkWorld d'
         (trace w ++
          [EvRead (INA3221._addr self) (INA3221.reg_base kind + ch * 2) word])).
Proof.
  intros Hch Hread Hword.
  destruct (read_register_ok self _ w word d' Hread Hword) as [raw [Hdec [Hraw Hrd]]].
  exists raw. split; [exact Hdec |]. split; [exact Hraw |].
  unfold INA3221.get_voltage. rewrite (channel_check_in ch Hch).
  rewrite (bind_Ret _ _ _ _ _ Hrd). reflexivity.
Qed.

(** C3.  On a valid channel, when the transport answers the read with a
    16-bit word, [get_voltage] performs exactly one bus read, of register
    [base + ch*2] with base 2 for the bus and 1 for the shunt voltage; it
    takes the decoded value [raw], subtracts 65536 when [raw > 32767], and
    returns that signed value divided by 1000 (bus) or by 1000, then 2,
    then 10 (shunt). *)
Theorem get_voltage_register_and_scale (self : INA3221.t F) (ch : Z)
    (kind : INA3221.reg_type) (w : World F D) (word : Z) (d' : D) :
  0 <= ch <= 2 ->
  read_word_data (INA3221._addr self)
    ((match kind with INA3221.bus => 2 | INA3221.shunt => 1 end) + ch * 2)
    (dev w) = (inr word, d') ->
  0 <= word <= 65535 ->
  exists raw,
    decode_register (sys_byteorder (F := F) (D := D)) word = Ret raw /\
    0 <= raw <= 65535 /\
    INA3221.get_voltage self ch kind w =
      (Ret (let value := if raw >? 32767 then raw - 65536 else raw in
            match kind with
            | INA3221.bus => fdiv (of_int value) (of_int 1000)
            | INA3221.shunt =>
                fdiv (fdiv (fdiv (of_int value) (of_int 1000)) (of_int 2)) (of_int 10)
            end),
       mkWorld d'
         (trace w ++
          [EvRead (INA3221._addr self)
             ((match kind with INA3221.bus => 2 | INA3221.shunt => 1 end) + ch * 2)
             word])).
Proof.
  intros Hch Hread Hword.
  assert (Hbase : INA3221.reg_base kind =
                  match kind with INA3221.bus => 2 | INA3221.shunt => 1 end)
    by (destruct kind; reflexivity).
  rewrite <- Hbase in *.
  destruct (get_voltage_ok self ch kind w word d' Hch Hread Hword)
    as [raw [Hdec [Hraw Hgv]]].
  exists raw. split; [exact Hdec |]. split; [exact Hraw |].
  rewrite Hgv. unfold INA3221.to_signed, INA3221.convert.
  destruct kind; reflexivity.
Qed.

Lemma get_voltage_returns (self : INA3221.t F) ch kind w :
  0 <= ch <= 2 -> responsive (INA3221._addr self) w ->
  exists v w', INA3221.get_voltage self ch kind w = (Ret v, w').
Proof.
  intros Hch Hresp.
  destruct (Hresp (INA3221.reg_base kind + ch * 2)) as [word [d' [Hread Hword]]].
  destruct (get_voltage_ok self ch kind w word d' Hch Hread Hword)
    as [raw [_ [_ Hgv]]].
  eauto.
Qed.

Lemma get_current_returns (self : INA3221.t F) ch w :
  0 <= ch <= 2 -> responsive (INA3221._addr self) w ->
  is_zero (INA3221._shunt_resistor self) = false ->
  exists c w', INA3221.get_current self ch w = (Ret c, w').
Proof.
  intros Hch Hresp Hr.
  destruct (get_voltage_returns self ch INA3221.shunt w Hch Hresp) as [v [w' Hgv]].
  unfold INA3221.get_current. rewrite (bind_Ret _ _ _ _ _ Hgv).
  unfold truediv. rewrite Hr. unfold bind, ret. eauto.
Qed.

(** C4, amended.  For every integer [ch] and a responsive transport,
    [get_voltage] returns a value exactly when [ch] is 0, 1 or 2 and raises
    the invalid-channel error exactly when it is not; so does [get_current]
    when the shunt resistor is non-zero. *)
Theorem channel_validation (self : INA3221.t F) (ch : Z) (w : World F D) :
  responsive (INA3221._addr self) w ->
  (forall kind, channel_verdict ch (fst (INA3221.get_voltage self ch kind w))) /\
  (is_zero (INA3221._shunt_resistor self) = false ->
   channel_verdict ch (fst (INA3221.get_current self ch w))).
Proof.
  intros Hresp.
  destruct (Z_lt_dec ch 0) as [Hlo | Hlo];
    [| destruct (Z_lt_dec 2 ch) as [Hhi | Hhi]].
  - split; [intros kind | intros _].
    + rewrite get_voltage_invalid by lia. cbn. split; [reflexivity | lia].
    + rewrite get_current_invalid by lia. cbn. split; [reflexivity | lia].
  - split; [intros kind | intros _].
    + rewrite get_voltage_invalid by lia. cbn. split; [reflexivity | lia].
    + rewrite get_current_invalid by lia. cbn. split; [reflexivity | lia].
  - assert (Hch : 0 <= ch <= 2) by lia.
    split; [intros kind | intros Hr].
    + destruct (get_voltage_returns self ch kind w Hch Hresp) as [v [w' E]].
      rewrite E. exact Hch.
    + destruct (get_current_returns self ch w Hch Hresp Hr) as [c [w' E]].
      rewrite E. exact Hch.
Qed.
End DriverFacts.

(* ================================================================== *)
(** * Queries on concrete devices *)

Lemma fixed_env_responsive order k :
  responsive (Ev := Scenario.fixed_env order) INA3221.INA3221_ADDRESS
    (mkWorld (Mock.mk k 0) []).
Proof.
  intros reg. cbn. eexists. eexists. split; [reflexivity |].
  unfold Mock.fixed_words, Mock.word_for.
  destruct (reg =? 0); [lia |].
  destruct (Z.odd reg); destruct order; vm_compute; split; discriminate.
Qed.

Lemma get_voltage_register_and_scale_witness :
  exists raw,
    decode_register little 57390 = Ret raw /\
    0 <= raw <= 65535 /\
    INA3221.get_voltage (Ev := Scenario.fixed_env little)
      (INA3221.mk 64 0.5%float) 0 INA3221.bus Mock.world =
      (Ret (let value := if raw >? 32767 then raw - 65536 else raw in
            PrimFloat.div (float_of_int value) (float_of_int 1000)),
       mkWorld (Mock.mk 1 0) [EvRead 64 2 57390]).
Proof.
  refine (get_voltage_register_and_scale (Ev := Scenario.fixed_env little)
            (INA3221.mk 64 0.5%float) 0 INA3221.bus Mock.world 57390 (Mock.mk 1 0)
            _ _ _).
  - lia.
  - reflexivity.
  - lia.
Defined.

Lemma channel_validation_witness :
  (forall kind,
     channel_verdict 1
       (fst (INA3221.get_voltage (Ev := Scenario.fixed_env little)
               (INA3221.mk 64 0.5%float) 1 kind Mock.world))) /\
  (is_zero 0.5%float = false ->
   channel_verdict 1
     (fst (INA3221.get_current (Ev := Scenario.fixed_env little)
             (INA3221.mk 64 0.5%float) 1 Mock.world))).
Proof.
  refine (channel_validation (Ev := Scenario.fixed_env little)
            (INA3221.mk 64 0.5%float) 1 Mock.world _).
  apply (fixed_env_responsive little 0).
Defined.

(** C4 as stated fails: a driver constructed with a zero shunt resistor
    over a device that reads all zeros is constructed without error, its
    transport answers every read, and yet [get_current(0)] neither returns
    nor raises the invalid-channel error: it raises [ZeroDivisionError]. *)
Lemma get_current_zero_resistor :
  Scenario.zero_resistor = Raise ZeroDivisionError /\
  ~ channel_verdict 0 Scenario.zero_resistor.
Proof.
  assert (E : Scenario.zero_resistor = Raise ZeroDivisionError)
    by (vm_compute; reflexivity).
  split; [exact E |].
  rewrite E. cbn. intros [Habs _]. discriminate Habs.
Qed.

(** C1, amended.  Over a transport whose shunt registers decode to 1000 and
    whose bus registers decode to 12000, with the 0.1 ohm shunt, in IEEE
    binary64 and on either byte order: [get_current(0)] is 50.0, the reading
    of channel 0 with gain -1 has [v_load] 12.0 and [current]
    -0x1.999999999999ap-5, the float Python prints as -0.05, and
    [get_voltage(0, 'bus')] is 12.0. *)
Theorem end_to_end_readings (order : byteorder) :
  Scenario.end_to_end order =
    Ret (50%float,
         [ ("v_load", 12%float); ("current", (-0x1.999999999999ap-5)%float) ],
         12%float).
Proof. destruct order; vm_compute; reflexivity. Qed.

(** C1 as stated fails: [get_current(0)] is not 5.0 in magnitude, and the
    current field of the reading is not -0.005. *)
Lemma end_to_end_not_five :
  exists current r voltage,
    Scenario.end_to_end little = Ret (current, r, voltage) /\
    current <> 5%float /\
    current <> (-5)%float /\
    dict_get r "current" <> Some (PrimFloat.div (-5)%float 1000%float).
Proof.
  eexists. eexists. eexists.
  split; [vm_compute; reflexivity |].
  repeat split; intros Habs; discriminate Habs.
Qed.

(* ================================================================== *)
(** * Bringing the device up *)

Lemma land_RST v :
  Z.land v INA3221.INA3221_CONFIG_RST = 0 <-> Z.testbit v 15 = false.
Proof.
  change INA3221.INA3221_CONFIG_RST with (2 ^ 15). split.
  - intros Hland.
    assert (Hbit : Z.testbit (Z.land v (2 ^ 15)) 15 = false)
      by (rewrite Hland; apply Z.bits_0).
    rewrite Z.land_spec, Z.pow2_bits_true, andb_true_r in Hbit by lia.
    exact Hbit.
  - intros Hbit. apply Z.bits_inj'. intros n Hn.
    rewrite Z.land_spec, Z.bits_0, Z.pow2_bits_eqb by lia.
    destruct (Z.eqb_spec 15 n) as [<- | Hne].
    + rewrite Hbit. reflexivity.
    + apply andb_false_r.
Qed.

Lemma encode_RST native :
  encode_register native INA3221.INA3221_CONFIG_RST =
    Ret (match native with little => 128 | big => 32768 end).
Proof. destruct native; reflexivity. Qed.

Lemma encode_config native :
  encode_register native INA3221.config =
    Ret (match native with little => 0xE77F | big => 0x7FE7 end).
Proof. destruct native; reflexivity. Qed.

Section InitFacts.
Context {F D : Type} {PF : PyFloat F} {Ev : Env F D}.

Lemma bind_assoc {A B C} (c : M F D A) (f : A -> M F D B) (g : B -> M F D C) w :
  bind (bind c f) g w = bind c (fun a => bind (f a) g) w.
Proof.
  unfold bind. destruct (c w) as [[a | e |] w1]; reflexivity.
Qed.

Section Emits.
Variable p : io_event F -> bool.
Hypothesis p_read : forall addr reg word, p (EvRead addr reg word) = true.

Lemma emits_nothing {A} (c : M F D A) :
  (forall w, snd (c w) = w) -> emits p c.
Proof.
  intros Hc w r w' E. specialize (Hc w). rewrite E in Hc. cbn in Hc. subst w'.
  exists []. rewrite app_nil_r. auto.
Qed.

Lemma emits_ret {A} (a : A) : emits p (ret (F := F) (D := D) a).
Proof. apply emits_nothing. reflexivity. Qed.

Lemma emits_raise {A} e : emits p (raise (F := F) (D := D) (A := A) e).
Proof. apply emits_nothing. reflexivity. Qed.

Lemma emits_lift {A} (o : outcome A) : emits p (lift (F := F) (D := D) o).
Proof. apply emits_nothing. reflexivity. Qed.

Lemma emits_bind {A B} (c : M F D A) (k : A -> M F D B) :
  emits p c -> (forall a, emits p (k a)) -> emits p (bind c k).
Proof.
  intros Hc Hk w r w' E. apply bind_inv in E.
  destruct E as [[a [w1 [E1 E2]]] | [[e [E1 _]] | [E1 _]]].
  - destruct (Hc _ _ _ E1) as [ev1 [T1 P1]].
    destruct (Hk a _ _ _ E2) as [ev2 [T2 P2]].
    exists (ev1 ++ ev2). rewrite T2, T1, app_assoc. split; [reflexivity |].
    rewrite forallb_app, P1, P2. reflexivity.
  - exact (Hc _ _ _ E1).
  - exact (Hc _ _ _ E1).
Qed.

Lemma emits_bus_read addr reg : emits p (bus_read addr reg).
Proof.
  intros w r w' E. unfold bus_read in E.
  destruct (read_word_data addr reg (dev w)) as [[e | v] d]; inversion E; subst; cbn.
  - exists []. rewrite app_nil_r. auto.
  - exists [EvRead addr reg v]. cbn. rewrite p_read. auto.
Qed.

Lemma emits_sleep secs : p (EvSleep secs) = true -> emits p (sleep secs).
Proof.
  intros Hs w r w' E. inversion E; subst. cbn. exists [EvSleep secs].
  cbn. rewrite Hs. auto.
Qed.

Lemma emits_read_register (self : INA3221.t F) reg :
  emits p (INA3221._read_register self reg).
Proof.
  apply emits_bind; [apply emits_bus_read |].
  intros word. apply emits_lift.
Qed.

Lemma emits_get_voltage (self : INA3221.t F) ch kind :
  emits p (INA3221.get_voltage self ch kind).
Proof.
  unfold INA3221.get_voltage.
  destruct ((ch <? 0) || (ch >? 2)); [apply emits_raise |].
  apply emits_bind; [apply emits_read_register |].
  intros v. apply emits_ret.
Qed.

Lemma emits_get_current (self : INA3221.t F) ch :
  emits p (INA3221.get_current self ch).
Proof.
  apply emits_bind; [apply emits_get_voltage |].
  intros v. apply emits_bind.
  - unfold truediv. destruct (is_zero _); [apply emits_raise | apply emits_ret].
  - intros q. apply emits_ret.
Qed.

Lemma emits_all_converted (self : INA3221.t F) chs :
  emits p (INA3221.all_converted self chs).
Proof.
  induction chs as [| i rest IH]; cbn [INA3221.all_converted].
  - apply emits_ret.
  - apply emits_bind; [apply emits_get_voltage |].
    intros v. destruct (truthy v); [| apply emits_ret].
    apply emits_bind; [apply emits_get_current |].
    intros c. destruct (truthy c); [exact IH | apply emits_ret].
Qed.

Hypothesis p_sleep : forall secs, p (EvSleep secs) = true.

Lemma emits_conversion_wait (self : INA3221.t F) timeout :
  emits p (INA3221.conversion_wait self timeout).
Proof.
  induction timeout as [| n IH]; cbn [INA3221.conversion_wait];
    (apply emits_bind; [apply emits_all_converted |]);
    intros done; destruct (negb done); try apply emits_ret.
  apply emits_bind; [apply emits_sleep, p_sleep | intros _; exact IH].
Qed.

Lemma emits_reset_poll (self : INA3221.t F) fuel :
  emits p (INA3221.reset_poll fuel self).
Proof.
  induction fuel as [| n IH]; cbn [INA3221.reset_poll].
  - apply emits_nothing. reflexivity.
  - apply emits_bind; [apply emits_read_register |].
    intros v. destruct (Z.land v INA3221.INA3221_CONFIG_RST =? 0);
      [apply emits_ret |].
    apply emits_bind; [apply emits_sleep, p_sleep | intros _; exact IH].
Qed.
End Emits.

Lemma filter_none (q p : io_event F -> bool) (evs : list (io_event F)) :
  (forall e, p e = true -> q e = false) ->
  forallb p evs = true -> filter q evs = [].
Proof.
  intros Hpq. induction evs as [| e evs IH]; cbn; [reflexivity |].
  intros Hall. apply andb_true_iff in Hall. destruct Hall as [He Hrest].
  rewrite (Hpq e He). auto.
Qed.

(** None of the driver's computations exhausts a step bound, the reset poll
    apart. *)
Lemma read_register_total (self : INA3221.t F) reg w :
  fst (INA3221._read_register self reg w) <> Spin.
Proof.
  unfold INA3221._read_register, bind, bus_read, lift.
  destruct (read_word_data _ reg (dev w)) as [[e | word] d]; cbn; [discriminate |].
  destruct (decode_register sys_byteorder word) as [v | e |] eqn:Hdec;
    cbn; try discriminate.
  unfold decode_register in Hdec.
  destruct (to_bytes2 big word) as [bs | e |] eqn:Hb; try discriminate.
  - unfold struct_unpack_H in Hdec.
    destruct bs as [| ? [| ? [| ? ?]]]; discriminate.
  - unfold to_bytes2 in Hb. destruct (_ || _); discriminate.
Qed.

Lemma get_voltage_total (self : INA3221.t F) ch kind w :
  fst (INA3221.get_voltage self ch kind w) <> Spin.
Proof.
  unfold INA3221.get_voltage.
  destruct ((ch <? 0) || (ch >? 2)); [cbn; discriminate |].
  pose proof (read_register_total self (INA3221.reg_base kind + ch * 2) w) as Hrd.
  unfold bind.
  destruct (INA3221._read_register self _ w) as [[v | e |] w1];
    cbn in *; congruence.
Qed.

Lemma get_current_total (self : INA3221.t F) ch w :
  fst (INA3221.get_current self ch w) <> Spin.
Proof.
  unfold INA3221.get_current.
  pose proof (get_voltage_total self ch INA3221.shunt w) as Hgv.
  unfold bind at 1.
  destruct (INA3221.get_voltage self ch INA3221.shunt w) as [[v | e |] w1];
    cbn in *; try congruence.
  unfold bind, truediv. destruct (is_zero _); cbn; discriminate.
Qed.

Lemma all_converted_total (self : INA3221.t F) chs w :
  fst (INA3221.all_converted self chs w) <> Spin.
Proof.
  revert w. induction chs as [| i rest IH]; intros w; cbn [INA3221.all_converted].
  - cbn. discriminate.
  - pose proof (get_voltage_total self i INA3221.bus w) as Hgv.
    unfold bind at 1.
    destruct (INA3221.get_voltage self i INA3221.bus w) as [[v | e |] w1];
      cbn in *; try congruence.
    destruct (truthy v); [| cbn; discriminate].
    pose proof (get_current_total self i w1) as Hgc.
    unfold bind.
    destruct (INA3221.get_current self i w1) as [[c | e |] w2];
      cbn in *; try congruence.
    destruct (truthy c); [apply IH | cbn; discriminate].
Qed.
End InitFacts.

Section InitTheorems.
Context {F D : Type} {PF : PyFloat F} {Ev : Env F D}.

Lemma read_register_inv (self : INA3221.t F) reg w v w' :
  INA3221._read_register self reg w = (Ret v, w') ->
  exists word,
    decode_register (sys_byteorder (F := F) (D := D)) word = Ret v /\
    trace w' = trace w ++ [EvRead (INA3221._addr self) reg word].
Proof.
  intros Hrd. apply bind_Ret_inv in Hrd. destruct Hrd as [word [w1 [Hbus Hdec]]].
  unfold lift in Hdec.
  assert (Hd : decode_register (sys_byteorder (F := F) (D := D)) word = Ret v)
    by congruence.
  assert (Hw : w1 = w') by congruence. subst w1. clear Hdec.
  exists word. split; [exact Hd |].
  unfold bus_read in Hbus.
  destruct (read_word_data _ reg (dev w)) as [[e | x] d]; inversion Hbus; subst.
  reflexivity.
Qed.

Lemma write_register_inv (self : INA3221.t F) reg data w u w' :
  INA3221._write_register self reg data w = (Ret u, w') ->
  exists word,
    encode_register (sys_byteorder (F := F) (D := D)) data = Ret word /\
    trace w' = trace w ++ [EvWrite (INA3221._addr self) reg word].
Proof.
  intros Hwr. apply bind_Ret_inv in Hwr. destruct Hwr as [word [w1 [Henc Hbus]]].
  unfold lift in Henc.
  assert (He : encode_register (sys_byteorder (F := F) (D := D)) data = Ret word)
    by congruence.
  assert (Hw : w1 = w) by congruence. subst w1. clear Henc.
  exists word. split; [exact He |].
  unfold bus_write in Hbus.
  destruct (write_word_data _ reg word (dev w)) as [[e | x] d]; inversion Hbus; subst.
  reflexivity.
Qed.

Lemma reset_poll_inv (self : INA3221.t F) fuel w w' :
  INA3221.reset_poll fuel self w = (Ret tt, w') ->
  exists poll word v,
    trace w' = trace w ++ poll ++ [EvRead (INA3221._addr self) 0 word] /\
    decode_register (sys_byteorder (F := F) (D := D)) word = Ret v /\
    Z.testbit v 15 = false /\
    filter is_write poll = [].
Proof.
  revert w. induction fuel as [| n IH]; intros w Hpoll; cbn [INA3221.reset_poll] in Hpoll.
  - discriminate Hpoll.
  - apply bind_Ret_inv in Hpoll. destruct Hpoll as [v [w1 [Hrd Hrest]]].
    destruct (read_register_inv _ _ _ _ _ Hrd) as [word [Hdec Htr]].
    destruct (Z.eqb_spec (Z.land v INA3221.INA3221_CONFIG_RST) 0) as [Hclr | Hset].
    + inversion Hrest; subst. exists [], word, v.
      repeat split; try assumption. apply land_RST. exact Hclr.
    + apply bind_Ret_inv in Hrest. destruct Hrest as [u [w2 [Hsl Hrec]]].
      inversion Hsl; subst.
      destruct (IH _ Hrec) as [poll [word' [v' [Htr' [Hdec' [Hbit Hnw]]]]]].
      exists (EvRead (INA3221._addr self) 0 word :: EvSleep (of_int 0) :: poll), word', v'.
      repeat split; try assumption.
      rewrite Htr'. cbn [trace]. rewrite Htr. rewrite <- !app_assoc. reflexivity.
Qed.

Lemma reset_poll_spins (self : INA3221.t F) (I : D -> Prop) :
  reset_stuck (INA3221._addr self) I ->
  forall fuel w, I (dev w) -> fst (INA3221.reset_poll fuel self w) = Spin.
Proof.
  intros Hstuck. induction fuel as [| n IH]; intros w HI; [reflexivity |].
  cbn [INA3221.reset_poll].
  destruct (Hstuck _ HI) as [word [d' [v [Hread [Hdec [Hbit HI']]]]]].
  assert (Hrd : INA3221._read_register self INA3221.INA3221_REG_CONFIG w =
                (Ret v, mkWorld d' (trace w ++ [EvRead (INA3221._addr self) 0 word]))).
  { unfold INA3221._read_register, bind, bus_read, lift.
    rewrite Hread, Hdec. reflexivity. }
  rewrite (bind_Ret _ _ _ _ _ Hrd).
  destruct (Z.eqb_spec (Z.land v INA3221.INA3221_CONFIG_RST) 0) as [Hclr | Hset].
  - apply land_RST in Hclr. congruence.
  - unfold bind at 1. cbn [sleep]. apply IH. exact HI'.
Qed.

Lemma init_after_handshake fuel addr r w0 w :
  handshake fuel (INA3221.mk addr r) w0 = (Ret tt, w) ->
  INA3221.__init__ fuel addr r w0 =
    bind (INA3221.conversion_wait (INA3221.mk addr r) 10)
         (fun _ => ret (INA3221.mk addr r)) w.
Proof.
  intros Hhs. unfold handshake in Hhs.
  apply bind_Ret_inv in Hhs. destruct Hhs as [u1 [w1 [H1 Hhs]]].
  apply bind_Ret_inv in Hhs. destruct Hhs as [u2 [w2 [H2 H3]]].
  unfold INA3221.__init__.
  rewrite (bind_Ret _ _ _ _ _ H1), (bind_Ret _ _ _ _ _ H2), (bind_Ret _ _ _ _ _ H3).
  reflexivity.
Qed.

Lemma init_inv fuel addr r w self w' :
  INA3221.__init__ fuel addr r w = (Ret self, w') ->
  self = INA3221.mk addr r /\
  exists w0,
    handshake fuel self w = (Ret tt, w0) /\
    INA3221.conversion_wait self 10 w0 = (Ret tt, w').
Proof.
  intros Hinit. unfold INA3221.__init__ in Hinit.
  apply bind_Ret_inv in Hinit. destruct Hinit as [[] [w1 [H1 Hinit]]].
  apply bind_Ret_inv in Hinit. destruct Hinit as [[] [w2 [H2 Hinit]]].
  apply bind_Ret_inv in Hinit. destruct Hinit as [[] [w3 [H3 Hinit]]].
  apply bind_Ret_inv in Hinit. destruct Hinit as [[] [w4 [H4 Hinit]]].
  inversion Hinit; subst. split; [reflexivity |].
  exists w3. split; [| exact H4].
  unfold handshake.
  rewrite (bind_Ret _ _ _ _ _ H1), (bind_Ret _ _ _ _ _ H2). exact H3.
Qed.

(** The trace of a successful bring-up: the reset write, the polls of the
    config register, of which the last reads the reset bit clear, the
    configuration write, and then only reads and sleeps. *)
Lemma init_trace_shape fuel addr r w self w' :
  INA3221.__init__ fuel addr r w = (Ret self, w') ->
  exists rst_word cfg_word poll word v rest,
    encode_register (sys_byteorder (F := F) (D := D)) INA3221.INA3221_CONFIG_RST = Ret rst_word /\
    encode_register (sys_byteorder (F := F) (D := D)) INA3221.config = Ret cfg_word /\
    trace w' = trace w ++ [EvWrite addr 0 rst_word] ++ poll ++
               [EvRead addr 0 word] ++ [EvWrite addr 0 cfg_word] ++ rest /\
    decode_register (sys_byteorder (F := F) (D := D)) word = Ret v /\
    Z.testbit v 15 = false /\
    filter is_write poll = [] /\
    filter is_write rest = [].
Proof.
  intros Hinit. unfold INA3221.__init__ in Hinit.
  apply bind_Ret_inv in Hinit. destruct Hinit as [[] [w1 [H1 Hinit]]].
  apply bind_Ret_inv in Hinit. destruct Hinit as [[] [w2 [H2 Hinit]]].
  apply bind_Ret_inv in Hinit. destruct Hinit as [[] [w3 [H3 Hinit]]].
  apply bind_Ret_inv in Hinit. destruct Hinit as [[] [w4 [H4 Hinit]]].
  inversion Hinit; subst. clear Hinit.
  destruct (write_register_inv _ _ _ _ _ _ H1) as [rst_word [Erst T1]].
  destruct (reset_poll_inv _ _ _ _ H2) as [poll [word [v [T2 [Hdec [Hbit Hnw]]]]]].
  destruct (write_register_inv _ _ _ _ _ _ H3) as [cfg_word [Ecfg T3]].
  destruct (emits_conversion_wait (fun e => is_read e || is_sleep e)
              (fun _ _ _ => eq_refl) (fun _ => eq_refl) _ _ _ _ _ H4)
    as [rest [T4 Hrest]].
  exists rst_word, cfg_word, poll, word, v, rest.
  repeat split; try assumption.
  - rewrite T4, T3, T2, T1. cbn [INA3221._addr]. rewrite <- !app_assoc. reflexivity.
  - apply (filter_none is_write _ rest) in Hrest; [exact Hrest |].
    intros [] He; cbn in *; congruence.
Qed.

Lemma conversion_wait_bound (self : INA3221.t F) n :
  forall w r w',
    INA3221.conversion_wait self n w = (r, w') ->
    r <> Spin /\
    exists evs,
      trace w' = trace w ++ evs /\
      (List.length (filter is_sleep evs) <= n)%nat /\
      filter is_write evs = [].
Proof.
  assert (Hchk : forall w r w1,
            INA3221.all_converted self [0; 1; 2] w = (r, w1) ->
            r <> Spin /\
            exists evs, trace w1 = trace w ++ evs /\
                        filter is_sleep evs = [] /\ filter is_write evs = []).
  { intros w r w1 Hc. split.
    - pose proof (all_converted_total self [0; 1; 2] w) as Ht.
      rewrite Hc in Ht. exact Ht.
    - destruct (emits_all_converted is_read (fun _ _ _ => eq_refl) _ _ _ _ _ Hc)
        as [evs [T P]].
      exists evs. split; [exact T |].
      split; apply (filter_none _ is_read); try exact P;
        intros [] He; cbn in *; congruence. }
  induction n as [| n IH]; intros w r w' Hcw; cbn [INA3221.conversion_wait] in Hcw;
    apply bind_inv in Hcw;
    destruct Hcw as [[done [w1 [Hc Hk]]] | [[e [Hc ->]] | [Hc ->]]];
    destruct (Hchk _ _ _ Hc) as [Hr [evs [T [Hs Hw]]]];
    try congruence;
    try solve [ split; [discriminate |]; exists evs; rewrite Hs; cbn;
                repeat split; [exact T | lia | exact Hw] ].
  - destruct done; cbn [negb] in Hk; inversion Hk; subst;
      (split; [discriminate |]); exists evs; rewrite Hs; cbn;
      repeat split; try assumption; lia.
  - destruct done; cbn [negb] in Hk.
    + inversion Hk; subst.
      split; [discriminate |]. exists evs. rewrite Hs. cbn.
      repeat split; try assumption; lia.
    + apply bind_inv in Hk.
      destruct Hk as [[u [w2 [Hsl Hk]]] | [[e [Hsl _]] | [Hsl _]]];
        try discriminate Hsl.
      inversion Hsl; subst. clear Hsl.
      destruct (IH _ _ _ Hk) as [Hspin [evs2 [T2 [Hs2 Hw2]]]].
      split; [exact Hspin |].
      exists (evs ++ [EvSleep (fdiv (of_int 1) (of_int 1000))] ++ evs2).
      rewrite T2. cbn [trace]. rewrite T. rewrite <- !app_assoc.
      split; [reflexivity |].
      rewrite !filter_app, !length_app, Hs, Hw, Hw2. cbn. split; [lia | reflexivity].
Qed.

Lemma conversion_wait_converges (self : INA3221.t F) n :
  forall k w wk w',
    (k <= n)%nat ->
    failed_checks self k w wk ->
    INA3221.all_converted self [0; 1; 2] wk = (Ret true, w') ->
    INA3221.conversion_wait self n w = (Ret tt, w').
Proof.
  induction n as [| n IH]; intros k w wk w' Hk Hfail Hok.
  - assert (k = O) by lia. subst k. inversion Hfail; subst.
    cbn [INA3221.conversion_wait]. rewrite (bind_Ret _ _ _ _ _ Hok). reflexivity.
  - inversion Hfail as [| k' ? w1 w2 ? Hc Hsl Hrest]; subst.
    + cbn [INA3221.conversion_wait]. rewrite (bind_Ret _ _ _ _ _ Hok). reflexivity.
    + cbn [INA3221.conversion_wait]. rewrite (bind_Ret _ _ _ _ _ Hc). cbn [negb].
      rewrite (bind_Ret _ _ _ _ _ Hsl).
      apply (IH k' w2 wk w'); [lia | exact Hrest | exact Hok].
Qed.

Lemma conversion_wait_times_out (self : INA3221.t F) n :
  forall w wn w',
    failed_checks self n w wn ->
    INA3221.all_converted self [0; 1; 2] wn = (Ret false, w') ->
    INA3221.conversion_wait self n w = (Ret tt, w').
Proof.
  induction n as [| n IH]; intros w wn w' Hfail Hno.
  - inversion Hfail; subst.
    cbn [INA3221.conversion_wait]. rewrite (bind_Ret _ _ _ _ _ Hno). reflexivity.
  - inversion Hfail as [| k' ? w1 w2 ? Hc Hsl Hrest]; subst.
    cbn [INA3221.conversion_wait]. rewrite (bind_Ret _ _ _ _ _ Hc). cbn [negb].
    rewrite (bind_Ret _ _ _ _ _ Hsl).
    apply (IH w2 wn w'); [exact Hrest | exact Hno].
Qed.
(** The check of the conversion wait is the check of the six readings: it
    comes out true exactly when none of them is zero, and false exactly
    when one of them is, at which it stops. *)
Lemma all_converted_readings (self : INA3221.t F) (chs : list Z) :
  forall w w',
    (INA3221.all_converted self chs w = (Ret true, w') <->
     none_zero
       (flat_map (fun i => [INA3221.get_voltage self i INA3221.bus;
                            INA3221.get_current self i]) chs) w w') /\
    (INA3221.all_converted self chs w = (Ret false, w') <->
     first_zero
       (flat_map (fun i => [INA3221.get_voltage self i INA3221.bus;
                            INA3221.get_current self i]) chs) w w').
Proof.
  induction chs as [| i rest IH]; intros w w';
    cbn [INA3221.all_converted flat_map app].
  - split; split; intros H.
    + inversion H; subst. constructor.
    + inversion H; subst. reflexivity.
    + discriminate H.
    + inversion H.
  - split; split; intros H.
    + apply bind_Ret_inv in H. destruct H as [v [w1 [Hv H]]].
      unfold truthy, is_zero in H.
      destruct (feqb v (of_int 0)) eqn:Zv; cbn [negb] in H; [discriminate H |].
      apply bind_Ret_inv in H. destruct H as [c [w2 [Hc H]]].
      unfold truthy, is_zero in H.
      destruct (feqb c (of_int 0)) eqn:Zc; cbn [negb] in H; [discriminate H |].
      apply (none_zero_cons _ _ _ _ _ _ Hv Zv).
      apply (none_zero_cons _ _ _ _ _ _ Hc Zc).
      apply IH. exact H.
    + inversion H as [| q qs w0 v w1 w2 Hv Zv H1]; subst.
      inversion H1 as [| q qs w0 c w2 w3 Hc Zc H2]; subst.
      rewrite (bind_Ret _ _ _ _ _ Hv). unfold truthy, is_zero. rewrite Zv. cbn [negb].
      rewrite (bind_Ret _ _ _ _ _ Hc). rewrite Zc. cbn [negb].
      apply IH. exact H2.
    + apply bind_Ret_inv in H. destruct H as [v [w1 [Hv H]]].
      unfold truthy, is_zero in H.
      destruct (feqb v (of_int 0)) eqn:Zv; cbn [negb] in H.
      { inversion H; subst. apply (first_zero_here _ _ _ _ _ Hv Zv). }
      apply bind_Ret_inv in H. destruct H as [c [w2 [Hc H]]].
      unfold truthy, is_zero in H.
      destruct (feqb c (of_int 0)) eqn:Zc; cbn [negb] in H.
      { inversion H; subst.
        apply (first_zero_later _ _ _ _ _ _ Hv Zv).
        apply (first_zero_here _ _ _ _ _ Hc Zc). }
      apply (first_zero_later _ _ _ _ _ _ Hv Zv).
      apply (first_zero_later _ _ _ _ _ _ Hc Zc).
      apply IH. exact H.
    + inversion H as [q qs w0 v w1 Hv Zv | q qs w0 v w1 w2 Hv Zv H1]; subst.
      { rewrite (bind_Ret _ _ _ _ _ Hv). unfold truthy, is_zero. rewrite Zv.
        reflexivity. }
      rewrite (bind_Ret _ _ _ _ _ Hv). unfold truthy, is_zero. rewrite Zv. cbn [negb].
      inversion H1 as [q qs w0 c w2 Hc Zc | q qs w0 c w2 w3 Hc Zc H2]; subst.
      { rewrite (bind_Ret _ _ _ _ _ Hc). rewrite Zc. reflexivity. }
      rewrite (bind_Ret _ _ _ _ _ Hc). rewrite Zc. cbn [negb].
      apply IH. exact H2.
Qed.

Lemma all_converted_none_zero (self : INA3221.t F) w w' :
  INA3221.all_converted self [0; 1; 2] w = (Ret true, w') <->
  none_zero (six_readings self) w w'.
Proof. exact (proj1 (all_converted_readings self [0; 1; 2] w w')). Qed.

Lemma all_converted_first_zero (self : INA3221.t F) w w' :
  INA3221.all_converted self [0; 1; 2] w = (Ret false, w') <->
  first_zero (six_readings self) w w'.
Proof. exact (proj2 (all_converted_readings self [0; 1; 2] w w')). Qed.

Lemma zero_checks_failed (self : INA3221.t F) k w wk :
  zero_checks self k w wk <-> failed_checks self k w wk.
Proof.
  split.
  - induction 1 as [w | k w w1 w2 wk Hz Hsl _ IH].
    + constructor.
    + apply (failed_more self k w w1 w2 wk); [| exact Hsl | exact IH].
      apply all_converted_first_zero. exact Hz.
  - induction 1 as [w | k w w1 w2 wk Hc Hsl _ IH].
    + constructor.
    + apply (zero_checks_more self k w w1 w2 wk); [| exact Hsl | exact IH].
      apply all_converted_first_zero. exact Hc.
Qed.

(** A conversion wait that returns either converged within the bound or
    ran the bound out. *)
Lemma conversion_wait_inv (self : INA3221.t F) n :
  forall w w',
    INA3221.conversion_wait self n w = (Ret tt, w') ->
    exists k wk,
      (k <= n)%nat /\
      failed_checks self k w wk /\
      (INA3221.all_converted self [0; 1; 2] wk = (Ret true, w') \/
       (k = n /\ INA3221.all_converted self [0; 1; 2] wk = (Ret false, w'))).
Proof.
  induction n as [| n IH]; intros w w' Hcw; cbn [INA3221.conversion_wait] in Hcw;
    apply bind_Ret_inv in Hcw; destruct Hcw as [done [w1 [Hc Hk]]];
    destruct done; cbn [negb] in Hk.
  - inversion Hk; subst. exists O, w. split; [lia |]. split; [constructor |].
    left. exact Hc.
  - inversion Hk; subst. exists O, w. split; [lia |]. split; [constructor |].
    right. split; [reflexivity | exact Hc].
  - inversion Hk; subst. exists O, w. split; [lia |]. split; [constructor |].
    left. exact Hc.
  - apply bind_Ret_inv in Hk. destruct Hk as [u [w2 [Hsl Hk]]].
    destruct (IH _ _ Hk) as [k [wk [Hle [Hfail Hend]]]].
    exists (S k), wk. split; [lia |]. split.
    + destruct u. apply (failed_more self k w w1 w2 wk Hc Hsl Hfail).
    + destruct Hend as [Hok | [-> Hno]]; [left; exact Hok | right].
      split; [reflexivity | exact Hno].
Qed.

(** C2, amended.  A bring-up that returns has written to the bus exactly
    twice, both times to the config register: first the reset word, then,
    after a poll that read the reset bit clear, one operating configuration
    word.  That word is 0x7FE7: the three channel enables (bits 14-12), the
    three AVG bits (11-9), the three VBUS_CT bits (8-6), of the VSH_CT bits
    only VSH_CT2 (bit 5; bits 4 and 3 are clear), and the three MODE bits
    (2-0); the reset bit (15) is clear. *)
Theorem init_writes_operating_config (fuel : nat) (addr : Z) (r : F)
    (w : World F D) (self : INA3221.t F) (w' : World F D) :
  INA3221.__init__ fuel addr r w = (Ret self, w') ->
  exists rst_word cfg_word poll word v rest,
    encode_register (sys_byteorder (F := F) (D := D)) INA3221.INA3221_CONFIG_RST
      = Ret rst_word /\
    encode_register (sys_byteorder (F := F) (D := D)) INA3221.config = Ret cfg_word /\
    trace w' = trace w ++ [EvWrite addr 0 rst_word] ++ poll ++
               [EvRead addr 0 word] ++ [EvWrite addr 0 cfg_word] ++ rest /\
    decode_register (sys_byteorder (F := F) (D := D)) word = Ret v /\
    Z.testbit v 15 = false /\
    filter is_write poll = [] /\
    filter is_write rest = [] /\
    INA3221.config = 0x7FE7 /\
    map (Z.testbit INA3221.config) [15; 14; 13; 12; 11; 10; 9; 8; 7; 6; 5; 4; 3; 2; 1; 0]
      = [false; true; true; true; true; true; true; true; true; true;
         true; false; false; true; true; true].
Proof.
  intros Hinit.
  destruct (init_trace_shape _ _ _ _ _ _ Hinit)
    as [rst_word [cfg_word [poll [word [v [rest [H1 [H2 [H3 [H4 [H5 [H6 H7]]]]]]]]]]]].
  exists rst_word, cfg_word, poll, word, v, rest.
  repeat split; try assumption.
Qed.

(** C9.  Once the handshake has returned, the bring-up terminates for every
    device: the conversion wait sleeps at most 10 times and writes nothing.
    A round of the wait takes the six readings in turn (bus voltage and
    current of channels 0, 1, 2) and stops at the first that is zero.  The
    bring-up returns as soon as a round finds none of the six zero, after
    [k <= 10] rounds that met a zero and slept; and when ten rounds met a
    zero and the round after the last sleep meets one too, it returns the
    driver all the same.  A bring-up that returns has left the wait in one
    of these two ways. *)
Theorem conversion_wait_at_most_ten (fuel : nat) (addr : Z) (r : F)
    (w0 w : World F D) :
  handshake fuel (INA3221.mk addr r) w0 = (Ret tt, w) ->
  (exists res w' evs,
     INA3221.__init__ fuel addr r w0 = (res, w') /\
     res <> Spin /\
     trace w' = trace w ++ evs /\
     (List.length (filter is_sleep evs) <= 10)%nat /\
     filter is_write evs = []) /\
  (forall k wk w',
     (k <= 10)%nat ->
     zero_checks (INA3221.mk addr r) k w wk ->
     none_zero (six_readings (INA3221.mk addr r)) wk w' ->
     INA3221.__init__ fuel addr r w0 = (Ret (INA3221.mk addr r), w')) /\
  (forall w10 w',
     zero_checks (INA3221.mk addr r) 10 w w10 ->
     first_zero (six_readings (INA3221.mk addr r)) w10 w' ->
     INA3221.__init__ fuel addr r w0 = (Ret (INA3221.mk addr r), w')) /\
  (forall self' w',
     INA3221.__init__ fuel addr r w0 = (Ret self', w') ->
     self' = INA3221.mk addr r /\
     exists k wk,
       (k <= 10)%nat /\
       zero_checks (INA3221.mk addr r) k w wk /\
       (none_zero (six_readings (INA3221.mk addr r)) wk w' \/
        (k = 10%nat /\ first_zero (six_readings (INA3221.mk addr r)) wk w'))).
Proof.
  intros Hhs. rewrite (init_after_handshake _ _ _ _ _ Hhs).
  split; [| split; [| split]].
  - destruct (INA3221.conversion_wait (INA3221.mk addr r) 10 w) as [res w'] eqn:Hcw.
    destruct (conversion_wait_bound _ _ _ _ _ Hcw) as [Hres [evs [T [Hs Hw]]]].
    unfold bind. rewrite Hcw.
    destruct res as [[] | e |]; [| | congruence].
    + exists (Ret (INA3221.mk addr r)), w', evs.
      repeat split; try assumption. discriminate.
    + exists (Raise e), w', evs.
      repeat split; try assumption. discriminate.
  - intros k wk w' Hk Hzero Hok.
    apply zero_checks_failed in Hzero. apply all_converted_none_zero in Hok.
    rewrite (bind_Ret _ _ _ _ _ (conversion_wait_converges _ _ _ _ _ _ Hk Hzero Hok)).
    reflexivity.
  - intros w10 w' Hzero Hno.
    apply zero_checks_failed in Hzero. apply all_converted_first_zero in Hno.
    rewrite (bind_Ret _ _ _ _ _ (conversion_wait_times_out _ _ _ _ _ Hzero Hno)).
    reflexivity.
  - intros self' w' Hinit.
    apply bind_Ret_inv in Hinit. destruct Hinit as [[] [w1 [Hcw Hret]]].
    inversion Hret; subst self' w1. split; [reflexivity |].
    destruct (conversion_wait_inv _ _ _ _ Hcw) as [k [wk [Hle [Hfail Hend]]]].
    exists k, wk. split; [exact Hle |].
    split; [apply zero_checks_failed; exact Hfail |].
    destruct Hend as [Hok | [-> Hno]].
    + left. apply all_converted_none_zero. exact Hok.
    + right. split; [reflexivity |]. apply all_converted_first_zero. exact Hno.
Qed.

(** C10.  The reset poll has no bound of its own.  If, from the state the
    reset write leaves the device in, every read of the config register is
    answered with the reset bit set, then for every step bound the bring-up
    is still polling when the bound is exhausted, having written nothing but
    the reset word.  And a bring-up that returns has read the config
    register with the reset bit clear. *)
Theorem reset_poll_unbounded (I : D -> Prop) (fuel : nat) (addr : Z) (r : F)
    (w : World F D) :
  (reset_stuck addr I ->
   forall rst_word d1,
     encode_register (sys_byteorder (F := F) (D := D)) INA3221.INA3221_CONFIG_RST
       = Ret rst_word ->
     write_word_data addr INA3221.INA3221_REG_CONFIG rst_word (dev w) = (inr tt, d1) ->
     I d1 ->
     exists w',
       INA3221.__init__ fuel addr r w = (Spin, w') /\
       exists evs,
         trace w' = trace w ++ EvWrite addr 0 rst_word :: evs /\
         filter is_write evs = []) /\
  (forall self w',
     INA3221.__init__ fuel addr r w = (Ret self, w') ->
     exists before word v after,
       trace w' = trace w ++ before ++ EvRead addr 0 word :: after /\
       decode_register (sys_byteorder (F := F) (D := D)) word = Ret v /\
       Z.testbit v 15 = false).
Proof.
  split.
  - intros Hstuck rst_word d1 Henc Hwrite HI.
    set (self := INA3221.mk addr r).
    set (w1 := mkWorld d1 (trace w ++ [EvWrite addr 0 rst_word])).
    assert (H1 : INA3221._write_register self INA3221.INA3221_REG_CONFIG
                   INA3221.INA3221_CONFIG_RST w = (Ret tt, w1)).
    { unfold INA3221._write_register, bind, lift, bus_write.
      rewrite Henc. cbn [INA3221._addr self]. rewrite Hwrite. reflexivity. }
    destruct (INA3221.reset_poll fuel self w1) as [res w'] eqn:Hpoll.
    pose proof (reset_poll_spins self I Hstuck fuel w1 HI) as Hspin.
    rewrite Hpoll in Hspin. cbn in Hspin. subst res.
    exists w'. split.
    + unfold INA3221.__init__. fold self.
      rewrite (bind_Ret _ _ _ _ _ H1). apply bind_Spin. exact Hpoll.
    + destruct (emits_reset_poll (fun e => is_read e || is_sleep e)
                  (fun _ _ _ => eq_refl) (fun _ => eq_refl) _ _ _ _ _ Hpoll)
        as [evs [T P]].
      exists evs. split.
      * rewrite T. subst w1. cbn [trace]. rewrite <- app_assoc. reflexivity.
      * apply (filter_none is_write _ evs) in P; [exact P |].
        intros [] He; cbn in *; congruence.
  - intros self w' Hinit.
    destruct (init_trace_shape _ _ _ _ _ _ Hinit)
      as [rst_word [cfg_word [poll [word [v [rest [H1 [H2 [H3 [H4 [H5 _]]]]]]]]]]].
    exists ([EvWrite addr 0 rst_word] ++ poll), word, v,
           ([EvWrite addr 0 cfg_word] ++ rest).
    repeat split; assumption.
Qed.
End InitTheorems.

(** C2 as stated fails: the configuration word does not have all three
    VSH_CT bits set; VSH_CT1 and VSH_CT0 are clear. *)
Lemma config_shunt_conversion_time_not_maximal :
  ~ (Z.testbit INA3221.config 5 = true /\
     Z.testbit INA3221.config 4 = true /\
     Z.testbit INA3221.config 3 = true).
Proof. intros [_ [H4 _]]. vm_compute in H4. discriminate H4. Qed.

Lemma init_writes_operating_config_witness :
  exists self w',
    INA3221.__init__ (Ev := Scenario.fixed_env little) 1 64 0.5%float Mock.world
      = (Ret self, w') /\
    exists rst_word cfg_word poll word v rest,
      encode_register little INA3221.INA3221_CONFIG_RST = Ret rst_word /\
      encode_register little INA3221.config = Ret cfg_word /\
      trace w' = [] ++ [EvWrite 64 0 rst_word] ++ poll ++
                 [EvRead 64 0 word] ++ [EvWrite 64 0 cfg_word] ++ rest /\
      decode_register little word = Ret v /\
      Z.testbit v 15 = false /\
      filter is_write poll = [] /\
      filter is_write rest = [] /\
      INA3221.config = 0x7FE7 /\
      map (Z.testbit INA3221.config) [15; 14; 13; 12; 11; 10; 9; 8; 7; 6; 5; 4; 3; 2; 1; 0]
        = [false; true; true; true; true; true; true; true; true; true;
           true; false; false; true; true; true].
Proof.
  eexists. eexists. split; [vm_compute; reflexivity |].
  refine (init_writes_operating_config (Ev := Scenario.fixed_env little)
            1 64 0.5%float Mock.world _ _ _).
  vm_compute. reflexivity.
Defined.

Lemma conversion_wait_at_most_ten_witness :
  let self := INA3221.mk 64 0.5%float in
  let rd := fun reg word : Z => EvRead (F := float) 64 reg word in
  let ms := EvSleep 0x1.0624dd2f1a9fcp-10%float in
  let hs := [EvWrite 64 0 128; rd 0 0; EvWrite 64 0 59263] in
  let w := mkWorld (Mock.mk 1 0) hs in
  let w1 := mkWorld (Mock.mk 2 0) (hs ++ [rd 2 0; ms]) in
  let w2 := mkWorld (Mock.mk 3 0) (hs ++ [rd 2 0; ms; rd 2 0; ms]) in
  let w' := mkWorld (Mock.mk 9 0)
              (hs ++ [rd 2 0; ms; rd 2 0; ms;
                      rd 2 57390; rd 1 59395; rd 4 57390; rd 3 59395;
                      rd 6 57390; rd 5 59395]) in
  handshake (Ev := Scenario2.warming_env) 1 self Mock.world = (Ret tt, w) /\
  zero_checks (Ev := Scenario2.warming_env) self 2 w w2 /\
  none_zero (six_readings (Ev := Scenario2.warming_env) self) w2 w' /\
  INA3221.__init__ (Ev := Scenario2.warming_env) 1 64 0.5%float Mock.world
    = (Ret self, w').
Proof.
  intros self rd ms hs w w1 w2 w'.
  assert (Hhs : handshake (Ev := Scenario2.warming_env) 1 self Mock.world = (Ret tt, w))
    by reflexivity.
  assert (Hzero : zero_checks (Ev := Scenario2.warming_env) self 2 w w2).
  { refine (zero_checks_more (Ev := Scenario2.warming_env) self 1 w
              (mkWorld (Mock.mk 2 0) (hs ++ [rd 2 0])) w1 w2 _ _ _).
    - refine (first_zero_here _ _ _ 0%float _ _ _); reflexivity.
    - reflexivity.
    - refine (zero_checks_more (Ev := Scenario2.warming_env) self 0 w1
                (mkWorld (Mock.mk 3 0) (hs ++ [rd 2 0; ms; rd 2 0])) w2 w2 _ _
                (zero_checks_none self w2)).
      + refine (first_zero_here _ _ _ 0%float _ _ _); reflexivity.
      + reflexivity. }
  assert (Hnone : none_zero (six_readings (Ev := Scenario2.warming_env) self) w2 w').
  { unfold six_readings.
    repeat (eapply none_zero_cons; [vm_compute; reflexivity | vm_compute; reflexivity |]).
    apply none_zero_nil. }
  split; [exact Hhs |]. split; [exact Hzero |]. split; [exact Hnone |].
  exact (proj1 (proj2 (conversion_wait_at_most_ten (Ev := Scenario2.warming_env)
                         1 64 0.5%float Mock.world w Hhs))
           2%nat w2 w' (le_S _ _ (le_S _ _ (le_S _ _ (le_S _ _ (le_S _ _ (le_S _ _ (le_S _ _ (le_S _ _ (le_n 2)))))))))
           Hzero Hnone).
Defined.

Lemma stuck_env_reset_stuck :
  reset_stuck (Ev := Scenario.stuck_env) 64 (fun _ => True).
Proof.
  intros d _. cbn. eexists. eexists. exists 32768.
  repeat split; reflexivity.
Qed.

Lemma reset_poll_unbounded_witness :
  exists w',
    INA3221.__init__ (Ev := Scenario.stuck_env) 5 64 0.5%float Mock.world = (Spin, w') /\
    exists evs,
      trace w' = trace (F := float) Mock.world ++ EvWrite 64 0 128 :: evs /\
      filter is_write evs = [].
Proof.
  refine (proj1 (reset_poll_unbounded (Ev := Scenario.stuck_env)
                   (fun _ => True) 5 64 0.5%float Mock.world)
            stuck_env_reset_stuck 128 Mock.init _ _ I).
  - reflexivity.
  - reflexivity.
Defined.

(* ================================================================== *)
(** * The sample window and its means *)

Section WindowFacts.
Context {F D : Type} {PF : PyFloat F} {Ev : Env F D}.

Lemma sum_field_map (name f : string) (get : raw F -> F) :
  (forall r (w : World F D),
     SolarPower.field_of name f (raw_sample r) w = (Ret (get r), w)) ->
  forall l acc (w : World F D),
    SolarPower.sum_field name f (map raw_sample l) acc w =
      (Ret (fold_left fadd (map get l) acc), w).
Proof.
  intros Hget. induction l as [| r l IH]; intros acc w; cbn [map SolarPower.sum_field].
  - reflexivity.
  - rewrite (bind_Ret _ _ _ _ _ (Hget r w)). apply IH.
Qed.

Lemma get_ch_means_raw (self : SolarPower.t F) (window : list (raw F))
    (name : string) (gv gi : raw F -> F) (w : World F D) :
  window <> [] ->
  SolarPower._samples self = map raw_sample window ->
  (forall r, dict_get (raw_sample r) name =
             Some (Channel [ ("v_load", gv r); ("current", gi r) ])) ->
  SolarPower._get_ch_means self name w =
    (Ret [ ("v_load", mean (map gv window)); ("current", mean (map gi window)) ], w).
Proof.
  intros Hne Hs Hname.
  assert (Hv : forall r (w : World F D),
            SolarPower.field_of name "v_load" (raw_sample r) w = (Ret (gv r), w))
    by (intros r w0; unfold SolarPower.field_of; rewrite Hname; reflexivity).
  assert (Hi : forall r (w : World F D),
            SolarPower.field_of name "current" (raw_sample r) w = (Ret (gi r), w))
    by (intros r w0; unfold SolarPower.field_of; rewrite Hname; reflexivity).
  destruct window as [| r0 rest]; [congruence |].
  unfold SolarPower._get_ch_means. rewrite Hs. cbn [map].
  unfold bind at 1. cbn [ret].
  rewrite Hname. unfold bind at 1. cbn [ret dict_keys map fst].
  cbn [SolarPower.field_means]. rewrite Hs.
  change (raw_sample r0 :: map raw_sample rest) with (map raw_sample (r0 :: rest)).
  rewrite (bind_Ret _ _ _ _ _ (sum_field_map name "v_load" gv Hv (r0 :: rest) (of_int 0) w)).
  assert (Hcnt : (Z.of_nat (List.length (map raw_sample (r0 :: rest))) =? 0) = false)
    by (apply Z.eqb_neq; cbn [map List.length]; lia).
  rewrite Hcnt. unfold bind at 1. cbn [ret].
  rewrite (bind_Ret _ _ _ _ _ (sum_field_map name "current" gi Hi (r0 :: rest) (of_int 0) w)).
  unfold bind at 1. cbn [ret].
  unfold mean, ret. cbn [map List.length]. rewrite !length_map. reflexivity.
Qed.

(** C5.  For every non-empty window of N raw samples, the Mean task prints
    one record and empties the window; the record carries the machine id, the
    current time stamp and, for each of the three channels and each of the
    two fields, the sum of that field over the N samples (taken from the
    left, starting from 0) divided by N. *)
Theorem calc_mean_is_arithmetic_mean (self : SolarPower.t F)
    (window : list (raw F)) (w : World F D) :
  window <> [] ->
  SolarPower._samples self = map raw_sample window ->
  SolarPower._calc_mean_cb self w =
    (Ret (SolarPower.set_samples self []),
     mkWorld (snd (utcnow_isoformat (dev w)))
       (trace w ++
        [EvPrint
           [ ("@machine_id", Text (SolarPower._machine_id self));
             ("@time", Text (fst (utcnow_isoformat (dev w))));
             ("solar",
              Channel
                [ ("v_load",
                   fdiv (fold_left fadd (map solar_v window) (of_int 0))
                        (of_int (Z.of_nat (List.length window))));
                  ("current",
                   fdiv (fold_left fadd (map solar_i window) (of_int 0))
                        (of_int (Z.of_nat (List.length window)))) ]);
             ("battery",
              Channel
                [ ("v_load",
                   fdiv (fold_left fadd (map battery_v window) (of_int 0))
                        (of_int (Z.of_nat (List.length window))));
                  ("current",
                   fdiv (fold_left fadd (map battery_i window) (of_int 0))
                        (of_int (Z.of_nat (List.length window)))) ]);
             ("output",
              Channel
                [ ("v_load",
                   fdiv (fold_left fadd (map output_v window) (of_int 0))
                        (of_int (Z.of_nat (List.length window))));
                  ("current",
                   fdiv (fold_left fadd (map output_i window) (of_int 0))
                        (of_int (Z.of_nat (List.length window)))) ]) ]])).
Proof.
  intros Hne Hs.
  pose proof (fun w0 => get_ch_means_raw self window "solar" solar_v solar_i w0 Hne Hs
                          (fun _ => eq_refl)) as Hsolar.
  pose proof (fun w0 => get_ch_means_raw self window "battery" battery_v battery_i w0 Hne Hs
                          (fun _ => eq_refl)) as Hbattery.
  pose proof (fun w0 => get_ch_means_raw self window "output" output_v output_i w0 Hne Hs
                          (fun _ => eq_refl)) as Houtput.
  unfold mean in Hsolar, Hbattery, Houtput. rewrite !length_map in *.
  unfold SolarPower._calc_mean_cb.
  unfold bind at 1. unfold utcnow at 1.
  destruct (utcnow_isoformat (dev w)) as [now d'] eqn:Hnow. cbn [fst snd].
  destruct window as [| r0 rest]; [congruence |].
  rewrite Hs in *. cbn [map].
  unfold bind at 1. cbn [ret].
  change (filter (fun x => negb (startswith_at x)) (dict_keys (raw_sample r0)))
    with ["solar"; "battery"; "output"].
  cbn [SolarPower.channel_means].
  unfold bind at 1.
  rewrite (bind_Ret _ _ _ _ _ (Hsolar _)).
  rewrite (bind_Ret _ _ _ _ _ (Hbattery _)).
  rewrite (bind_Ret _ _ _ _ _ (Houtput _)).
  reflexivity.
Qed.
End WindowFacts.

(* ================================================================== *)
(** * The two callbacks *)

Section CallbackFacts.
Context {F D : Type} {PF : PyFloat F} {Ev : Env F D}.

Lemma read_channel_inv (self : SolarPower.t F) cd (w : World F D) r w' :
  SolarPower._read_channel self cd w = (Ret r, w') ->
  exists v c, r = [ ("v_load", v); ("current", c) ].
Proof.
  intros Hrc. unfold SolarPower._read_channel in Hrc.
  apply bind_Ret_inv in Hrc. destruct Hrc as [v [w1 [_ Hrc]]].
  apply bind_Ret_inv in Hrc. destruct Hrc as [c [w2 [_ Hrc]]].
  inversion Hrc; subst. eauto.
Qed.

Lemma read_channels_inv (self : SolarPower.t F) (w : World F D) d w' :
  SolarPower.read_channels self SolarPower._CH_LUT [] w = (Ret d, w') ->
  exists sv si bv bi ov oi,
    d = [ ("solar", Channel [ ("v_load", sv); ("current", si) ]);
          ("battery", Channel [ ("v_load", bv); ("current", bi) ]);
          ("output", Channel [ ("v_load", ov); ("current", oi) ]) ].
Proof.
  intros Hrc. unfold SolarPower._CH_LUT in Hrc. cbn [SolarPower.read_channels] in Hrc.
  apply bind_Ret_inv in Hrc. destruct Hrc as [r1 [w1 [H1 Hrc]]].
  apply bind_Ret_inv in Hrc. destruct Hrc as [r2 [w2 [H2 Hrc]]].
  apply bind_Ret_inv in Hrc. destruct Hrc as [r3 [w3 [H3 Hrc]]].
  destruct (read_channel_inv _ _ _ _ _ H1) as [sv [si ->]].
  destruct (read_channel_inv _ _ _ _ _ H2) as [bv [bi ->]].
  destruct (read_channel_inv _ _ _ _ _ H3) as [ov [oi ->]].
  inversion Hrc; subst. exists sv, si, bv, bi, ov, oi. reflexivity.
Qed.

Lemma sample_cb_inv (self : SolarPower.t F) (w : World F D) self' w' :
  SolarPower._sample_cb self w = (Ret self', w') ->
  exists r t,
    SolarPower._next_sample self = Some t /\
    raw_machine_id r = SolarPower._machine_id self /\
    (((window_size (sampled self t (raw_sample r)) >=? SolarPower._mean_period_cnt self) = false /\
      self' = sampled self t (raw_sample r)) \/
     ((window_size (sampled self t (raw_sample r)) >=? SolarPower._mean_period_cnt self) = true /\
      exists m,
        self' = SolarPower.set_scheduler (sampled self t (raw_sample r))
                  (sched.enterabs (fadd m (of_int 0)) 0 calc_mean_cb
                     (SolarPower._scheduler (sampled self t (raw_sample r)))))).
Proof.
  intros Hcb. unfold SolarPower._sample_cb in Hcb.
  apply bind_Ret_inv in Hcb. destruct Hcb as [d [w1 [Hd Hcb]]].
  destruct (read_channels_inv _ _ _ _ Hd) as [sv [si [bv [bi [ov [oi ->]]]]]].
  apply bind_Ret_inv in Hcb. destruct Hcb as [now [w2 [_ Hcb]]].
  apply bind_Ret_inv in Hcb. destruct Hcb as [t [w3 [Ht Hcb]]].
  destruct (SolarPower._next_sample self) as [t' |] eqn:Hnext; [| discriminate Ht].
  inversion Ht; subst t' w3. clear Ht.
  exists (mkRaw sv si bv bi ov oi (SolarPower._machine_id self) now), t.
  split; [reflexivity |]. split; [reflexivity |].
  cbv zeta in Hcb.
  change (dict_set
            (dict_set
               [ ("solar", Channel [ ("v_load", sv); ("current", si) ]);
                 ("battery", Channel [ ("v_load", bv); ("current", bi) ]);
                 ("output", Channel [ ("v_load", ov); ("current", oi) ]) ]
               "@machine_id" (Text (SolarPower._machine_id self)))
            "@time" (Text now))
    with (raw_sample (mkRaw sv si bv bi ov oi (SolarPower._machine_id self) now)) in Hcb.
  set (r := mkRaw sv si bv bi ov oi (SolarPower._machine_id self) now) in *.
  change (SolarPower.set_samples _ _) with (sampled self t (raw_sample r)) in Hcb.
  change (Z.of_nat (List.length (SolarPower._samples (sampled self t (raw_sample r)))))
    with (window_size (sampled self t (raw_sample r))) in Hcb.
  change (SolarPower._mean_period_cnt (sampled self t (raw_sample r)))
    with (SolarPower._mean_period_cnt self) in Hcb.
  destruct (window_size (sampled self t (raw_sample r)) >=? SolarPower._mean_period_cnt self).
  - right. split; [reflexivity |].
    apply bind_Ret_inv in Hcb. destruct Hcb as [s [w4 [Hs Hcb]]].
    unfold sched.enter in Hs.
    apply bind_Ret_inv in Hs. destruct Hs as [m [w5 [_ Hs]]].
    inversion Hs; subst. inversion Hcb; subst. exists m. reflexivity.
  - left. split; [reflexivity |]. inversion Hcb; subst. reflexivity.
Qed.

Lemma calc_mean_cb_inv (self : SolarPower.t F) (w : World F D) self' w' :
  SolarPower._calc_mean_cb self w = (Ret self', w') ->
  self' = SolarPower.set_samples self [] /\
  SolarPower._samples self <> [].
Proof.
  intros Hcb. unfold SolarPower._calc_mean_cb in Hcb.
  apply bind_Ret_inv in Hcb. destruct Hcb as [now [w1 [Hnow Hcb]]].
  apply bind_Ret_inv in Hcb. destruct Hcb as [first [w2 [Hfirst Hcb]]].
  apply bind_Ret_inv in Hcb. destruct Hcb as [means [w3 [Hmeans Hcb]]].
  apply bind_Ret_inv in Hcb. destruct Hcb as [u [w4 [Hemit Hcb]]].
  inversion Hcb; subst. clear Hcb.
  split; [reflexivity |].
  destruct (SolarPower._samples self); [discriminate Hfirst | discriminate].
Qed.
End CallbackFacts.

(* ================================================================== *)
(** * The scheduler's loop *)

Section SchedulerFacts.
Context {F D : Type} {PF : PyFloat F} {Ev : Env F D}.

Lemma filter_heappush_other (p : sched.Event F -> bool) q e :
  p e = false -> filter p (sched.heappush q e) = filter p q.
Proof.
  intros Hp. induction q as [| x q IH]; cbn [sched.heappush filter].
  - rewrite Hp. reflexivity.
  - destruct (sched.event_lt e x); cbn [filter].
    + rewrite Hp. reflexivity.
    + rewrite IH. reflexivity.
Qed.

Lemma filter_heappush_new (p : sched.Event F -> bool) q e :
  p e = true -> filter p q = [] -> filter p (sched.heappush q e) = [e].
Proof.
  intros Hp. induction q as [| x q IH]; cbn [sched.heappush filter]; intros Hq.
  - rewrite Hp. reflexivity.
  - destruct (p x) eqn:Hx; [discriminate Hq |].
    destruct (sched.event_lt e x); cbn [filter].
    + rewrite Hp, Hx, Hq. reflexivity.
    + rewrite Hx. apply IH. exact Hq.
Qed.

(** A Mean task whose wake time is not later than a Sample task's sorts
    before it: on equal times its priority 0 beats priority 1. *)
Lemma mean_before_sample (tm ts : F) (n1 n2 : nat) :
  fleb tm ts = true ->
  sched.event_lt (sched.mkEvent tm 0 n1 calc_mean_cb)
                 (sched.mkEvent ts 1 n2 sample_cb) = true.
Proof.
  unfold fleb, sched.event_lt. cbn [sched.time sched.priority].
  destruct (feqb tm ts); cbn; [reflexivity | auto].
Qed.

Lemma run_pass_fired (self : SolarPower.t F) (w : World F D) a self' w' :
  SolarPower.run_pass self w = (Ret (SolarPower.Fired a self'), w') ->
  exists ev rest w1 w2,
    queue self = ev :: rest /\
    a = sched.action ev /\
    SolarPower.call a
      (SolarPower.set_scheduler self
         (sched.mkScheduler rest (sched._sequence_generator (SolarPower._scheduler self))))
      w1 = (Ret self', w2).
Proof.
  unfold SolarPower.run_pass, queue.
  destruct (sched._queue (SolarPower._scheduler self)) as [| ev rest];
    [intros Hp; discriminate Hp |].
  intros Hp. apply bind_Ret_inv in Hp. destruct Hp as [now [w1 [_ Hp]]].
  destruct (fltb now (sched.time ev)).
  - apply bind_Ret_inv in Hp. destruct Hp as [u [w2 [_ Hp]]]. discriminate Hp.
  - apply bind_Ret_inv in Hp. destruct Hp as [s [w2 [Hcall Hp]]].
    apply bind_Ret_inv in Hp. destruct Hp as [u [w3 [_ Hp]]].
    inversion Hp; subst. exists ev, rest, w1, w2. auto.
Qed.

Lemma run_pass_delayed (self : SolarPower.t F) (w : World F D) self' w' :
  SolarPower.run_pass self w = (Ret (SolarPower.Delayed self'), w') -> self' = self.
Proof.
  unfold SolarPower.run_pass.
  destruct (sched._queue (SolarPower._scheduler self)) as [| ev rest];
    [intros Hp; discriminate Hp |].
  intros Hp. apply bind_Ret_inv in Hp. destruct Hp as [now [w1 [_ Hp]]].
  destruct (fltb now (sched.time ev)).
  - apply bind_Ret_inv in Hp. destruct Hp as [u [w2 [_ Hp]]].
    inversion Hp; subst. reflexivity.
  - apply bind_Ret_inv in Hp. destruct Hp as [s [w2 [_ Hp]]].
    apply bind_Ret_inv in Hp. destruct Hp as [u [w3 [_ Hp]]]. discriminate Hp.
Qed.

(** What the Sample task leaves behind, whatever the clock shows: the next
    sample time advanced by one period, and exactly one pending Sample task,
    at that time and with priority 1. *)
Lemma sample_cb_reschedules (self : SolarPower.t F) (w : World F D) self' w' t :
  SolarPower._sample_cb self w = (Ret self', w') ->
  SolarPower._next_sample self = Some t ->
  pending_samples self = [] ->
  SolarPower._sample_period self' = SolarPower._sample_period self /\
  SolarPower._next_sample self' = Some (fadd t (SolarPower._sample_period self)) /\
  exists n,
    pending_samples self' =
      [sched.mkEvent (fadd t (SolarPower._sample_period self)) 1 n sample_cb].
Proof.
  intros Hcb Ht Hnone.
  destruct (sample_cb_inv _ _ _ _ Hcb) as [r [t' [Ht' [_ Hcase]]]].
  rewrite Ht in Ht'. inversion Ht'; subst t'. clear Ht'.
  assert (Hq : pending_samples (sampled self t (raw_sample r)) =
               [sched.mkEvent (fadd t (SolarPower._sample_period self)) 1
                  (sched._sequence_generator (SolarPower._scheduler self)) sample_cb]).
  { unfold pending_samples, sampled. cbn.
    apply filter_heappush_new; [reflexivity | exact Hnone]. }
  destruct Hcase as [[_ ->] | [_ [m ->]]].
  - split; [reflexivity |]. split; [reflexivity |]. eexists. exact Hq.
  - split; [reflexivity |]. split; [reflexivity |]. eexists.
    unfold pending_samples. cbn [SolarPower._scheduler SolarPower.set_scheduler
                                  sched.enterabs sched._queue].
    rewrite filter_heappush_other by reflexivity. exact Hq.
Qed.

(** The schedule invariant of every execution, on time or not. *)
Lemma reaches_schedule (ok : SolarPower.t F -> Prop) t0 h self (w : World F D) :
  reaches ok t0 h self w ->
  exists n,
    SolarPower._next_sample self =
      Some (advance (firings h) (SolarPower._sample_period self) t0) /\
    pending_samples self =
      [sched.mkEvent (advance (firings h) (SolarPower._sample_period self) t0)
         1 n sample_cb].
Proof.
  induction 1 as [self0 w0 self w Hfresh Ht0 Hstart Hok
                 | h self w self' w' Hreach IH Hpass Hok
                 | h self w a self' w' Hreach IH Hpass Hok].
  - unfold SolarPower.start in Hstart.
    apply bind_Ret_inv in Hstart. destruct Hstart as [now [w1 [Hnow Hcb]]].
    assert (now = t0).
    { unfold monotonic in Hnow. destruct (time_monotonic (dev w0)) as [x d].
      cbn in Ht0. inversion Hnow; subst. reflexivity. }
    subst now.
    destruct Hfresh as [Hs [Hq _]].
    destruct (sample_cb_reschedules _ _ _ _ t0 Hcb eq_refl) as [Hp [Hn [n Hpend]]].
    { unfold pending_samples. cbn. rewrite Hq. reflexivity. }
    exists n. cbn in Hp, Hn, Hpend. rewrite Hp. split; assumption.
  - apply run_pass_delayed in Hpass. subst self'. exact IH.
  - destruct IH as [n [Hnext Hpend]].
    destruct (run_pass_fired _ _ _ _ _ Hpass)
      as [ev [rest [w1 [w2 [Hq [Ha Hcall]]]]]].
    unfold pending_samples in Hpend. unfold queue in Hq. rewrite Hq in Hpend.
    cbn [filter] in Hpend. rewrite <- Ha in Hpend.
    destruct a; cbn [is_sample_cb SolarPower.call] in *.
    + injection Hpend as Hev Hrest.
      destruct (sample_cb_reschedules _ _ _ _ _ Hcall Hnext) as [Hp [Hn [n' Hpend']]].
      { unfold pending_samples. cbn. exact Hrest. }
      cbn in Hp, Hn, Hpend'. exists n'.
      unfold firings. rewrite filter_app, length_app. cbn [filter is_sample_cb List.length].
      replace (List.length (filter is_sample_cb h) + 1)%nat
        with (S (List.length (filter is_sample_cb h))) by lia.
      cbn [advance]. fold (firings h).
      rewrite Hp. split; assumption.
    + destruct (calc_mean_cb_inv _ _ _ _ Hcall) as [-> _].
      exists n. unfold firings. rewrite filter_app. cbn [filter is_sample_cb].
      rewrite app_nil_r. fold (firings h).
      unfold pending_samples. cbn. split; assumption.
Qed.
End SchedulerFacts.

(* ================================================================== *)
(** * Drift-free rescheduling *)

Section DriftFacts.
Context {F D : Type} {PF : PyFloat F} {Ev : Env F D}.

(** C7, amended.  For every behaviour of the clocks and of the device: when
    the loop fires the Sample task, the next sample time becomes the
    previously scheduled time plus [sample_period], whatever the clock shows
    at the dispatch, and the one pending Sample task is scheduled at that
    time.  So in a state reached after the Sample task has fired [k] times
    (the call in [start] included), started when the monotonic clock showed
    [t0], the next sample time is [t0] with [sample_period] added [k] times
    in the program's float arithmetic, and exactly one Sample task is
    pending, at that time with priority 1.  No clock reading made after
    [start] enters the schedule. *)
Theorem next_sample_is_drift_free (ok : SolarPower.t F -> Prop) (t0 : F)
    (h : list callback) (self : SolarPower.t F) (w : World F D) :
  reaches ok t0 h self w ->
  (exists n,
     SolarPower._next_sample self =
       Some (advance (firings h) (SolarPower._sample_period self) t0) /\
     pending_samples self =
       [sched.mkEvent (advance (firings h) (SolarPower._sample_period self) t0)
          1 n sample_cb]) /\
  (forall self' w',
     SolarPower.run_pass self w = (Ret (SolarPower.Fired sample_cb self'), w') ->
     exists t n',
       SolarPower._next_sample self = Some t /\
       SolarPower._sample_period self' = SolarPower._sample_period self /\
       SolarPower._next_sample self' = Some (fadd t (SolarPower._sample_period self)) /\
       pending_samples self' =
         [sched.mkEvent (fadd t (SolarPower._sample_period self)) 1 n' sample_cb]).
Proof.
  intros Hreach.
  destruct (reaches_schedule ok t0 h self w Hreach) as [n [Hnext Hpend]].
  split; [exists n; split; assumption |].
  intros self' w' Hpass.
  destruct (run_pass_fired _ _ _ _ _ Hpass) as [ev [rest [w1 [w2 [Hq [Ha Hcall]]]]]].
  unfold pending_samples in Hpend. unfold queue in Hq. rewrite Hq in Hpend.
  cbn [filter] in Hpend. rewrite <- Ha in Hpend.
  cbn [is_sample_cb SolarPower.call] in *.
  injection Hpend as _ Hrest.
  destruct (sample_cb_reschedules _ _ _ _ _ Hcall Hnext) as [Hp [Hn [n' Hpend']]].
  { unfold pending_samples. cbn. exact Hrest. }
  cbn in Hp, Hn, Hpend'.
  exists (advance (firings h) (SolarPower._sample_period self) t0), n'.
  split; [exact Hnext |]. split; [exact Hp |]. split; assumption.
Qed.
End DriftFacts.

(* ================================================================== *)
(** * Flushing the window *)

Section FlushFacts.
Context {F D : Type} {PF : PyFloat F} {Ev : Env F D}.

Lemma sample_cb_tidy (self : SolarPower.t F) (w : World F D) self' w' :
  SolarPower._sample_cb self w = (Ret self', w') ->
  queue self = [] ->
  on_time self' ->
  tidy self'.
Proof.
  intros Hcb Hq Hon.
  destruct (sample_cb_inv _ _ _ _ Hcb) as [r [t [Ht [_ Hcase]]]].
  unfold queue in Hq.
  set (s := sched.mkEvent (fadd t (SolarPower._sample_period self)) 1
              (sched._sequence_generator (SolarPower._scheduler self)) sample_cb).
  assert (Hqs : queue (sampled self t (raw_sample r)) = [s]).
  { unfold queue, sampled. cbn. rewrite Hq. reflexivity. }
  exists s. split; [reflexivity |].
  destruct Hcase as [[Hsize ->] | [Hsize [m ->]]].
  - left. split; [exact Hqs |]. right.
    rewrite Z.geb_leb in Hsize. apply Z.leb_gt in Hsize. exact Hsize.
  - right.
    set (mev := sched.mkEvent (fadd m (of_int 0)) 0
                  (sched._sequence_generator
                     (SolarPower._scheduler (sampled self t (raw_sample r))))
                  calc_mean_cb) in *.
    assert (Hq' : queue (SolarPower.set_scheduler (sampled self t (raw_sample r))
                           (sched.enterabs (fadd m (of_int 0)) 0 calc_mean_cb
                              (SolarPower._scheduler (sampled self t (raw_sample r)))))
                  = sched.heappush [s] mev).
    { unfold queue in *. cbn [SolarPower._scheduler SolarPower.set_scheduler
                              sched.enterabs sched._queue].
      cbn [SolarPower._scheduler SolarPower.set_scheduler] in Hqs.
      rewrite Hqs. reflexivity. }
    assert (Hlt : sched.event_lt mev s = true).
    { apply mean_before_sample. refine (Hon mev s _ _ eq_refl eq_refl).
      - rewrite Hq'. cbn [sched.heappush].
        destruct (sched.event_lt mev s); cbn; auto.
      - rewrite Hq'. cbn [sched.heappush].
        destruct (sched.event_lt mev s); cbn; auto. }
    exists mev. split; [reflexivity |].
    split; [rewrite Hq'; cbn [sched.heappush]; rewrite Hlt; reflexivity |].
    split.
    + rewrite Z.geb_leb in Hsize. apply Z.leb_le in Hsize. exact Hsize.
    + cbn. intros Habs. apply app_eq_nil in Habs. destruct Habs as [_ Habs].
      discriminate Habs.
Qed.

Lemma reaches_tidy t0 h self (w : World F D) :
  reaches on_time t0 h self w -> tidy self.
Proof.
  induction 1 as [self0 w0 self w Hfresh Ht0 Hstart Hok
                 | h self w self' w' Hreach IH Hpass Hok
                 | h self w a self' w' Hreach IH Hpass Hok].
  - unfold SolarPower.start in Hstart.
    apply bind_Ret_inv in Hstart. destruct Hstart as [now [w1 [_ Hcb]]].
    destruct Hfresh as [_ [Hq _]].
    apply (sample_cb_tidy _ _ _ _ Hcb); [| exact Hok].
    unfold queue. cbn. rewrite Hq. reflexivity.
  - apply run_pass_delayed in Hpass. subst self'. exact IH.
  - destruct (run_pass_fired _ _ _ _ _ Hpass)
      as [ev [rest [w1 [w2 [Hq [Ha Hcall]]]]]].
    destruct IH as [s [Hs [[Hqs _] | [m [Hm [Hqs _]]]]]];
      rewrite Hqs in Hq; injection Hq as Hev Hrest; subst ev rest.
    + rewrite Hs in Ha. subst a. cbn [SolarPower.call] in Hcall.
      apply (sample_cb_tidy _ _ _ _ Hcall); [reflexivity | exact Hok].
    + rewrite Hm in Ha. subst a. cbn [SolarPower.call] in Hcall.
      destruct (calc_mean_cb_inv _ _ _ _ Hcall) as [-> _].
      exists s. split; [exact Hs |]. left. split; [reflexivity |].
      left. reflexivity.
Qed.

End FlushFacts.

(* ================================================================== *)
(** * Executions on concrete devices *)

Section PassesFacts.
Context {F D : Type} {PF : PyFloat F} {Ev : Env F D}.

Lemma run_pass_empty (self : SolarPower.t F) (w w' : World F D) :
  SolarPower.run_pass self w = (Ret SolarPower.Empty, w') -> w' = w.
Proof.
  unfold SolarPower.run_pass.
  destruct (sched._queue (SolarPower._scheduler self)) as [| ev rest].
  - intros Hp. inversion Hp. reflexivity.
  - intros Hp. apply bind_Ret_inv in Hp. destruct Hp as [now [w1 [_ Hp]]].
    destruct (fltb now (sched.time ev)).
    + apply bind_Ret_inv in Hp. destruct Hp as [u [w2 [_ Hp]]]. discriminate Hp.
    + apply bind_Ret_inv in Hp. destruct Hp as [s [w2 [_ Hp]]].
      apply bind_Ret_inv in Hp. destruct Hp as [u [w3 [_ Hp]]]. discriminate Hp.
Qed.

Lemma passes_reaches (n : nat) :
  forall t0 h self (w : World F D) self' w',
    reaches (fun _ => True) t0 h self w ->
    passes n self w = (Ret self', w') ->
    exists h', reaches (fun _ => True) t0 h' self' w'.
Proof.
  induction n as [| n IH]; intros t0 h self w self' w' Hreach Hpasses;
    cbn [passes] in Hpasses.
  - inversion Hpasses; subst. eauto.
  - apply bind_Ret_inv in Hpasses. destruct Hpasses as [p [w1 [Hpass Hrest]]].
    destruct p as [| self1 | a self1].
    + inversion Hrest; subst. apply run_pass_empty in Hpass. subst. eauto.
    + apply (IH t0 h self1 w1 self' w'); [| exact Hrest].
      apply (reaches_delay _ _ _ _ _ _ _ Hreach Hpass I).
    + apply (IH t0 (h ++ [a]) self1 w1 self' w'); [| exact Hrest].
      apply (reaches_fire _ _ _ _ _ _ _ _ Hreach Hpass I).
Qed.
End PassesFacts.

Section LoopFacts.
Context {F D : Type} {PF : PyFloat F} {Ev : Env F D}.

Lemma run_pass_empty_queue (self : SolarPower.t F) (w w' : World F D) :
  SolarPower.run_pass self w = (Ret SolarPower.Empty, w') -> queue self = [].
Proof.
  unfold SolarPower.run_pass, queue.
  destruct (sched._queue (SolarPower._scheduler self)) as [| ev rest];
    [reflexivity |].
  intros Hp. apply bind_Ret_inv in Hp. destruct Hp as [now [w1 [_ Hp]]].
  destruct (fltb now (sched.time ev)).
  - apply bind_Ret_inv in Hp. destruct Hp as [u [w2 [_ Hp]]]. discriminate Hp.
  - apply bind_Ret_inv in Hp. destruct Hp as [s [w2 [_ Hp]]].
    apply bind_Ret_inv in Hp. destruct Hp as [u [w3 [_ Hp]]]. discriminate Hp.
Qed.

(** The service loop has no terminal state: from a reached state [s.run()]
    never returns, because a Sample task is always pending. *)
Lemma run_never_returns (fuel : nat) :
  forall t0 h self (w : World F D) self' w',
    reaches (fun _ => True) t0 h self w ->
    SolarPower.run fuel self w <> (Ret self', w').
Proof.
  induction fuel as [| fuel IH]; intros t0 h self w self' w' Hreach Hrun;
    cbn [SolarPower.run] in Hrun.
  - discriminate Hrun.
  - apply bind_Ret_inv in Hrun. destruct Hrun as [p [w1 [Hpass Hrest]]].
    destruct p as [| self1 | a self1].
    + apply run_pass_empty_queue in Hpass.
      destruct (reaches_schedule _ _ _ _ _ Hreach) as [n [_ Hpend]].
      unfold pending_samples in Hpend. unfold queue in Hpass.
      rewrite Hpass in Hpend. discriminate Hpend.
    + apply (IH t0 h self1 w1 self' w'); [| exact Hrest].
      apply (reaches_delay _ _ _ _ _ _ _ Hreach Hpass I).
    + apply (IH t0 (h ++ [a]) self1 w1 self' w'); [| exact Hrest].
      apply (reaches_fire _ _ _ _ _ _ _ _ Hreach Hpass I).
Qed.

(** Every window the scheduler can hold is a list of raw samples, all
    stamped with the sampler's machine id. *)
Lemma reaches_window_raw (ok : SolarPower.t F -> Prop) t0 h self (w : World F D) :
  reaches ok t0 h self w ->
  exists window,
    SolarPower._samples self = map raw_sample window /\
    Forall (fun r => raw_machine_id r = SolarPower._machine_id self) window.
Proof.
  assert (Hstep : forall (s s' : SolarPower.t F) (w1 w2 : World F D) window,
            SolarPower._sample_cb s w1 = (Ret s', w2) ->
            SolarPower._samples s = map raw_sample window ->
            Forall (fun r => raw_machine_id r = SolarPower._machine_id s) window ->
            exists window',
              SolarPower._samples s' = map raw_sample window' /\
              Forall (fun r => raw_machine_id r = SolarPower._machine_id s') window').
  { intros s s' w1 w2 window Hcb Hs Hall.
    destruct (sample_cb_inv _ _ _ _ Hcb) as [r [t [_ [Hid Hcase]]]].
    exists (window ++ [r]).
    destruct Hcase as [[_ ->] | [_ [m ->]]]; cbn; rewrite Hs, map_app;
      (split; [reflexivity |]); apply Forall_app; split; auto. }
  induction 1 as [self0 w0 self w Hfresh Ht0 Hstart Hok
                 | h self w self' w' Hreach IH Hpass Hok
                 | h self w a self' w' Hreach IH Hpass Hok].
  - unfold SolarPower.start in Hstart.
    apply bind_Ret_inv in Hstart. destruct Hstart as [now [w1 [_ Hcb]]].
    destruct Hfresh as [Hs _].
    apply (Hstep _ _ _ _ [] Hcb); [cbn; exact Hs | constructor].
  - apply run_pass_delayed in Hpass. subst self'. exact IH.
  - destruct IH as [window [Hs Hall]].
    destruct (run_pass_fired _ _ _ _ _ Hpass)
      as [ev [rest [w1 [w2 [_ [_ Hcall]]]]]].
    destruct a; cbn [SolarPower.call] in Hcall.
    + apply (Hstep _ _ _ _ window Hcall); [cbn; exact Hs | exact Hall].
    + destruct (calc_mean_cb_inv _ _ _ _ Hcall) as [-> _].
      exists []. split; [reflexivity | constructor].
Qed.
End LoopFacts.

Lemma after_passes_reaches {F : Type} {PF : PyFloat F} (E : Env F Mock.state)
    (n : nat) self w :
  Scenario.after_passes E n = (Ret self, w) ->
  exists h,
    reaches (Ev := E) (fun _ => True) (fst (time_monotonic (Env := E) Mock.init)) h self w.
Proof.
  unfold Scenario.after_passes. intros Hrun.
  apply bind_Ret_inv in Hrun. destruct Hrun as [s1 [w1 [Hstart Hpasses]]].
  apply (passes_reaches (Ev := E) n _ [sample_cb] s1 w1 self w); [| exact Hpasses].
  eapply (reaches_start (Ev := E)); [| | exact Hstart | exact I].
  - repeat split.
  - reflexivity.
Qed.

(** C6.  The code breaks the claim.  With a window of two samples and a
    period of one second, let the monotonic clock show 1.0 when the second
    sample is dispatched, 2.5 when that sample finds the window full, and 3.5
    when the third sample finds it full again.  The Sample task due at 2.0
    then sorts before the Mean task entered at 2.5, and a second Mean task
    is entered at 3.5.  After four passes of the loop, in a state reached
    from [start], the queue is headed by a Mean task while the window holds
    one sample of the two configured; the next pass fires it, and it prints a
    mean over that single sample. *)
Lemma partial_window_flushed :
  exists h self w self' w' d,
    reaches (Ev := Scenario.lagging_env) (fun _ => True) 0%float h self w /\
    SolarPower._mean_period_cnt self = 2 /\
    window_size self = 1 /\
    SolarPower.run_pass (Ev := Scenario.lagging_env) self w
      = (Ret (SolarPower.Fired calc_mean_cb self'), w') /\
    trace w' = trace w ++ [EvPrint d; EvSleep 0%float].
Proof.
  destruct (Scenario.after_passes Scenario.lagging_env 4) as [[self | e |] w] eqn:Hrun;
    try (vm_compute in Hrun; discriminate Hrun).
  destruct (after_passes_reaches _ _ _ _ Hrun) as [h Hreach].
  vm_compute in Hrun. inversion Hrun; subst self w. clear Hrun.
  exists h. eexists. eexists. eexists. eexists. eexists.
  split; [exact Hreach |].
  split; [reflexivity |]. split; [reflexivity |].
  split; vm_compute; reflexivity.
Qed.

(** On a device that reads all zeros the conversion wait runs out: eleven
    checks, each giving up at the bus voltage of channel 0, ten sleeps, and
    the driver is returned. *)
Lemma zero_device_times_out :
  exists drv w,
    INA3221.__init__ (Ev := Scenario.zero_env) 1 64 0.5%float Mock.world = (Ret drv, w) /\
    List.length (filter is_sleep (trace w)) = 10%nat /\
    List.length (filter is_read (trace w)) = 12%nat.
Proof. eexists. eexists. split; [vm_compute; reflexivity |]. split; reflexivity. Qed.

(** A device that leaves reset only at the 101st poll keeps the bring-up
    polling for 100 rounds: a bound of 100 polls is exhausted, and with 101
    the bring-up returns after 100 sleeps of the poll loop. *)
Lemma slow_reset_polls_a_hundred_times :
  fst (INA3221.__init__ (Ev := Scenario.slow_reset_env 100) 100 64 0.5%float Mock.world)
    = Spin /\
  exists drv w,
    INA3221.__init__ (Ev := Scenario.slow_reset_env 100) 101 64 0.5%float Mock.world
      = (Ret drv, w) /\
    List.length (filter is_sleep (trace w)) = 100%nat.
Proof.
  split; [vm_compute; reflexivity |].
  eexists. eexists. split; [vm_compute; reflexivity | reflexivity].
Qed.

Lemma calc_mean_is_arithmetic_mean_witness :
  Scenario.two_raws <> [] /\
  SolarPower._samples Scenario.two_sampler = map raw_sample Scenario.two_raws /\
  SolarPower._calc_mean_cb (Ev := Scenario.prompt_env) Scenario.two_sampler Mock.world =
    (Ret (SolarPower.set_samples Scenario.two_sampler []),
     mkWorld Mock.init
       [EvPrint
          [ ("@machine_id", Text "0123456789abcdef");
            ("@time", Text "2020-01-01T00:00:00+00:00");
            ("solar", Channel [ ("v_load", 13%float); ("current", (-1)%float) ]);
            ("battery", Channel [ ("v_load", 13.25%float); ("current", (-0.5)%float) ]);
            ("output", Channel [ ("v_load", 5%float); ("current", 1.5%float) ]) ]]).
Proof.
  refine (conj _ (conj _ (calc_mean_is_arithmetic_mean (Ev := Scenario.prompt_env)
                            Scenario.two_sampler Scenario.two_raws Mock.world _ _))).
  - discriminate.
  - reflexivity.
  - discriminate.
  - reflexivity.
Defined.

Lemma next_sample_is_drift_free_witness :
  exists s1 w1 s2 w2,
    SolarPower.start (Ev := Scenario2.late_env)
      (Scenario.sampler
         (INA3221.mk INA3221.INA3221_ADDRESS SolarPower.SHUNT_RESISTOR_DEFAULT) 2)
      Mock.world = (Ret s1, w1) /\
    SolarPower._next_sample s1 = Some 1.25%float /\
    fst (time_monotonic (Env := Scenario2.late_env) (dev w1)) = 1.5%float /\
    SolarPower.run_pass (Ev := Scenario2.late_env) s1 w1
      = (Ret (SolarPower.Fired sample_cb s2), w2) /\
    SolarPower._next_sample s2 = Some 2.25%float /\
    (exists n,
       SolarPower._next_sample s2 =
         Some (advance (firings [sample_cb; sample_cb])
                 (SolarPower._sample_period s2) 0.25%float) /\
       pending_samples s2 =
         [sched.mkEvent
            (advance (firings [sample_cb; sample_cb])
               (SolarPower._sample_period s2) 0.25%float)
            1 n sample_cb]) /\
    exists t n',
      SolarPower._next_sample s1 = Some t /\
      SolarPower._sample_period s2 = SolarPower._sample_period s1 /\
      SolarPower._next_sample s2 = Some (fadd t (SolarPower._sample_period s1)) /\
      pending_samples s2 =
        [sched.mkEvent (fadd t (SolarPower._sample_period s1)) 1 n' sample_cb].
Proof.
  destruct (SolarPower.start (Ev := Scenario2.late_env)
              (Scenario.sampler
                 (INA3221.mk INA3221.INA3221_ADDRESS SolarPower.SHUNT_RESISTOR_DEFAULT) 2)
              Mock.world) as [[s1 | e |] w1] eqn:Hstart;
    try (vm_compute in Hstart; discriminate Hstart).
  assert (Hr1 : reaches (Ev := Scenario2.late_env) (fun _ => True) 0.25%float
                  [sample_cb] s1 w1).
  { eapply (reaches_start (Ev := Scenario2.late_env)); [| | exact Hstart | exact I].
    - repeat split.
    - reflexivity. }
  destruct (SolarPower.run_pass (Ev := Scenario2.late_env) s1 w1)
    as [[[| s2 | a s2] | e |] w2] eqn:Hpass;
    try (vm_compute in Hstart; inversion Hstart; subst s1 w1;
         vm_compute in Hpass; discriminate Hpass).
  assert (Hfacts : a = sample_cb /\
                   SolarPower._next_sample s1 = Some 1.25%float /\
                   fst (time_monotonic (Env := Scenario2.late_env) (dev w1)) = 1.5%float /\
                   SolarPower._next_sample s2 = Some 2.25%float).
  { vm_compute in Hstart. inversion Hstart; subst s1 w1.
    vm_compute in Hpass. inversion Hpass; subst a s2 w2.
    repeat split. }
  destruct Hfacts as [-> [Hn1 [Hclock Hn2]]].
  assert (Hr2 : reaches (Ev := Scenario2.late_env) (fun _ => True) 0.25%float
                  ([sample_cb] ++ [sample_cb]) s2 w2).
  { exact (reaches_fire (Ev := Scenario2.late_env) _ _ _ _ _ _ _ _ Hr1 Hpass I). }
  exists s1, w1, s2, w2.
  split; [reflexivity |]. split; [exact Hn1 |]. split; [exact Hclock |].
  split; [exact Hpass |]. split; [exact Hn2 |].
  split.
  - exact (proj1 (next_sample_is_drift_free (Ev := Scenario2.late_env)
                    (fun _ => True) 0.25%float ([sample_cb] ++ [sample_cb]) s2 w2 Hr2)).
  - exact (proj2 (next_sample_is_drift_free (Ev := Scenario2.late_env)
                    (fun _ => True) 0.25%float [sample_cb] s1 w1 Hr1) s2 w2 Hpass).
Defined.

(** C7 as stated fails in the arithmetic the program computes in.  Started
    when the monotonic clock shows 0.32, with a period of 1, the sampler
    reaches after two firings of the Sample task a state whose next sample
    time is 2.3200000000000003, the result of adding the period twice, while
    [t0 + 2 * sample_period] is 2.32. *)
Lemma next_sample_accumulates_rounding :
  exists self w,
    reaches (Ev := Scenario2.offset_env) (fun _ => True) 0x1.47ae147ae147bp-2%float
      [sample_cb; sample_cb] self w /\
    firings [sample_cb; sample_cb] = 2%nat /\
    SolarPower._sample_period self = 1%float /\
    SolarPower._next_sample self = Some 0x1.28f5c28f5c290p+1%float /\
    fadd 0x1.47ae147ae147bp-2%float (fmul (of_int 2) (SolarPower._sample_period self))
      = 0x1.28f5c28f5c28fp+1%float /\
    SolarPower._next_sample self <>
      Some (fadd 0x1.47ae147ae147bp-2%float
              (fmul (of_int (Z.of_nat (firings [sample_cb; sample_cb])))
                 (SolarPower._sample_period self))).
Proof.
  destruct (SolarPower.start (Ev := Scenario2.offset_env)
              (Scenario.sampler
                 (INA3221.mk INA3221.INA3221_ADDRESS SolarPower.SHUNT_RESISTOR_DEFAULT) 2)
              Mock.world) as [[s1 | e |] w1] eqn:Hstart;
    try (vm_compute in Hstart; discriminate Hstart).
  assert (Hr1 : reaches (Ev := Scenario2.offset_env) (fun _ => True)
                  0x1.47ae147ae147bp-2%float [sample_cb] s1 w1).
  { eapply (reaches_start (Ev := Scenario2.offset_env)); [| | exact Hstart | exact I].
    - repeat split.
    - reflexivity. }
  destruct (SolarPower.run_pass (Ev := Scenario2.offset_env) s1 w1)
    as [[[| s2 | a s2] | e |] w2] eqn:Hpass;
    try (vm_compute in Hstart; inversion Hstart; subst s1 w1;
         vm_compute in Hpass; discriminate Hpass).
  assert (Hfacts : a = sample_cb /\
                   SolarPower._sample_period s2 = 1%float /\
                   SolarPower._next_sample s2 = Some 0x1.28f5c28f5c290p+1%float).
  { vm_compute in Hstart. inversion Hstart; subst s1 w1.
    vm_compute in Hpass. inversion Hpass; subst a s2 w2.
    repeat split. }
  destruct Hfacts as [-> [Hp Hn]].
  exists s2, w2.
  split; [exact (reaches_fire (Ev := Scenario2.offset_env) _ _ _ _ _ _ _ _ Hr1 Hpass I) |].
  split; [reflexivity |]. split; [exact Hp |]. split; [exact Hn |].
  rewrite Hp, Hn. split; [vm_compute; reflexivity |].
  intros Habs. vm_compute in Habs. discriminate Habs.
Qed.

Ltac prove_on_time :=
  let m := fresh "m" in
  let s := fresh "s" in
  let Hm := fresh "Hm" in
  let Hs := fresh "Hs" in
  intros m s Hm Hs ? ?;
  vm_compute in Hm, Hs;
  repeat match goal with
         | H : _ \/ _ |- _ => destruct H
         | H : False |- _ => destruct H
         end;
  subst; try discriminate; vm_compute; reflexivity.

(* ================================================================== *)
(** * More about the codec and the register accessors *)

Lemma decode_encode_inverse (native : byteorder) (v word : Z) :
  0 <= v <= 65535 ->
  encode_register native v = Ret word ->
  0 <= word <= 65535 /\ decode_register native word = Ret v.
Proof.
  intros Hv Henc. rewrite (encode_register_value native v Hv) in Henc.
  injection Henc as <-.
  destruct native.
  - pose proof (swap16_range v Hv) as Hs. split; [exact Hs |].
    rewrite (decode_register_value little _ Hs). f_equal.
    apply (swap16_involutive v Hv).
  - split; [exact Hv | apply (decode_register_value big v Hv)].
Qed.

(** X1.  Every 16-bit transport word decodes to a 16-bit value, and encoding
    that value gives the word back: on either host the read conversion and
    the write conversion are inverse to each other in this direction too. *)
Theorem encode_decode_round_trip (native : byteorder) (word : Z) :
  0 <= word <= 65535 ->
  exists v,
    decode_register native word = Ret v /\
    0 <= v <= 65535 /\
    encode_register native v = Ret word.
Proof.
  intros Hw. rewrite (decode_register_value native word Hw).
  destruct native.
  - exists ((word mod 256) * 256 + word / 256).
    pose proof (swap16_range word Hw) as Hs.
    repeat split; try lia.
    rewrite (encode_register_value little _ Hs). f_equal.
    apply (swap16_involutive word Hw).
  - exists word. repeat split; try lia.
    apply (encode_register_value big word Hw).
Qed.

Lemma encode_decode_round_trip_witness :
  0 <= 59395 <= 65535 /\
  exists v,
    decode_register little 59395 = Ret v /\
    0 <= v <= 65535 /\
    encode_register little v = Ret 59395.
Proof.
  split; [lia | apply (encode_decode_round_trip little 59395); lia].
Defined.

(** X2.  On a 16-bit value the sign reconstruction of [get_voltage] is the
    two's-complement reading: the result lies in [-32768, 32767], it is
    congruent to the value modulo 65536, and it is negative exactly when
    bit 15 of the value is set. *)
Theorem to_signed_twos_complement (value : Z) :
  0 <= value <= 65535 ->
  -32768 <= INA3221.to_signed value <= 32767 /\
  (INA3221.to_signed value) mod 65536 = value /\
  (INA3221.to_signed value < 0 <-> Z.testbit value 15 = true).
Proof.
  intros Hv. unfold INA3221.to_signed. rewrite Z.gtb_ltb.
  assert (Hbit : Z.testbit value 15 = true <-> 32768 <= value).
  { rewrite Z.testbit_true by lia. change (2 ^ 15) with 32768.
    pose proof (Z.div_mod value 32768 ltac:(lia)) as Hdm.
    pose proof (Z.mod_pos_bound value 32768 ltac:(lia)) as Hm.
    assert (Hq : 0 <= value / 32768 < 2).
    { split; [apply Z.div_pos; lia | apply Z.div_lt_upper_bound; lia]. }
    split; intros Hx.
    - assert (value / 32768 = 1).
      { destruct (Z.eq_dec (value / 32768) 0) as [E0 | E0];
          [rewrite E0 in Hx; discriminate Hx | lia]. }
      lia.
    - assert (Hone : value / 32768 = 1) by lia. rewrite Hone. reflexivity. }
  destruct (Z.ltb_spec 32767 value) as [Hhi | Hlo].
  - split; [lia |]. split.
    + replace (value - 65536) with (value + (-1) * 65536) by lia.
      rewrite Z.mod_add by lia. apply Z.mod_small. lia.
    + rewrite Hbit. lia.
  - split; [lia |]. split.
    + apply Z.mod_small. lia.
    + rewrite Hbit. lia.
Qed.

Lemma to_signed_twos_complement_witness :
  0 <= 65535 <= 65535 /\
  -32768 <= INA3221.to_signed 65535 <= 32767 /\
  (INA3221.to_signed 65535) mod 65536 = 65535 /\
  (INA3221.to_signed 65535 < 0 <-> Z.testbit 65535 15 = true).
Proof.
  split; [lia | apply (to_signed_twos_complement 65535); lia].
Defined.

Section AccessorFacts.
Context {F D : Type} {PF : PyFloat F} {Ev : Env F D}.

(** X3.  The accessors check the 16-bit range where Python does.  A value
    outside [0, 65535] makes [_write_register] raise [struct.error] before
    the bus is touched: the world is unchanged.  A word outside that range
    returned by the transport makes [_read_register] raise [OverflowError],
    after the read has taken place. *)
Theorem register_accessors_check_range (self : INA3221.t F) (reg x : Z)
    (w : World F D) :
  x < 0 \/ 65535 < x ->
  INA3221._write_register self reg x w = (Raise StructError, w) /\
  (forall d',
     read_word_data (INA3221._addr self) reg (dev w) = (inr x, d') ->
     INA3221._read_register self reg w =
       (Raise OverflowError,
        mkWorld d' (trace w ++ [EvRead (INA3221._addr self) reg x]))).
Proof.
  intros Hx.
  assert (Hrange : (x <? 0) || (65535 <? x) = true).
  { apply orb_true_iff. destruct Hx; [left | right]; apply Z.ltb_lt; assumption. }
  split.
  - unfold INA3221._write_register, bind, lift, encode_register, struct_pack_H.
    rewrite Hrange. reflexivity.
  - intros d' Hread.
    unfold INA3221._read_register, bind, bus_read, lift, decode_register, to_bytes2.
    rewrite Hread, Hrange. reflexivity.
Qed.

(** X4.  Writing a 16-bit value to a register and reading the register back
    returns the value, on a device that answers the read with the word it
    was written; the bus sees one write and one read of the same word. *)
Theorem write_then_read (self : INA3221.t F) (reg v : Z) (w : World F D)
    (word : Z) (d1 d2 : D) :
  0 <= v <= 65535 ->
  encode_register (sys_byteorder (F := F) (D := D)) v = Ret word ->
  write_word_data (INA3221._addr self) reg word (dev w) = (inr tt, d1) ->
  read_word_data (INA3221._addr self) reg d1 = (inr word, d2) ->
  (INA3221._write_register self reg v ;; INA3221._read_register self reg) w =
    (Ret v,
     mkWorld d2
       (trace w ++ [EvWrite (INA3221._addr self) reg word;
                    EvRead (INA3221._addr self) reg word])).
Proof.
  intros Hv Henc Hwrite Hread.
  assert (Hwr : INA3221._write_register self reg v w =
                (Ret tt, mkWorld d1 (trace w ++ [EvWrite (INA3221._addr self) reg word]))).
  { unfold INA3221._write_register, bind, lift, bus_write.
    rewrite Henc, Hwrite. reflexivity. }
  rewrite (bind_Ret _ _ _ _ _ Hwr).
  destruct (decode_encode_inverse _ v word Hv Henc) as [Hword Hdec].
  unfold INA3221._read_register, bind, bus_read, lift. cbn [dev trace].
  rewrite Hread, Hdec. rewrite <- app_assoc. reflexivity.
Qed.

(** X5.  A failure of the bus read is not retried and not masked: on a
    valid channel [get_voltage] raises the transport's exception after that
    single attempt, leaving no event in the trace, and [get_current] does the
    same when the read of the shunt register fails. *)
Theorem bus_failure_propagates (self : INA3221.t F) (ch : Z) (w : World F D)
    (e : exn) (d' : D) :
  0 <= ch <= 2 ->
  (forall kind,
     read_word_data (INA3221._addr self) (INA3221.reg_base kind + ch * 2) (dev w)
       = (inl e, d') ->
     INA3221.get_voltage self ch kind w = (Raise e, mkWorld d' (trace w))) /\
  (read_word_data (INA3221._addr self) (1 + ch * 2) (dev w) = (inl e, d') ->
   INA3221.get_current self ch w = (Raise e, mkWorld d' (trace w))).
Proof.
  intros Hch.
  assert (Hgv : forall kind,
            read_word_data (INA3221._addr self) (INA3221.reg_base kind + ch * 2) (dev w)
              = (inl e, d') ->
            INA3221.get_voltage self ch kind w = (Raise e, mkWorld d' (trace w))).
  { intros kind Hread. unfold INA3221.get_voltage.
    rewrite (channel_check_in ch Hch).
    apply bind_Raise. unfold INA3221._read_register. apply bind_Raise.
    unfold bus_read. rewrite Hread. reflexivity. }
  split; [exact Hgv |].
  intros Hread. unfold INA3221.get_current. apply bind_Raise.
  apply (Hgv INA3221.shunt). exact Hread.
Qed.
End AccessorFacts.

(* ================================================================== *)
(** * More about the queries *)

Section QueryFacts.
Context {F D : Type} {PF : PyFloat F} {Ev : Env F D}.

Lemma get_voltage_inv (self : INA3221.t F) ch kind (w : World F D) v w' :
  INA3221.get_voltage self ch kind w = (Ret v, w') ->
  0 <= ch <= 2 /\
  exists word raw,
    decode_register (sys_byteorder (F := F) (D := D)) word = Ret raw /\
    v = INA3221.convert kind (INA3221.to_signed raw) /\
    trace w' = trace w ++
               [EvRead (INA3221._addr self) (INA3221.reg_base kind + ch * 2) word].
Proof.
  unfold INA3221.get_voltage.
  destruct ((ch <? 0) || (ch >? 2)) eqn:Hchk; [intros Habs; discriminate Habs |].
  intros Hgv. apply orb_false_iff in Hchk. destruct Hchk as [H1 H2].
  apply Z.ltb_ge in H1. rewrite Z.gtb_ltb in H2. apply Z.ltb_ge in H2.
  split; [lia |].
  apply bind_Ret_inv in Hgv. destruct Hgv as [raw [w1 [Hrd Hret]]].
  destruct (read_register_inv _ _ _ _ _ Hrd) as [word [Hdec Htr]].
  inversion Hret; subst. exists word, raw. auto.
Qed.

Lemma get_current_inv (self : INA3221.t F) ch (w : World F D) c w' :
  INA3221.get_current self ch w = (Ret c, w') ->
  is_zero (INA3221._shunt_resistor self) = false /\
  exists word raw,
    decode_register (sys_byteorder (F := F) (D := D)) word = Ret raw /\
    c = fmul (fdiv (INA3221.convert INA3221.shunt (INA3221.to_signed raw))
                   (INA3221._shunt_resistor self))
             (of_int 100) /\
    trace w' = trace w ++ [EvRead (INA3221._addr self) (1 + ch * 2) word].
Proof.
  unfold INA3221.get_current. intros Hgc.
  apply bind_Ret_inv in Hgc. destruct Hgc as [v [w1 [Hgv Hgc]]].
  apply bind_Ret_inv in Hgc. destruct Hgc as [q [w2 [Hdiv Hret]]].
  unfold truediv in Hdiv.
  destruct (is_zero (INA3221._shunt_resistor self)); [discriminate Hdiv |].
  inversion Hdiv; subst. inversion Hret; subst.
  destruct (get_voltage_inv _ _ _ _ _ _ Hgv) as [_ [word [raw [Hdec [-> Htr]]]]].
  split; [reflexivity |]. exists word, raw. auto.
Qed.

Lemma read_channel_inv_full (self : SolarPower.t F) ch gain (w : World F D) r w' :
  SolarPower._read_channel self (SolarPower.mkCh ch gain) w = (Ret r, w') ->
  exists bus_word shunt_word bus_raw shunt_raw,
    decode_register (sys_byteorder (F := F) (D := D)) bus_word = Ret bus_raw /\
    decode_register (sys_byteorder (F := F) (D := D)) shunt_word = Ret shunt_raw /\
    r = channel_reading (INA3221._shunt_resistor (SolarPower._ina3221 self))
          gain bus_raw shunt_raw /\
    trace w' = trace w ++
               [EvRead (INA3221._addr (SolarPower._ina3221 self)) (2 + ch * 2) bus_word;
                EvRead (INA3221._addr (SolarPower._ina3221 self)) (1 + ch * 2) shunt_word].
Proof.
  unfold SolarPower._read_channel. cbn [SolarPower.ch SolarPower.gain]. intros Hrc.
  apply bind_Ret_inv in Hrc. destruct Hrc as [v [w1 [Hgv Hrc]]].
  apply bind_Ret_inv in Hrc. destruct Hrc as [c [w2 [Hgc Hret]]].
  destruct (get_voltage_inv _ _ _ _ _ _ Hgv) as [_ [bw [br [Hdb [-> Htb]]]]].
  destruct (get_current_inv _ _ _ _ _ Hgc) as [_ [sw [sr [Hds [-> Hts]]]]].
  inversion Hret; subst. exists bw, sw, br, sr.
  repeat split; try assumption.
  rewrite Hts, Htb. rewrite <- app_assoc. reflexivity.
Qed.

(** X6.  One firing of the Sample task reads exactly six registers, in the
    order bus and shunt of channel 0, of channel 1, of channel 2 (registers
    2, 1, 4, 3, 6, 5); it writes nothing, prints nothing and does not sleep.
    The sample it appends holds, for solar (gain -1), battery (gain -1) and
    output (gain 1), the bus voltage and the current computed from the words
    just read, then the machine id and the time stamp. *)
Theorem sample_cb_reads_six_registers (self : SolarPower.t F) (w : World F D)
    (self' : SolarPower.t F) (w' : World F D) :
  SolarPower._sample_cb self w = (Ret self', w') ->
  exists b0 s0 b1 s1 b2 s2 rb0 rs0 rb1 rs1 rb2 rs2 now,
    trace w' = trace w ++
      map (fun rw => EvRead (INA3221._addr (SolarPower._ina3221 self)) (fst rw) (snd rw))
          [ (2, b0); (1, s0); (4, b1); (3, s1); (6, b2); (5, s2) ] /\
    map (decode_register (sys_byteorder (F := F) (D := D))) [b0; s0; b1; s1; b2; s2]
      = map Ret [rb0; rs0; rb1; rs1; rb2; rs2] /\
    SolarPower._samples self' =
      SolarPower._samples self ++
      [ [ ("solar",
           Channel (channel_reading
                      (INA3221._shunt_resistor (SolarPower._ina3221 self)) (-1) rb0 rs0));
          ("battery",
           Channel (channel_reading
                      (INA3221._shunt_resistor (SolarPower._ina3221 self)) (-1) rb1 rs1));
          ("output",
           Channel (channel_reading
                      (INA3221._shunt_resistor (SolarPower._ina3221 self)) 1 rb2 rs2));
          ("@machine_id", Text (SolarPower._machine_id self));
          ("@time", Text now) ] ].
Proof.
  intros Hcb. unfold SolarPower._sample_cb in Hcb.
  apply bind_Ret_inv in Hcb. destruct Hcb as [d [w1 [Hd Hcb]]].
  unfold SolarPower._CH_LUT in Hd. cbn [SolarPower.read_channels] in Hd.
  apply bind_Ret_inv in Hd. destruct Hd as [r0 [u0 [H0 Hd]]].
  apply bind_Ret_inv in Hd. destruct Hd as [r1 [u1 [H1 Hd]]].
  apply bind_Ret_inv in Hd. destruct Hd as [r2 [u2 [H2 Hd]]].
  destruct (read_channel_inv_full _ _ _ _ _ _ H0)
    as [b0 [s0 [rb0 [rs0 [Db0 [Ds0 [-> T0]]]]]]].
  destruct (read_channel_inv_full _ _ _ _ _ _ H1)
    as [b1 [s1 [rb1 [rs1 [Db1 [Ds1 [-> T1]]]]]]].
  destruct (read_channel_inv_full _ _ _ _ _ _ H2)
    as [b2 [s2 [rb2 [rs2 [Db2 [Ds2 [-> T2]]]]]]].
  inversion Hd; subst d w1. clear Hd.
  apply bind_Ret_inv in Hcb. destruct Hcb as [now [w2 [Hnow Hcb]]].
  assert (Tnow : trace w2 = trace u2).
  { unfold utcnow in Hnow. destruct (utcnow_isoformat (dev u2)) as [x dx].
    inversion Hnow; subst. reflexivity. }
  apply bind_Ret_inv in Hcb. destruct Hcb as [t [w3 [Ht Hcb]]].
  assert (w3 = w2).
  { destruct (SolarPower._next_sample self); inversion Ht; reflexivity. }
  subst w3. cbv zeta in Hcb.
  assert (Tend : trace w' = trace w2 /\
                 SolarPower._samples self' =
                 SolarPower._samples self ++
                 [dict_set
                    (dict_set
                       (dict_set
                          (dict_set
                             (dict_set [] "solar"
                                (Channel (channel_reading
                                   (INA3221._shunt_resistor (SolarPower._ina3221 self))
                                   (-1) rb0 rs0)))
                             "battery"
                             (Channel (channel_reading
                                (INA3221._shunt_resistor (SolarPower._ina3221 self))
                                (-1) rb1 rs1)))
                          "output"
                          (Channel (channel_reading
                             (INA3221._shunt_resistor (SolarPower._ina3221 self))
                             1 rb2 rs2)))
                       "@machine_id" (Text (SolarPower._machine_id self)))
                    "@time" (Text now)]).
  { match type of Hcb with
    | (if ?c then _ else _) _ = _ => destruct c
    end.
    - apply bind_Ret_inv in Hcb. destruct Hcb as [s [w4 [Hs Hcb]]].
      unfold sched.enter in Hs.
      apply bind_Ret_inv in Hs. destruct Hs as [m [w5 [Hm Hs]]].
      unfold monotonic in Hm. destruct (time_monotonic (dev w2)) as [x dx].
      inversion Hm; subst. inversion Hs; subst. inversion Hcb; subst.
      split; reflexivity.
    - inversion Hcb; subst. split; reflexivity. }
  destruct Tend as [Tend Hsamples].
  exists b0, s0, b1, s1, b2, s2, rb0, rs0, rb1, rs1, rb2, rs2, now.
  split; [| split].
  - rewrite Tend, Tnow, T2, T1, T0. cbn [map fst snd]. rewrite <- !app_assoc.
    reflexivity.
  - cbn [map]. rewrite Db0, Ds0, Db1, Ds1, Db2, Ds2. reflexivity.
  - rewrite Hsamples. reflexivity.
Qed.
End QueryFacts.

Lemma all_from_spec (p : Z -> bool) (n : nat) :
  forall z,
    all_from n z p = true ->
    forall x, z <= x < z + Z.of_nat n -> p x = true.
Proof.
  induction n as [| n IH]; intros z Hall x Hx.
  - lia.
  - cbn [all_from] in Hall. apply andb_true_iff in Hall. destruct Hall as [Hz Hrest].
    destruct (Z.eq_dec x z) as [-> | Hne]; [exact Hz |].
    apply (IH (z + 1) Hrest). lia.
Qed.

(** Checked on each of the 65536 register values. *)
Lemma reading_in_range_all (kind : INA3221.reg_type) (raw : Z) :
  0 <= raw <= 65535 -> reading_in_range kind raw = true.
Proof.
  intros Hraw.
  assert (Hall : all_from (Z.to_nat 65536) 0 (reading_in_range kind) = true)
    by (destruct kind; vm_compute; reflexivity).
  apply (all_from_spec _ _ _ Hall). rewrite Z2Nat.id; lia.
Qed.

(** X7.  In binary64 every value [get_voltage] returns comes from a 16-bit
    register value and lies within the range of the signed 16-bit register:
    from -32.768 to 32.767 volts for the bus voltage and from -1.6384 to
    1.6383500000000002 for the shunt voltage (the double division of 32767
    by 1000, 2 and 10 rounds above 1.63835).  It is zero, and so counts as
    not yet converted during bring-up, exactly when the register reads 0. *)
Theorem voltage_range_binary64 {D : Type} {Ev : Env float D} (self : INA3221.t float)
    (ch : Z) (kind : INA3221.reg_type) (w : World float D) (v : float)
    (w' : World float D) :
  INA3221.get_voltage self ch kind w = (Ret v, w') ->
  exists raw,
    0 <= raw <= 65535 /\
    v = INA3221.convert kind (INA3221.to_signed raw) /\
    PrimFloat.leb (voltage_min kind) v = true /\
    PrimFloat.leb v (voltage_max kind) = true /\
    truthy v = negb (raw =? 0).
Proof.
  intros Hgv.
  destruct (get_voltage_inv _ _ _ _ _ _ Hgv) as [_ [word [raw [Hdec [-> _]]]]].
  destruct (decode_register_range _ _ _ Hdec) as [_ Hraw].
  exists raw. split; [exact Hraw |]. split; [reflexivity |].
  pose proof (reading_in_range_all kind raw Hraw) as Hok.
  unfold reading_in_range in Hok. cbv zeta in Hok.
  apply andb_true_iff in Hok. destruct Hok as [Hok Hz].
  apply andb_true_iff in Hok. destruct Hok as [Hlo Hhi].
  split; [exact Hlo |]. split; [exact Hhi |].
  apply eqb_prop. exact Hz.
Qed.

(* ================================================================== *)
(** * More about bringing the device up *)

Section BringUpFacts.
Context {F D : Type} {PF : PyFloat F} {Ev : Env F D}.

(** X8.  The reset poll needs exactly one more read than the number of
    times the reset bit was found set: after [n] such rounds, when the next
    read of the config register shows the bit clear, the poll returns right
    after that read for every step bound above [n], and exhausts every bound
    up to [n]. *)
Theorem reset_poll_returns_once_clear (self : INA3221.t F) (n : nat)
    (w wn : World F D) (value : Z) (w' : World F D) :
  polls_set self n w wn ->
  INA3221._read_register self INA3221.INA3221_REG_CONFIG wn = (Ret value, w') ->
  Z.testbit value 15 = false ->
  forall fuel,
    ((n < fuel)%nat -> INA3221.reset_poll fuel self w = (Ret tt, w')) /\
    ((fuel <= n)%nat -> fst (INA3221.reset_poll fuel self w) = Spin).
Proof.
  induction 1 as [w | n w v w1 w2 wn Hrd Hset Hsl Hrest IH]; intros Hlast Hclr fuel.
  - split; intros Hfuel.
    + destruct fuel as [| fuel]; [lia |]. cbn [INA3221.reset_poll].
      rewrite (bind_Ret _ _ _ _ _ Hlast).
      apply land_RST in Hclr. rewrite Hclr. reflexivity.
    + assert (fuel = O) by lia. subst fuel. reflexivity.
  - assert (Hne : (Z.land v INA3221.INA3221_CONFIG_RST =? 0) = false).
    { apply Z.eqb_neq. intros Habs. apply land_RST in Habs. congruence. }
    specialize (IH Hlast Hclr).
    split; intros Hfuel.
    + destruct fuel as [| fuel]; [lia |]. cbn [INA3221.reset_poll].
      rewrite (bind_Ret _ _ _ _ _ Hrd), Hne, (bind_Ret _ _ _ _ _ Hsl).
      apply (IH fuel). lia.
    + destruct fuel as [| fuel]; [reflexivity |]. cbn [INA3221.reset_poll].
      rewrite (bind_Ret _ _ _ _ _ Hrd), Hne, (bind_Ret _ _ _ _ _ Hsl).
      apply (IH fuel). lia.
Qed.

Lemma write_register_cases (self : INA3221.t F) reg data (w : World F D) r w' :
  INA3221._write_register self reg data w = (r, w') ->
  (exists word,
     encode_register (sys_byteorder (F := F) (D := D)) data = Ret word /\
     r = Ret tt /\
     trace w' = trace w ++ [EvWrite (INA3221._addr self) reg word]) \/
  (trace w' = trace w /\ forall u, r <> Ret u).
Proof.
  unfold INA3221._write_register, bind, lift, bus_write.
  destruct (encode_register sys_byteorder data) as [word | e |].
  - destruct (write_word_data (INA3221._addr self) reg word (dev w)) as [[e | []] d];
      intros Hw; inversion Hw; subst; cbn.
    + right. split; [reflexivity | discriminate].
    + left. exists word. auto.
  - intros Hw. inversion Hw; subst. right. split; [reflexivity | discriminate].
  - intros Hw. inversion Hw; subst. right. split; [reflexivity | discriminate].
Qed.

Lemma init_writes (fuel : nat) (addr : Z) (r : F) (w : World F D) res w' :
  INA3221.__init__ fuel addr r w = (res, w') ->
  exists evs rst_word cfg_word,
    trace w' = trace w ++ evs /\
    encode_register (sys_byteorder (F := F) (D := D)) INA3221.INA3221_CONFIG_RST
      = Ret rst_word /\
    encode_register (sys_byteorder (F := F) (D := D)) INA3221.config = Ret cfg_word /\
    (filter is_write evs = [] \/
     filter is_write evs = [EvWrite addr 0 rst_word] \/
     filter is_write evs = [EvWrite addr 0 rst_word; EvWrite addr 0 cfg_word]).
Proof.
  intros Hinit.
  pose proof (encode_RST (sys_byteorder (F := F) (D := D))) as Erst.
  pose proof (encode_config (sys_byteorder (F := F) (D := D))) as Ecfg.
  set (rst_word := match sys_byteorder with little => 128 | big => 32768 end) in *.
  set (cfg_word := match sys_byteorder with little => 0xE77F | big => 0x7FE7 end) in *.
  assert (Hquiet : forall evs : list (io_event F),
            forallb (fun e => is_read e || is_sleep e) evs = true ->
            filter is_write evs = []).
  { intros evs. apply filter_none. intros [] He; cbn in *; congruence. }
  set (self := INA3221.mk addr r) in *.
  unfold INA3221.__init__ in Hinit. fold self in Hinit.
  apply bind_inv in Hinit.
  destruct Hinit as [[u1 [w1 [H1 Hinit]]] | [[e [H1 _]] | [H1 _]]];
    destruct (write_register_cases _ _ _ _ _ _ H1)
      as [[word1 [E1 [R1 T1]]] | [T1 R1]];
    try discriminate R1; try (exfalso; eapply R1; reflexivity);
    try solve [exists [], rst_word, cfg_word; rewrite app_nil_r, T1; auto].
  rewrite Erst in E1. injection E1 as <-. cbn [INA3221._addr self] in T1.
  apply bind_inv in Hinit.
  destruct Hinit as [[u2 [w2 [H2 Hinit]]] | [[e [H2 _]] | [H2 _]]];
    destruct (emits_reset_poll (fun e => is_read e || is_sleep e)
                (fun _ _ _ => eq_refl) (fun _ => eq_refl) _ _ _ _ _ H2)
      as [poll [T2 P2]];
    try solve [exists ([EvWrite addr 0 rst_word] ++ poll), rst_word, cfg_word;
               rewrite T2, T1, <- app_assoc; repeat split; try assumption;
               right; left; cbn; rewrite (Hquiet _ P2); reflexivity].
  apply bind_inv in Hinit.
  destruct Hinit as [[u3 [w3 [H3 Hinit]]] | [[e [H3 _]] | [H3 _]]];
    destruct (write_register_cases _ _ _ _ _ _ H3)
      as [[word3 [E3 [R3 T3]]] | [T3 R3]];
    try discriminate R3; try (exfalso; eapply R3; reflexivity);
    try solve [exists ([EvWrite addr 0 rst_word] ++ poll), rst_word, cfg_word;
               rewrite T3, T2, T1, <- app_assoc; repeat split; try assumption;
               right; left; cbn; rewrite (Hquiet _ P2); reflexivity].
  rewrite Ecfg in E3. injection E3 as <-. cbn [INA3221._addr self] in T3.
  assert (Hrest : exists rest, trace w' = trace w3 ++ rest /\ filter is_write rest = []).
  { apply bind_inv in Hinit.
    destruct Hinit as [[u4 [w4 [H4 Hinit]]] | [[e [H4 _]] | [H4 _]]];
      destruct (emits_conversion_wait (fun e => is_read e || is_sleep e)
                  (fun _ _ _ => eq_refl) (fun _ => eq_refl) _ _ _ _ _ H4)
        as [rest [T4 P4]];
      exists rest; (split; [| apply Hquiet; exact P4]); try exact T4.
    inversion Hinit; subst. exact T4. }
  destruct Hrest as [rest [T4 P4]].
  exists ([EvWrite addr 0 rst_word] ++ poll ++ [EvWrite addr 0 cfg_word] ++ rest),
         rst_word, cfg_word.
  rewrite T4, T3, T2, T1, <- !app_assoc. repeat split; try assumption.
  right. right. cbn [app filter is_write].
  rewrite filter_app, (Hquiet _ P2). cbn [app filter is_write].
  rewrite P4. reflexivity.
Qed.

(** X9.  Whatever its outcome (returned, raised, or still polling when the
    step bound ran out), the bring-up writes to the bus at most twice, only
    to the config register: the reset word, and after it the operating
    configuration word. *)
Theorem init_writes_at_most_reset_and_config (fuel : nat) (addr : Z) (r : F)
    (w : World F D) :
  exists evs rst_word cfg_word,
    trace (snd (INA3221.__init__ fuel addr r w)) = trace w ++ evs /\
    encode_register (sys_byteorder (F := F) (D := D)) INA3221.INA3221_CONFIG_RST
      = Ret rst_word /\
    encode_register (sys_byteorder (F := F) (D := D)) INA3221.config = Ret cfg_word /\
    (filter is_write evs = [] \/
     filter is_write evs = [EvWrite addr 0 rst_word] \/
     filter is_write evs = [EvWrite addr 0 rst_word; EvWrite addr 0 cfg_word]).
Proof.
  destruct (INA3221.__init__ fuel addr r w) as [res w'] eqn:Hinit.
  exact (init_writes _ _ _ _ _ _ Hinit).
Qed.
End BringUpFacts.

(* ================================================================== *)
(** * More about the scheduler *)

Section ServiceFacts.
Context {F D : Type} {PF : PyFloat F} {Ev : Env F D}.

Lemma calc_mean_cb_prints (self : SolarPower.t F) (window : list (raw F))
    (w : World F D) :
  window <> [] ->
  SolarPower._samples self = map raw_sample window ->
  SolarPower._calc_mean_cb self w =
    (Ret (SolarPower.set_samples self []),
     mkWorld (snd (utcnow_isoformat (dev w)))
       (trace w ++
        [EvPrint (mean_sample (SolarPower._machine_id self)
                    (fst (utcnow_isoformat (dev w))) window)])).
Proof.
  intros Hne Hs.
  pose proof (fun w0 : World F D => get_ch_means_raw self window "solar" solar_v solar_i w0 Hne Hs
                          (fun _ => eq_refl)) as Hsolar.
  pose proof (fun w0 : World F D => get_ch_means_raw self window "battery" battery_v battery_i w0 Hne Hs
                          (fun _ => eq_refl)) as Hbattery.
  pose proof (fun w0 : World F D => get_ch_means_raw self window "output" output_v output_i w0 Hne Hs
                          (fun _ => eq_refl)) as Houtput.
  unfold SolarPower._calc_mean_cb.
  unfold bind at 1. unfold utcnow at 1.
  destruct (utcnow_isoformat (dev w)) as [now d'] eqn:Hnow. cbn [fst snd].
  destruct window as [| r0 rest]; [congruence |].
  rewrite Hs in *. cbn [map].
  unfold bind at 1. cbn [ret].
  change (filter (fun x => negb (startswith_at x)) (dict_keys (raw_sample r0)))
    with ["solar"; "battery"; "output"].
  cbn [SolarPower.channel_means].
  unfold bind at 1.
  rewrite (bind_Ret _ _ _ _ _ (Hsolar _)).
  rewrite (bind_Ret _ _ _ _ _ (Hbattery _)).
  rewrite (bind_Ret _ _ _ _ _ (Houtput _)).
  reflexivity.
Qed.

Lemma calc_mean_cb_empty (self : SolarPower.t F) (w : World F D) :
  SolarPower._samples self = [] ->
  SolarPower._calc_mean_cb self w =
    (Raise IndexError, mkWorld (snd (utcnow_isoformat (dev w))) (trace w)).
Proof.
  intros Hs. unfold SolarPower._calc_mean_cb, bind, utcnow.
  destruct (utcnow_isoformat (dev w)) as [now d']. rewrite Hs. reflexivity.
Qed.

(** X10.  In every state the scheduler can reach, on time or not, the
    window is a list of raw samples stamped with the sampler's machine id;
    so the Mean task can fail in one way only: run on a non-empty window it
    prints a record and empties the window, and run on an empty window it
    raises [IndexError] and prints nothing. *)
Theorem mean_task_fails_only_on_empty_window (ok : SolarPower.t F -> Prop)
    (t0 : F) (h : list callback) (self : SolarPower.t F) (w : World F D) :
  reaches ok t0 h self w ->
  exists window,
    SolarPower._samples self = map raw_sample window /\
    Forall (fun r => raw_machine_id r = SolarPower._machine_id self) window /\
    forall w0 : World F D,
      match window with
      | [] =>
          SolarPower._calc_mean_cb self w0 =
            (Raise IndexError, mkWorld (snd (utcnow_isoformat (dev w0))) (trace w0))
      | _ :: _ =>
          SolarPower._calc_mean_cb self w0 =
            (Ret (SolarPower.set_samples self []),
             mkWorld (snd (utcnow_isoformat (dev w0)))
               (trace w0 ++
                [EvPrint (mean_sample (SolarPower._machine_id self)
                            (fst (utcnow_isoformat (dev w0))) window)]))
      end.
Proof.
  intros Hreach.
  destruct (reaches_window_raw ok t0 h self w Hreach) as [window [Hs Hall]].
  exists window. split; [exact Hs |]. split; [exact Hall |].
  intros w0. destruct window as [| r0 rest].
  - apply calc_mean_cb_empty. exact Hs.
  - apply calc_mean_cb_prints; [discriminate | exact Hs].
Qed.

Lemma run_fires (self : SolarPower.t F) (w : World F D) ev rest now d1 :
  queue self = ev :: rest ->
  time_monotonic (dev w) = (now, d1) ->
  fltb now (sched.time ev) = false ->
  forall fuel,
    SolarPower.run (S fuel) self w =
      bind (SolarPower.call (sched.action ev)
              (SolarPower.set_scheduler self
                 (sched.mkScheduler rest
                    (sched._sequence_generator (SolarPower._scheduler self)))))
           (fun self' => sleep (of_int 0) ;; SolarPower.run fuel self')
           (mkWorld d1 (trace w)).
Proof.
  intros Hq Hnow Hdue fuel. cbn [SolarPower.run].
  unfold SolarPower.run_pass. unfold queue in Hq. rewrite Hq.
  unfold bind at 1. unfold bind at 1. unfold monotonic. rewrite Hnow, Hdue.
  unfold bind.
  destruct (SolarPower.call _ _ _) as [[s | e |] w2]; reflexivity.
Qed.

(** X11.  A Mean task that is due while the window is empty ends the
    service loop: [s.run()] raises [IndexError], nothing is printed, and no
    later task runs. *)
Theorem stale_mean_task_ends_the_loop (self : SolarPower.t F) (w : World F D)
    (ev : sched.Event F) (rest : list (sched.Event F)) (now : F) (d1 : D) :
  queue self = ev :: rest ->
  sched.action ev = calc_mean_cb ->
  SolarPower._samples self = [] ->
  time_monotonic (dev w) = (now, d1) ->
  fltb now (sched.time ev) = false ->
  forall fuel,
    SolarPower.run (S fuel) self w =
      (Raise IndexError, mkWorld (snd (utcnow_isoformat d1)) (trace w)).
Proof.
  intros Hq Ha Hs Hnow Hdue fuel.
  rewrite (run_fires self w ev rest now d1 Hq Hnow Hdue fuel).
  rewrite Ha. cbn [SolarPower.call].
  apply bind_Raise.
  refine (calc_mean_cb_empty _ (mkWorld d1 (trace w)) _). exact Hs.
Qed.

(** X12.  A bus failure during sampling is fatal: when the Sample task is
    due and the first register read (bus voltage of channel 0) fails,
    [s.run()] raises the transport's exception; the read is not retried, no
    sample is appended and nothing is printed. *)
Theorem bus_failure_ends_the_loop (self : SolarPower.t F) (w : World F D)
    (ev : sched.Event F) (rest : list (sched.Event F)) (now : F) (d1 d2 : D)
    (e : exn) :
  queue self = ev :: rest ->
  sched.action ev = sample_cb ->
  time_monotonic (dev w) = (now, d1) ->
  fltb now (sched.time ev) = false ->
  read_word_data (INA3221._addr (SolarPower._ina3221 self)) 2 d1 = (inl e, d2) ->
  forall fuel,
    SolarPower.run (S fuel) self w = (Raise e, mkWorld d2 (trace w)).
Proof.
  intros Hq Ha Hnow Hdue Hread fuel.
  rewrite (run_fires self w ev rest now d1 Hq Hnow Hdue fuel).
  rewrite Ha. cbn [SolarPower.call].
  apply bind_Raise. unfold SolarPower._sample_cb. apply bind_Raise.
  unfold SolarPower._CH_LUT. cbn [SolarPower.read_channels]. apply bind_Raise.
  unfold SolarPower._read_channel. cbn [SolarPower.ch SolarPower.gain].
  apply bind_Raise.
  unfold INA3221.get_voltage. cbn [orb Z.ltb Z.gtb Z.compare].
  apply bind_Raise. unfold INA3221._read_register. apply bind_Raise.
  unfold bus_read. cbn [dev trace SolarPower._ina3221 SolarPower.set_scheduler].
  change (INA3221.reg_base INA3221.bus + 0 * 2) with 2.
  rewrite Hread. reflexivity.
Qed.

(** X13.  The service loop has no terminal state: from every state reached
    after [start()], [s.run()] never returns; for every step bound it is
    either still running when the bound is exhausted or has raised. *)
Theorem service_loop_never_returns (t0 : F) (h : list callback)
    (self : SolarPower.t F) (w : World F D) (fuel : nat) :
  reaches (fun _ => True) t0 h self w ->
  match fst (SolarPower.run fuel self w) with
  | Ret _ => False
  | Raise _ => True
  | Spin => True
  end.
Proof.
  intros Hreach.
  destruct (SolarPower.run fuel self w) as [[self' | e |] w'] eqn:Hrun; cbn; auto.
  exact (run_never_returns fuel t0 h self w self' w' Hreach Hrun).
Qed.

Lemma sample_cb_grows_window (self : SolarPower.t F) (w : World F D) self' w' :
  SolarPower._sample_cb self w = (Ret self', w') ->
  window_size self' = window_size self + 1 /\
  SolarPower._mean_period_cnt self' = SolarPower._mean_period_cnt self.
Proof.
  intros Hcb. destruct (sample_cb_inv _ _ _ _ Hcb) as [r [t [_ [_ Hcase]]]].
  destruct Hcase as [[_ ->] | [_ [m ->]]]; unfold window_size; cbn;
    rewrite length_app; cbn; split; try reflexivity; lia.
Qed.

Lemma reaches_full_window (t0 : F) (h : list callback) (self : SolarPower.t F)
    (w : World F D) :
  reaches on_time t0 h self w ->
  forall m s,
    queue self = [m; s] ->
    window_size self = Z.max 1 (SolarPower._mean_period_cnt self).
Proof.
  assert (Hstep : forall (s0 s1 : SolarPower.t F) (w0 w1 : World F D),
            SolarPower._sample_cb s0 w0 = (Ret s1, w1) ->
            (SolarPower._samples s0 = [] \/
             window_size s0 < SolarPower._mean_period_cnt s0) ->
            tidy s1 ->
            forall m s, queue s1 = [m; s] ->
              window_size s1 = Z.max 1 (SolarPower._mean_period_cnt s1)).
  { intros s0 s1 w0 w1 Hcb Hpre Htidy m s Hq.
    destruct (sample_cb_grows_window _ _ _ _ Hcb) as [Hsize Hcnt].
    destruct Htidy as [s' [_ [[Hq' _] | [m' [_ [_ [Hfull _]]]]]]].
    - rewrite Hq in Hq'. discriminate Hq'.
    - rewrite Hcnt in *. destruct Hpre as [Hempty | Hlt].
      + unfold window_size in Hsize at 2. rewrite Hempty in Hsize. cbn in Hsize. lia.
      + assert (0 <= window_size s0) by (unfold window_size; lia). lia. }
  intros Hreach. pose proof (reaches_tidy _ _ _ _ Hreach) as Htidy'.
  revert Htidy'.
  induction Hreach as [self0 w0 self w Hfresh Ht0 Hstart Hok
                      | h self w self' w' Hreach IH Hpass Hok
                      | h self w a self' w' Hreach IH Hpass Hok];
    intros Htidy'.
  - unfold SolarPower.start in Hstart.
    apply bind_Ret_inv in Hstart. destruct Hstart as [now [w1 [_ Hcb]]].
    destruct Hfresh as [Hs _].
    apply (Hstep _ _ _ _ Hcb); [left; exact Hs | exact Htidy'].
  - apply run_pass_delayed in Hpass. subst self'. apply IH. exact Htidy'.
  - pose proof (reaches_tidy _ _ _ _ Hreach) as Htidy.
    destruct (run_pass_fired _ _ _ _ _ Hpass)
      as [ev [rest [w1 [w2 [Hq [Ha Hcall]]]]]].
    destruct Htidy as [s [Hs [[Hqs Hpre] | [m [Hm [Hqs _]]]]]];
      rewrite Hqs in Hq; injection Hq as Hev Hrest; subst ev rest.
    + rewrite Hs in Ha. subst a. cbn [SolarPower.call] in Hcall.
      apply (Hstep _ _ _ _ Hcall); [exact Hpre | exact Htidy'].
    + rewrite Hm in Ha. subst a. cbn [SolarPower.call] in Hcall.
      destruct (calc_mean_cb_inv _ _ _ _ Hcall) as [-> _].
      intros m' s' Hq'. cbn in Hq'. discriminate Hq'.
Qed.

(** X14.  While the scheduler is on time the window never outgrows the
    configured size, and a Mean task always averages exactly that many
    samples: in every such state the window holds at most
    [max(1, mean_period_cnt)] samples, and exactly that many whenever a Mean
    task is at the head of the queue. *)
Theorem on_time_window_is_exact (t0 : F) (h : list callback)
    (self : SolarPower.t F) (w : World F D) :
  reaches on_time t0 h self w ->
  window_size self <= Z.max 1 (SolarPower._mean_period_cnt self) /\
  (forall ev rest,
     queue self = ev :: rest -> sched.action ev = calc_mean_cb ->
     window_size self = Z.max 1 (SolarPower._mean_period_cnt self)).
Proof.
  intros Hreach.
  pose proof (reaches_tidy _ _ _ _ Hreach) as [s [Hs Hshape]].
  pose proof (reaches_full_window _ _ _ _ Hreach) as Hfull.
  destruct Hshape as [[Hq Hpre] | [m [Hm [Hq _]]]].
  - split.
    + destruct Hpre as [Hempty | Hlt].
      * unfold window_size. rewrite Hempty. cbn. lia.
      * lia.
    + intros ev rest Hq' Hev. rewrite Hq in Hq'. injection Hq' as -> _. congruence.
  - specialize (Hfull m s Hq). split; [lia |]. intros ev rest _ _. exact Hfull.
Qed.
End ServiceFacts.

(* ================================================================== *)
(** * The bridge *)

Section BridgeFacts.
Context {F T : Type}.
Variable str : T -> string.
Variable fromisoformat : string -> exn + T.
Variable write_points : list (Bridge.measurement F) -> exn + bool.

Lemma collect_map_filter (name : string) (timestamp : T) (items : sample F) :
  forall data,
    Bridge.collect str name items timestamp data =
      data ++
      map (fun kv => Bridge.make_measurement str timestamp (name ++ "." ++ fst kv) (snd kv))
          (filter (fun kv => negb (startswith_at (fst kv))) items).
Proof.
  induction items as [| [ch fields] rest IH]; intros data; cbn [Bridge.collect].
  - cbn. rewrite app_nil_r. reflexivity.
  - cbn [filter fst snd]. destruct (startswith_at ch); cbn [negb].
    + apply IH.
    + rewrite IH. cbn [map fst snd]. rewrite <- app_assoc. reflexivity.
Qed.

(** X16.  [send_measurement] forwards one measurement per entry of the
    record whose key does not start with [@], in the record's order, each
    tagged with the entity id [name.key] and stamped with [str(timestamp)];
    entries such as [@machine_id] and [@time] are never forwarded.  With
    [verbose] it prints that list before handing it to the client once, and
    its outcome is the client's: the client's result, or its exception. *)
Theorem send_measurement_forwards_channels (name : string) (raw_data : sample F)
    (timestamp : T) (verbose : bool) :
  let data :=
    map (fun kv =>
           Bridge.mkMeasurement "power"
             [ ("entity_id", (name ++ "." ++ fst kv)%string);
               ("domain", "sensor"); ("sensor", "ina3221") ]
             (str timestamp) (snd kv))
        (filter (fun kv => negb (startswith_at (fst kv))) raw_data) in
  Bridge.send_measurement str write_points name raw_data timestamp verbose =
    ((if verbose then [Bridge.Print data] else []) ++ [Bridge.WritePoints data],
     match write_points data with
     | inr result => Ret result
     | inl e => Raise e
     end).
Proof.
  intros data. unfold Bridge.send_measurement.
  rewrite collect_map_filter. cbn [app].
  change (map _ (filter _ raw_data)) with data.
  destruct (write_points data); reflexivity.
Qed.

Lemma handle_records_app (name : string) (l1 : list (sample F)) :
  forall evs,
    Bridge.handle_records str fromisoformat write_points name l1 = (evs, Ret tt) ->
    forall l2,
      Bridge.handle_records str fromisoformat write_points name (l1 ++ l2) =
        (evs ++ fst (Bridge.handle_records str fromisoformat write_points name l2),
         snd (Bridge.handle_records str fromisoformat write_points name l2)).
Proof.
  induction l1 as [| r l1 IH]; intros evs Hl1 l2.
  - cbn in Hl1. inversion Hl1; subst. cbn [app].
    destruct (Bridge.handle_records _ _ _ name l2); reflexivity.
  - cbn [app Bridge.handle_records] in *.
    destruct (Bridge.handle_record str fromisoformat write_points name r)
      as [evr [b | e |]]; try discriminate Hl1.
    destruct (Bridge.handle_records str fromisoformat write_points name l1)
      as [evs1 r1] eqn:H1.
    inversion Hl1; subst. rewrite (IH evs1 eq_refl l2).
    rewrite <- app_assoc. reflexivity.
Qed.

(** X17.  The first line that cannot be handled ends the bridge: when the
    lines before it were all sent, a record without an [@time] entry raises
    [KeyError] before the client is called for it, and no later line is
    looked at, whatever it holds. *)
Theorem record_without_time_ends_the_bridge (name : string)
    (sent : list (sample F)) (evs : list (Bridge.event F))
    (raw_data : sample F) (later : list (sample F)) :
  Bridge.handle_records str fromisoformat write_points name sent = (evs, Ret tt) ->
  dict_get raw_data "@time" = None ->
  Bridge.handle_records str fromisoformat write_points name (sent ++ raw_data :: later)
    = (evs, Raise (KeyError "@time")).
Proof.
  intros Hsent Hmissing.
  rewrite (handle_records_app name sent evs Hsent (raw_data :: later)).
  cbn [Bridge.handle_records]. unfold Bridge.handle_record. rewrite Hmissing.
  cbn [fst snd]. rewrite app_nil_r. reflexivity.
Qed.
End BridgeFacts.

(** X18.  End to end: the record the Mean task prints for a non-empty
    window, handed to the bridge, becomes exactly three points,
    [name.solar], [name.battery] and [name.output], whose fields are the
    per-channel means of the window; they are printed and written once, and
    the client's result is returned. *)
Theorem mean_record_becomes_three_points {F D T : Type} {PF : PyFloat F}
    {Ev : Env F D} (str : T -> string) (fromisoformat : string -> exn + T)
    (write_points : list (Bridge.measurement F) -> exn + bool)
    (name : string) (self : SolarPower.t F) (window : list (raw F))
    (w : World F D) (sample_time : T) :
  window <> [] ->
  SolarPower._samples self = map raw_sample window ->
  fromisoformat (fst (utcnow_isoformat (dev w))) = inr sample_time ->
  exists d w',
    SolarPower._calc_mean_cb self w = (Ret (SolarPower.set_samples self []), w') /\
    trace w' = trace w ++ [EvPrint d] /\
    let point key v i :=
      Bridge.mkMeasurement "power"
        [ ("entity_id", (name ++ "." ++ key)%string); ("domain", "sensor"); ("sensor", "ina3221") ]
        (str sample_time)
        (Channel [ ("v_load", mean (map v window)); ("current", mean (map i window)) ]) in
    let data := [ point "solar" solar_v solar_i;
                  point "battery" battery_v battery_i;
                  point "output" output_v output_i ] in
    Bridge.handle_record str fromisoformat write_points name d =
      ([Bridge.Print data; Bridge.WritePoints data],
       match write_points data with
       | inr result => Ret result
       | inl e => Raise e
       end).
Proof.
  intros Hne Hs Htime.
  eexists. eexists. split; [apply (calc_mean_cb_prints self window w Hne Hs) |].
  split; [reflexivity |].
  intros point data. unfold Bridge.handle_record, mean_sample.
  cbn [dict_get String.eqb Ascii.eqb Bool.eqb]. rewrite Htime.
  unfold Bridge.send_measurement.
  rewrite collect_map_filter. cbn [app].
  change (map _ (filter _ _)) with data.
  destruct (write_points data); reflexivity.
Qed.

(** X19.  The program as a whole never returns: once the driver is brought
    up and the sampler started, a Sample task is always pending, so the
    [__main__] block ends only by an exception; for every pair of step
    bounds it has raised or is still running. *)
Theorem main_never_returns {F D : Type} {PF : PyFloat F} {Ev : Env F D}
    (init_fuel run_fuel : nat) (machine_id : string) (w : World F D) :
  match fst (SolarPower.main init_fuel run_fuel machine_id w) with
  | Ret _ => False
  | Raise _ => True
  | Spin => True
  end.
Proof.
  destruct (SolarPower.main init_fuel run_fuel machine_id w) as [[sp | e |] w'] eqn:Hmain;
    cbn; auto.
  unfold SolarPower.main in Hmain.
  apply bind_Ret_inv in Hmain. destruct Hmain as [sp0 [w1 [Hinit Hmain]]].
  apply bind_Ret_inv in Hmain. destruct Hmain as [sp1 [w2 [Hstart Hrun]]].
  unfold SolarPower.__init__ in Hinit.
  apply bind_Ret_inv in Hinit. destruct Hinit as [ina [w0 [_ Hret]]].
  inversion Hret; subst sp0 w1.
  refine (run_never_returns run_fuel (fst (time_monotonic (dev w0))) [sample_cb]
            sp1 w2 sp w' _ Hrun).
  eapply reaches_start; [| reflexivity | exact Hstart | exact I].
  repeat split.
Qed.

(* ================================================================== *)
(** * What holds of the window in every state *)

Section TurnoverFacts.
Context {F D : Type} {PF : PyFloat F} {Ev : Env F D}.


End TurnoverFacts.

(* ================================================================== *)
(** * Worked instances *)

Lemma register_accessors_check_range_witness :
  let self := INA3221.mk 64 0.5%float in
  let w := mkWorld (F := float) (fun _ : Z => 70000) [] in
  (70000 < 0 \/ 65535 < 70000) /\
  INA3221._write_register (Ev := RegFile.env little) self 0 70000 w
    = (Raise StructError, w) /\
  INA3221._read_register (Ev := RegFile.env little) self 0 w
    = (Raise OverflowError, mkWorld (fun _ : Z => 70000) [EvRead 64 0 70000]).
Proof.
  intros self w.
  assert (Hx : 70000 < 0 \/ 65535 < 70000) by (right; lia).
  destruct (register_accessors_check_range (Ev := RegFile.env little) self 0 70000 w Hx)
    as [Hwrite Hread].
  split; [exact Hx |]. split; [exact Hwrite |].
  exact (Hread (fun _ : Z => 70000) eq_refl).
Defined.

Lemma write_then_read_witness :
  let self := INA3221.mk 64 0.5%float in
  let d := fun r : Z => if r =? 0 then 0xE77F else RegFile.init r in
  0 <= 0x7FE7 <= 65535 /\
  (INA3221._write_register (Ev := RegFile.env little) self 0 0x7FE7 ;;
   INA3221._read_register (Ev := RegFile.env little) self 0)
    (mkWorld (F := float) RegFile.init [])
    = (Ret 0x7FE7, mkWorld d [EvWrite 64 0 0xE77F; EvRead 64 0 0xE77F]).
Proof.
  intros self d. split; [lia |].
  refine (write_then_read (Ev := RegFile.env little) self 0 0x7FE7
            (mkWorld (F := float) RegFile.init []) 0xE77F d d _ _ _ _).
  - lia.
  - reflexivity.
  - reflexivity.
  - reflexivity.
Defined.

Lemma bus_failure_propagates_witness :
  let self := INA3221.mk 64 0.5%float in
  0 <= 1 <= 2 /\
  INA3221.get_voltage (Ev := Scenario2.dead_env) self 1 INA3221.bus Mock.world
    = (Raise OSError, Mock.world) /\
  INA3221.get_current (Ev := Scenario2.dead_env) self 1 Mock.world
    = (Raise OSError, Mock.world).
Proof.
  intros self.
  assert (Hch : 0 <= 1 <= 2) by lia.
  destruct (bus_failure_propagates (Ev := Scenario2.dead_env) self 1 Mock.world
              OSError Mock.init Hch) as [Hv Hc].
  split; [exact Hch |]. split; [exact (Hv INA3221.bus eq_refl) | exact (Hc eq_refl)].
Defined.

Lemma sample_cb_reads_six_registers_witness :
  let self := Scenario.sampler
                (INA3221.mk INA3221.INA3221_ADDRESS SolarPower.SHUNT_RESISTOR_DEFAULT) 2 in
  exists self0 self' w',
    self0 = SolarPower.set_next_sample self 0%float /\
    SolarPower._sample_cb (Ev := Scenario.prompt_env) self0 Mock.world = (Ret self', w') /\
    exists b0 s0 b1 s1 b2 s2 rb0 rs0 rb1 rs1 rb2 rs2 now,
      trace w' = trace (F := float) Mock.world ++
        map (fun rw => EvRead 64 (fst rw) (snd rw))
            [ (2, b0); (1, s0); (4, b1); (3, s1); (6, b2); (5, s2) ] /\
      map (decode_register little) [b0; s0; b1; s1; b2; s2]
        = map Ret [rb0; rs0; rb1; rs1; rb2; rs2] /\
      SolarPower._samples self' =
        SolarPower._samples self0 ++
        [ [ ("solar",
             Channel (channel_reading SolarPower.SHUNT_RESISTOR_DEFAULT (-1) rb0 rs0));
            ("battery",
             Channel (channel_reading SolarPower.SHUNT_RESISTOR_DEFAULT (-1) rb1 rs1));
            ("output",
             Channel (channel_reading SolarPower.SHUNT_RESISTOR_DEFAULT 1 rb2 rs2));
            ("@machine_id", Text "0123456789abcdef");
            ("@time", Text now) ] ].
Proof.
  intros self.
  destruct (SolarPower._sample_cb (Ev := Scenario.prompt_env)
              (SolarPower.set_next_sample self 0%float) Mock.world)
    as [[self' | e |] w'] eqn:Hcb;
    try (vm_compute in Hcb; discriminate Hcb).
  exists (SolarPower.set_next_sample self 0%float), self', w'.
  split; [reflexivity |]. split; [exact Hcb |].
  exact (sample_cb_reads_six_registers (Ev := Scenario.prompt_env) _ _ _ _ Hcb).
Defined.

Lemma voltage_range_binary64_witness :
  let full_scale : Env float Mock.state :=
    Mock.env little (Mock.fixed_words little 32767 32767) (fun _ => 0%float) in
  exists v w',
    INA3221.get_voltage (Ev := full_scale)
      (INA3221.mk 64 SolarPower.SHUNT_RESISTOR_DEFAULT) 0 INA3221.shunt Mock.world
      = (Ret v, w') /\
    v = voltage_max INA3221.shunt /\
    exists raw,
      0 <= raw <= 65535 /\
      v = INA3221.convert INA3221.shunt (INA3221.to_signed raw) /\
      PrimFloat.leb (voltage_min INA3221.shunt) v = true /\
      PrimFloat.leb v (voltage_max INA3221.shunt) = true /\
      truthy v = negb (raw =? 0).
Proof.
  intros full_scale.
  destruct (INA3221.get_voltage (Ev := full_scale)
              (INA3221.mk 64 SolarPower.SHUNT_RESISTOR_DEFAULT) 0 INA3221.shunt Mock.world)
    as [[v | e |] w'] eqn:Hgv;
    try (vm_compute in Hgv; discriminate Hgv).
  exists v, w'. split; [reflexivity |]. split.
  - vm_compute in Hgv. inversion Hgv. reflexivity.
  - exact (voltage_range_binary64 (Ev := full_scale) _ _ _ _ _ _ Hgv).
Defined.

Lemma reset_poll_returns_once_clear_witness :
  let self := INA3221.mk 64 0.5%float in
  exists w',
    forall fuel,
      ((2 < fuel)%nat ->
       INA3221.reset_poll (Ev := Scenario.slow_reset_env 2) fuel self Mock.world
         = (Ret tt, w')) /\
      ((fuel <= 2)%nat ->
       fst (INA3221.reset_poll (Ev := Scenario.slow_reset_env 2) fuel self Mock.world)
         = Spin).
Proof.
  intros self.
  exists (mkWorld (Mock.mk 3 0)
            [EvRead 64 0 128; EvSleep 0%float; EvRead 64 0 128; EvSleep 0%float;
             EvRead 64 0 0]).
  refine (reset_poll_returns_once_clear (Ev := Scenario.slow_reset_env 2) self 2
            Mock.world
            (mkWorld (Mock.mk 2 0)
               [EvRead 64 0 128; EvSleep 0%float; EvRead 64 0 128; EvSleep 0%float])
            0 _ _ _ _).
  - refine (polls_more (Ev := Scenario.slow_reset_env 2) self 1 Mock.world 32768
              (mkWorld (Mock.mk 1 0) [EvRead 64 0 128])
              (mkWorld (Mock.mk 1 0) [EvRead 64 0 128; EvSleep 0%float])
              _ _ _ _ _).
    + reflexivity.
    + reflexivity.
    + reflexivity.
    + refine (polls_more (Ev := Scenario.slow_reset_env 2) self 0 _ 32768
                (mkWorld (Mock.mk 2 0) [EvRead 64 0 128; EvSleep 0%float; EvRead 64 0 128])
                _ _ _ _ _ (polls_none self _)).
      * reflexivity.
      * reflexivity.
      * reflexivity.
  - reflexivity.
  - reflexivity.
Defined.

Lemma mean_task_fails_only_on_empty_window_witness :
  exists self w,
    SolarPower.start (Ev := Scenario.prompt_env)
      (Scenario.sampler
         (INA3221.mk INA3221.INA3221_ADDRESS SolarPower.SHUNT_RESISTOR_DEFAULT) 2)
      Mock.world = (Ret self, w) /\
    exists window,
      SolarPower._samples self = map raw_sample window /\
      Forall (fun r => raw_machine_id r = SolarPower._machine_id self) window /\
      forall w0 : World float Mock.state,
        match window with
        | [] =>
            SolarPower._calc_mean_cb (Ev := Scenario.prompt_env) self w0 =
              (Raise IndexError, mkWorld (dev w0) (trace w0))
        | _ :: _ =>
            SolarPower._calc_mean_cb (Ev := Scenario.prompt_env) self w0 =
              (Ret (SolarPower.set_samples self []),
               mkWorld (dev w0)
                 (trace w0 ++
                  [EvPrint (mean_sample (SolarPower._machine_id self)
                              "2020-01-01T00:00:00+00:00" window)]))
        end.
Proof.
  destruct (SolarPower.start (Ev := Scenario.prompt_env)
              (Scenario.sampler
                 (INA3221.mk INA3221.INA3221_ADDRESS SolarPower.SHUNT_RESISTOR_DEFAULT) 2)
              Mock.world) as [[self | e |] w] eqn:Hstart;
    try (vm_compute in Hstart; discriminate Hstart).
  exists self, w. split; [reflexivity |].
  refine (mean_task_fails_only_on_empty_window (Ev := Scenario.prompt_env)
            (fun _ => True) 0%float [sample_cb] self w _).
  eapply (reaches_start (Ev := Scenario.prompt_env)); [| | exact Hstart | exact I].
  - repeat split.
  - reflexivity.
Defined.

Lemma stale_mean_task_ends_the_loop_witness :
  exists self w ev rest,
    Scenario.after_passes Scenario2.stalled_env 3 = (Ret self, w) /\
    queue self = ev :: rest /\
    sched.action ev = calc_mean_cb /\
    SolarPower._samples self = [] /\
    forall fuel,
      SolarPower.run (Ev := Scenario2.stalled_env) (S fuel) self w =
        (Raise IndexError, mkWorld (Mock.mk 18 7) (trace w)).
Proof.
  destruct (Scenario.after_passes Scenario2.stalled_env 3) as [[self | e |] w] eqn:Hrun;
    try (vm_compute in Hrun; discriminate Hrun).
  vm_compute in Hrun. inversion Hrun; subst self w. clear Hrun.
  eexists. eexists. eexists. eexists.
  split; [reflexivity |]. split; [reflexivity |].
  split; [reflexivity |]. split; [reflexivity |].
  refine (stale_mean_task_ends_the_loop (Ev := Scenario2.stalled_env) _ _ _ _
            2.75%float (Mock.mk 18 7) _ _ _ _ _).
  - reflexivity.
  - reflexivity.
  - reflexivity.
  - vm_compute. reflexivity.
  - vm_compute. reflexivity.
Defined.

Lemma bus_failure_ends_the_loop_witness :
  let drv := INA3221.mk INA3221.INA3221_ADDRESS 0.5%float in
  let self :=
    SolarPower.set_scheduler (Scenario.sampler drv 2)
      (sched.enterabs 1%float 1 sample_cb sched.new) in
  exists ev,
    queue self = [ev] /\
    sched.action ev = sample_cb /\
    forall fuel,
      SolarPower.run (Ev := Scenario2.dead_env) (S fuel) self Mock.world
        = (Raise OSError, Mock.world).
Proof.
  intros drv self. eexists.
  split; [reflexivity |]. split; [reflexivity |].
  refine (bus_failure_ends_the_loop (Ev := Scenario2.dead_env) self Mock.world
            _ [] 1%float Mock.init Mock.init OSError _ _ _ _ _).
  - reflexivity.
  - reflexivity.
  - reflexivity.
  - vm_compute. reflexivity.
  - reflexivity.
Defined.

Lemma service_loop_never_returns_witness :
  exists self w,
    SolarPower.start (Ev := Scenario.prompt_env)
      (Scenario.sampler
         (INA3221.mk INA3221.INA3221_ADDRESS SolarPower.SHUNT_RESISTOR_DEFAULT) 2)
      Mock.world = (Ret self, w) /\
    match fst (SolarPower.run (Ev := Scenario.prompt_env) 5 self w) with
    | Ret _ => False
    | Raise _ => True
    | Spin => True
    end.
Proof.
  destruct (SolarPower.start (Ev := Scenario.prompt_env)
              (Scenario.sampler
                 (INA3221.mk INA3221.INA3221_ADDRESS SolarPower.SHUNT_RESISTOR_DEFAULT) 2)
              Mock.world) as [[self | e |] w] eqn:Hstart;
    try (vm_compute in Hstart; discriminate Hstart).
  exists self, w. split; [reflexivity |].
  refine (service_loop_never_returns (Ev := Scenario.prompt_env)
            0%float [sample_cb] self w 5 _).
  eapply (reaches_start (Ev := Scenario.prompt_env)); [| | exact Hstart | exact I].
  - repeat split.
  - reflexivity.
Defined.

Lemma on_time_window_is_exact_witness :
  exists self w ev rest,
    Scenario.after_passes Scenario.prompt_env 1 = (Ret self, w) /\
    queue self = ev :: rest /\
    sched.action ev = calc_mean_cb /\
    window_size self <= Z.max 1 (SolarPower._mean_period_cnt self) /\
    (forall ev rest,
       queue self = ev :: rest -> sched.action ev = calc_mean_cb ->
       window_size self = Z.max 1 (SolarPower._mean_period_cnt self)).
Proof.
  destruct (SolarPower.start (Ev := Scenario.prompt_env)
              (Scenario.sampler
                 (INA3221.mk INA3221.INA3221_ADDRESS SolarPower.SHUNT_RESISTOR_DEFAULT) 2)
              Mock.world) as [[s1 | e |] w1] eqn:Hstart;
    try (vm_compute in Hstart; discriminate Hstart).
  assert (Hr1 : reaches (Ev := Scenario.prompt_env) on_time 0%float [sample_cb] s1 w1).
  { eapply (reaches_start (Ev := Scenario.prompt_env)); [| | exact Hstart |].
    - repeat split.
    - reflexivity.
    - vm_compute in Hstart. inversion Hstart; subst s1 w1. prove_on_time. }
  destruct (SolarPower.run_pass (Ev := Scenario.prompt_env) s1 w1)
    as [[[| s2 | a s2] | e |] w2] eqn:Hpass;
    try (vm_compute in Hstart; inversion Hstart; subst s1 w1;
         vm_compute in Hpass; discriminate Hpass).
  assert (Hr2 : reaches (Ev := Scenario.prompt_env) on_time 0%float
                  ([sample_cb] ++ [a]) s2 w2).
  { eapply (reaches_fire (Ev := Scenario.prompt_env)); [exact Hr1 | exact Hpass |].
    vm_compute in Hstart. inversion Hstart; subst s1 w1.
    vm_compute in Hpass. inversion Hpass; subst s2 w2. prove_on_time. }
  assert (Hhead : exists ev rest,
            queue s2 = ev :: rest /\ sched.action ev = calc_mean_cb).
  { vm_compute in Hstart. inversion Hstart; subst s1 w1.
    vm_compute in Hpass. inversion Hpass; subst s2 w2.
    eexists. eexists. split; reflexivity. }
  destruct Hhead as [ev [rest [Hq Hev]]].
  exists s2, w2, ev, rest. split.
  - unfold Scenario.after_passes. rewrite (bind_Ret _ _ _ _ _ Hstart).
    cbn [passes]. rewrite (bind_Ret _ _ _ _ _ Hpass). reflexivity.
  - split; [exact Hq |]. split; [exact Hev |].
    exact (on_time_window_is_exact (Ev := Scenario.prompt_env) 0%float
             ([sample_cb] ++ [a]) s2 w2 Hr2).
Defined.

Lemma record_without_time_ends_the_bridge_witness :
  let str := fun s : string => s in
  let fromisoformat := fun s : string => inr s : exn + string in
  let write_points := fun _ : list (Bridge.measurement float) => inr true : exn + bool in
  let no_time : sample float :=
    [ ("solar", Channel [ ("v_load", 12%float); ("current", (-0.5)%float) ]) ] in
  exists evs,
    Bridge.handle_records str fromisoformat write_points "shed"
      (map raw_sample Scenario.two_raws) = (evs, Ret tt) /\
    List.length evs = 4%nat /\
    dict_get no_time "@time" = None /\
    Bridge.handle_records str fromisoformat write_points "shed"
      (map raw_sample Scenario.two_raws ++ no_time :: map raw_sample Scenario.two_raws)
      = (evs, Raise (KeyError "@time")).
Proof.
  intros str fromisoformat write_points no_time.
  destruct (Bridge.handle_records str fromisoformat write_points "shed"
              (map raw_sample Scenario.two_raws)) as [evs r] eqn:Hsent.
  assert (Hr : r = Ret tt /\ List.length evs = 4%nat).
  { vm_compute in Hsent. inversion Hsent; subst. split; reflexivity. }
  destruct Hr as [-> Hlen].
  exists evs. split; [reflexivity |]. split; [exact Hlen |]. split; [reflexivity |].
  refine (record_without_time_ends_the_bridge str fromisoformat write_points "shed"
            (map raw_sample Scenario.two_raws) evs no_time
            (map raw_sample Scenario.two_raws) Hsent _).
  reflexivity.
Defined.

Lemma mean_record_becomes_three_points_witness :
  let str := fun s : string => s in
  let fromisoformat := fun s : string => inr s : exn + string in
  let write_points := fun _ : list (Bridge.measurement float) => inr true : exn + bool in
  Scenario.two_raws <> [] /\
  exists d w',
    SolarPower._calc_mean_cb (Ev := Scenario.prompt_env) Scenario.two_sampler Mock.world
      = (Ret (SolarPower.set_samples Scenario.two_sampler []), w') /\
    trace w' = trace (F := float) Mock.world ++ [EvPrint d] /\
    let point key v i :=
      Bridge.mkMeasurement "power"
        [ ("entity_id", ("shed" ++ "." ++ key)%string);
          ("domain", "sensor"); ("sensor", "ina3221") ]
        (str "2020-01-01T00:00:00+00:00")
        (Channel [ ("v_load", mean (map v Scenario.two_raws));
                   ("current", mean (map i Scenario.two_raws)) ]) in
    let data := [ point "solar" solar_v solar_i;
                  point "battery" battery_v battery_i;
                  point "output" output_v output_i ] in
    Bridge.handle_record str fromisoformat write_points "shed" d =
      ([Bridge.Print data; Bridge.WritePoints data],
       match write_points data with
       | inr result => Ret result
       | inl e => Raise e
       end).
Proof.
  intros str fromisoformat write_points. split; [discriminate |].
  refine (mean_record_becomes_three_points (Ev := Scenario.prompt_env)
            str fromisoformat write_points "shed" Scenario.two_sampler
            Scenario.two_raws Mock.world "2020-01-01T00:00:00+00:00" _ _ _).
  - discriminate.
  - reflexivity.
  - reflexivity.
Defined.
